(** * CraftHub: the catalog front end, its administration panel and the
      download endpoint

    A shallow embedding of [App.tsx], [components/AdminPanel.tsx] and
    [pages/api/download.ts].

    - JavaScript strings are sequences of UTF-16 code units ([list N]).
    - JavaScript numbers are the finite binary64 values, carried as the
      rationals they denote.  Counters are non-negative integers (exact in
      binary64 below 2^53).  Every arithmetic operation whose result need not
      be representable is followed by the rounding [rnd] of the number
      format, a parameter of the development: [rnd := fun x => x] is exact
      arithmetic, round-to-nearest is binary64.
    - The remote services (tables, object storage, session service, HTTP) are
      an arbitrary [Backend]: an oracle that answers every request from the
      history of the run.  A handler is a computation in a small monad that
      threads the component state and the trace of observable events and may
      throw. *)

From Stdlib Require Import String Ascii.
From Stdlib Require Import ZArith NArith QArith Qround Qabs Qpower Bool Lia Lqa.
From Stdlib Require Import DecimalN DecimalPos.
From Stdlib Require Import List.
From Corelib Require PrimFloat FloatOps SpecFloat.
Import ListNotations.
Local Open Scope list_scope.

Set Implicit Arguments.

(* ===================================================================== *)
(** ** JavaScript strings *)
(* ===================================================================== *)

Module JsString.

Definition jsstring := list N.

(** A string literal of the source (ASCII only). *)
Definition lit (s : string) : jsstring :=
  map N_of_ascii (list_ascii_of_string s).

Definition eqb (a b : jsstring) : bool :=
  if list_eq_dec N.eq_dec a b then true else false.

(** Truthiness of a string: non-empty. *)
Definition truthy (s : jsstring) : bool :=
  match s with [] => false | _ :: _ => true end.

(** WhiteSpace and LineTerminator code points of ECMAScript, the ones
    [String.prototype.trim] strips. *)
Definition isWhiteSpace (c : N) : bool :=
  (  (c =? 9) || (c =? 10) || (c =? 11) || (c =? 12) || (c =? 13)
  || (c =? 32) || (c =? 160) || (c =? 5760)
  || ((8192 <=? c) && (c <=? 8202))
  || (c =? 8232) || (c =? 8233) || (c =? 8239) || (c =? 8287)
  || (c =? 12288) || (c =? 65279))%N.

Fixpoint trimStart (s : jsstring) : jsstring :=
  match s with
  | [] => []
  | c :: s' => if isWhiteSpace c then trimStart s' else s
  end.

Definition trimEnd (s : jsstring) : jsstring := rev (trimStart (rev s)).

Definition trim (s : jsstring) : jsstring := trimEnd (trimStart s).

(** [s.split(sep)] for a one-character separator. *)
Fixpoint split (sep : N) (s : jsstring) : list jsstring :=
  match s with
  | [] => [[]]
  | c :: s' =>
      if (c =? sep)%N then [] :: split sep s'
      else match split sep s' with
           | [] => [[c]]
           | seg :: segs => (c :: seg) :: segs
           end
  end.

(** [a.pop()] as a value: the last element, [undefined] on an empty array. *)
Definition pop (A : Type) (l : list A) : option A :=
  match rev l with [] => None | x :: _ => Some x end.

Definition isUpper (c : N) : bool := ((65 <=? c) && (c <=? 90))%N.
Definition isLower (c : N) : bool := ((97 <=? c) && (c <=? 122))%N.
Definition isDigit (c : N) : bool := ((48 <=? c) && (c <=? 57))%N.

(** [toLowerCase] on the ASCII range.  Code units outside it are left as they
    are: the only characters whose lower case is an ASCII letter are A-Z,
    U+0130 (to i followed by U+0307) and U+212A (to k), so a comparison of the
    result with the literal ['html'] is decided by the ASCII range.  Where the
    result is output, as the extension of a saved file, it is
    [String.prototype.toLowerCase] on strings of ASCII code units only, and
    the statements about it are made for those. *)
Definition toLowerCase (s : jsstring) : jsstring :=
  map (fun c => if isUpper c then (c + 32)%N else c) s.

(** [s.replace(/[^a-z0-9]/gi, '_')]: without the [u] flag the case-insensitive
    class [a-z0-9] matches exactly the ASCII letters and digits, and the global
    flag replaces every other code unit. *)
Definition isAlnum (c : N) : bool := isLower c || isUpper c || isDigit c.

Definition underscore : N := 95.

Definition replaceNonAlnum (s : jsstring) : jsstring :=
  map (fun c => if isAlnum c then c else underscore) s.

(** Decimal digits of a non-negative integer, most significant first. *)
Fixpoint units_of_uint (d : Decimal.uint) : jsstring :=
  match d with
  | Decimal.Nil => []
  | Decimal.D0 d => 48%N :: units_of_uint d
  | Decimal.D1 d => 49%N :: units_of_uint d
  | Decimal.D2 d => 50%N :: units_of_uint d
  | Decimal.D3 d => 51%N :: units_of_uint d
  | Decimal.D4 d => 52%N :: units_of_uint d
  | Decimal.D5 d => 53%N :: units_of_uint d
  | Decimal.D6 d => 54%N :: units_of_uint d
  | Decimal.D7 d => 55%N :: units_of_uint d
  | Decimal.D8 d => 56%N :: units_of_uint d
  | Decimal.D9 d => 57%N :: units_of_uint d
  end.

Definition digits (n : N) : jsstring := units_of_uint (N.to_uint n).

(** The value of a run of decimal digits (0 for the empty run). *)
Definition digitsValue (s : jsstring) : N :=
  fold_left (fun acc c => (10 * acc + (c - 48))%N) s 0%N.

(** The longest prefix of decimal digits, and what follows it. *)
Fixpoint spanDigits (s : jsstring) : jsstring * jsstring :=
  match s with
  | [] => ([], [])
  | c :: s' =>
      if isDigit c then let (ds, rest) := spanDigits s' in (c :: ds, rest)
      else ([], s)
  end.

Definition allDigits (s : jsstring) : Prop :=
  Forall (fun c => isDigit c = true) s.

(** A string of white space only: the strings [trim] empties. *)
Definition blank (s : jsstring) : Prop :=
  Forall (fun c => isWhiteSpace c = true) s.

End JsString.
Export JsString.


(* ===================================================================== *)
(** ** JavaScript numbers *)
(* ===================================================================== *)

Module JsNumber.

Definition pow10 (f : nat) : Z := 10 ^ Z.of_nat f.

(** The integer [n] of [Number.prototype.toFixed(f)], computed on the
    magnitude of [x]: [n / 10^f - x] is as close to zero as possible, and of
    two such [n] the larger is taken. *)
Definition toFixedN (f : nat) (x : Q) : N :=
  Z.to_N (Qfloor (Qabs x * inject_Z (pow10 f) + (1 # 2))).

Definition padZeros (width : nat) (m : jsstring) : jsstring :=
  repeat 48%N (width - length m) ++ m.

(** [x.toFixed(f)] for [|x| < 10^21] (above, JavaScript prints an exponent). *)
Definition toFixed (f : nat) (x : Q) : jsstring :=
  let m := digits (toFixedN f x) in
  let body :=
    match f with
    | O => m
    | S _ =>
        let m' := padZeros (f + 1) m in
        let k := length m' in
        firstn (k - f) m' ++ [46%N] ++ skipn (k - f) m'
    end in
  (if Qle_bool 0 x then [] else [45%N]) ++ body.

(** An optional sign in front of a literal: is it a minus, and the rest. *)
Definition parseSign (s : jsstring) : bool * jsstring :=
  match s with
  | c :: r =>
      if (c =? 45)%N then (true, r)
      else if (c =? 43)%N then (false, r)
      else (false, s)
  | [] => (false, s)
  end.

Section Arithmetic.

(** The rounding of the number format. *)
Variable rnd : Q -> Q.

Definition fmul (a b : Q) : Q := rnd (a * b).
Definition fadd (a b : Q) : Q := rnd (a + b).
Definition fdiv (a b : Q) : Q := rnd (a / b).

(** [parseFloat(s)] on plain decimal literals: leading white space, a sign,
    digits, a fraction; the longest such prefix is read and [None] is NaN.
    Exponent parts and [Infinity] are not modelled ([toFixed] prints neither
    below 10^21). *)
Definition parseFloat (s : jsstring) : option Q :=
  let '(neg, s2) := parseSign (trimStart s) in
  let '(ip, s3) := spanDigits s2 in
  let fp := match s3 with 46%N :: r => fst (spanDigits r) | _ => [] end in
  match ip, fp with
  | [], [] => None
  | _, _ =>
      let v := inject_Z (Z.of_N (digitsValue ip))
               + inject_Z (Z.of_N (digitsValue fp)) / inject_Z (pow10 (length fp)) in
      Some (rnd (if neg then - v else v))
  end.

End Arithmetic.

(** The standard model of binary64 arithmetic with gradual underflow, over
    the range the handlers use: rounding a non-negative [x] commits an error
    of at most [u * x + eta] and yields a non-negative number, and a dyadic
    [m / 2^k] with [|m| <= 2^53] is represented exactly.  Round-to-nearest
    binary64 satisfies it, and so does exact arithmetic. *)
Definition unitRoundoff : Q := 1 # (2 ^ 53).
Definition underflowUnit : Q := 1 # (2 ^ 1075).

Record StandardModel (rnd : Q -> Q) : Prop := {
  rnd_error : forall x,
    0 <= x -> x <= inject_Z (2 ^ 1023) ->
    Qabs (rnd x - x) <= unitRoundoff * x + underflowUnit;
  rnd_nonneg : forall x, 0 <= x -> 0 <= rnd x;
  rnd_dyadic : forall (m : Z) (k : nat) x,
    x == inject_Z m / inject_Z (2 ^ Z.of_nat k) ->
    (Z.abs m <= 2 ^ 53)%Z -> (k <= 1022)%nat -> rnd x == x
}.

(** Exact arithmetic. *)
Definition exact : Q -> Q := fun x => x.

End JsNumber.
Export JsNumber.

(** Round-to-nearest, ties-to-even, to 53 significant bits with the gradual
    underflow of binary64 (multiples of 2^-1074 at the bottom), on the
    rationals.  Overflow is not modelled: beyond the largest binary64 number
    the exponent keeps growing. *)
Module Binary64.

(** The nearest integer, the even one of two. *)

Definition roundHalfEven (x : Q) : Z :=
  let f := Qfloor x in
  match ((x - inject_Z f) ?= (1 # 2))%Q with
  | Lt => f
  | Eq => if Z.even f then f else (f + 1)%Z
  | Gt => (f + 1)%Z
  end.

(** The exponent [e] of a positive [x]: [2^e <= x < 2^(e+1)]. *)
Definition exponent (x : Q) : Z :=
  let e := (Z.log2 (Qnum x) - Z.log2 (Zpos (Qden x)))%Z in
  if Qle_bool (2 ^ e)%Q x then e else (e - 1)%Z.

(** The nearest multiple of the unit in the last place of a positive [x]. *)
Definition roundPositive (x : Q) : Q :=
  let g := Z.max (exponent x - 52) (-1074) in
  inject_Z (roundHalfEven (x / 2 ^ g)) * 2 ^ g.

Definition round (x : Q) : Q :=
  match Qnum x with
  | Z0 => 0
  | Zpos _ => roundPositive x
  | Zneg _ => - roundPositive (- x)
  end.

End Binary64.

(** The rational denoted by a float of the kernel, whose operations are the
    IEEE 754 binary64 ones of the machine; used to compare [Binary64.round]
    with them on sample operations. *)
Module KernelFloat.
Import PrimFloat FloatOps SpecFloat.

Definition toQ (f : float) : option Q :=
  match Prim2SF f with
  | S754_zero _ => Some 0
  | S754_finite s m e =>
      Some ((if s then -1 else 1) * inject_Z (Zpos m) * 2 ^ e)
  | _ => None
  end.

Definition same (f : float) (q : Q) : bool :=
  match toQ f with
  | Some x => Qeq_bool x q
  | None => false
  end.

(** [1 / 10], [(4.5 * 2 + 4) / 3] and [(4 * 19 + 5) / 20]. *)
Definition tenth : float := (1 / 10)%float.
Definition packAverage : float := ((4.5 * 2 + 4) / 3)%float.
Definition steadyAverage : float := ((4 * 19 + 5) / 20)%float.

(** [(1.4 * 7 + 1) / 8] and [(1.3 * 13 + 2) / 14], the decimals read as the
    nearest floats. *)
Definition tepidAverage : float := (((14 / 10) * 7 + 1) / 8)%float.
Definition coolAverage : float := (((13 / 10) * 13 + 2) / 14)%float.

End KernelFloat.




(* ===================================================================== *)
(** ** Rows, requests and observable events *)
(* ===================================================================== *)

(** A row of the [comments] table ([interface Comment]). *)
Module Comment.
Record t := mk {
  id : jsstring;
  content_id : jsstring;
  author : jsstring;
  text : jsstring;
  created_at : jsstring
}.
End Comment.

(** A row of the [content] table ([interface ContentCard]).  An absent,
    [null] or NaN number is [None]; all three are falsy. *)
Module ContentCard.
Record t := mk {
  id : jsstring;
  title : jsstring;
  author : jsstring;
  type : jsstring;
  downloads : N;
  image : jsstring;
  rating : option Q;
  ratings_count : option N;
  description : option jsstring;
  version : option jsstring;
  file_size : option jsstring;
  file_url : option jsstring;
  created_at : option jsstring;
  updated_at : option jsstring
}.

Definition with_downloads (d : N) (c : t) : t :=
  mk (id c) (title c) (author c) (type c) d (image c) (rating c)
     (ratings_count c) (description c) (version c) (file_size c)
     (file_url c) (created_at c) (updated_at c).

Definition with_rating (r : option Q) (n : N) (c : t) : t :=
  mk (id c) (title c) (author c) (type c) (downloads c) (image c) r
     (Some n) (description c) (version c) (file_size c)
     (file_url c) (created_at c) (updated_at c).
End ContentCard.

(** [interface ContentFormData] of the administration panel. *)
Module ContentFormData.
Record t := mk {
  title : jsstring;
  type : jsstring;
  description : jsstring;
  version : jsstring;
  file_size : jsstring;
  image : jsstring;
  file_url : option jsstring
}.
End ContentFormData.

(** A browser [File]: what the code reads of it. *)
Module File.
Record t := mk { name : jsstring; type : jsstring; size : N }.
End File.

(** The columns [file_url, title, downloads] the download endpoint selects. *)
Module FileRecord.
Record t := mk {
  file_url : option jsstring;
  title : jsstring;
  downloads : option N
}.
End FileRecord.

(** Requests that leave the process. *)
Inductive Request :=
| AuthGetSession
| AuthSignOut
| SelectContent (orderBy : jsstring) (ascending : bool)
| SelectFileRecord (id : jsstring)
| UpdateDownloads (id : jsstring) (downloads : N)
| UpdateRating (id : jsstring) (rating : option Q) (ratings_count : N)
| UpdateContent (id : jsstring) (data : ContentFormData.t) (updated_at : jsstring)
| InsertContent (data : ContentFormData.t) (downloads : N) (rating : Q)
    (author : jsstring)
| DeleteContent (id : jsstring)
| SelectComments (content_id : jsstring)
| InsertComment (content_id author text : jsstring)
| DeleteComment (id : jsstring)
| StorageUpload (bucket path : jsstring) (file : File.t)
    (contentType cacheControl : jsstring)
| HttpGet (url : option jsstring).

(** What a run does that can be observed from outside the component state. *)
Inductive Event :=
| Net (r : Request)
| Alert (msg : jsstring)
| ConsoleError (label : jsstring)
| ConsoleLog (label : jsstring)
| SaveFile (fileName : jsstring) (body : list N) (mime : jsstring)
| WindowOpen (url : jsstring)
| InputReset
| ResStatus (code : N)
| ResJson (errorText : jsstring)
| ResSetHeader (name value : jsstring)
| ResSend (body : list N).

Definition isNet (e : Event) : bool :=
  match e with Net _ => true | _ => false end.

Definition isUpload (e : Event) : bool :=
  match e with Net (StorageUpload _ _ _ _ _) => true | _ => false end.

Definition isRecordWrite (e : Event) : bool :=
  match e with
  | Net (UpdateContent _ _ _) | Net (InsertContent _ _ _ _) => true
  | _ => false
  end.

(** The requests of a trace, in order. *)
Definition requests (tr : list Event) : list Request :=
  flat_map (fun e => match e with Net r => [r] | _ => [] end) tr.

Record ApiError := { message : jsstring }.

(** The settlement of a promise of the client library: it resolves to
    [{ data, error }] or rejects. *)
Inductive Outcome (A : Type) :=
| Resolved (data : option A) (error : option ApiError)
| Rejected (reason : jsstring).
Arguments Rejected {A} reason.

Inductive FetchOutcome :=
| Fetched (body : list N)
| FetchFailed (reason : jsstring).

(** The remote services.  Every answer may depend on all the requests made
    so far, so the record ranges over all behaviours of store, storage, session
    service, clock and random source. *)
Record Backend := {
  session : list Request -> Request -> Outcome jsstring;
  contentRows : list Request -> Request -> Outcome (list ContentCard.t);
  commentRows : list Request -> Request -> Outcome (list Comment.t);
  fileRecord : list Request -> Request -> Outcome FileRecord.t;
  written : list Request -> Request -> Outcome unit;
  httpGet : list Request -> option jsstring -> FetchOutcome;
  getPublicUrl : jsstring -> jsstring -> jsstring;
  randomToken : list Request -> jsstring;
  nowISO : list Request -> jsstring
}.

(* ===================================================================== *)
(** ** The handler monad: component state, trace, exceptions *)
(* ===================================================================== *)

Module Run.

Record World (V : Type) := mkWorld { view : V; trace : list Event }.

Inductive Res (A : Type) :=
| Val (a : A)
| Exc (reason : jsstring).
Arguments Exc {A} reason.

Definition M (V A : Type) := World V -> Res A * World V.

Definition ret {V A} (a : A) : M V A := fun w => (Val a, w).

Definition bind {V A B} (c : M V A) (k : A -> M V B) : M V B :=
  fun w => match c w with
           | (Val a, w') => k a w'
           | (Exc e, w') => (Exc e, w')
           end.

Definition throw {V A} (e : jsstring) : M V A := fun w => (Exc e, w).

(** [try { c } catch (e) { h e }] *)
Definition tryCatch {V A} (c : M V A) (h : jsstring -> M V A) : M V A :=
  fun w => match c w with
           | (Val a, w') => (Val a, w')
           | (Exc e, w') => h e w'
           end.

(** [try { c } finally { f }] *)
Definition finally {V A} (c : M V A) (f : M V unit) : M V A :=
  fun w => match c w with
           | (r, w') =>
               match f w' with
               | (Val _, w'') => (r, w'')
               | (Exc e, w'') => (Exc e, w'')
               end
           end.

(** An [async] call that is not awaited: it runs, and a rejection is
    nobody's to catch. *)
Definition detached {V} (c : M V unit) : M V unit :=
  fun w => match c w with (_, w') => (Val tt, w') end.

Definition emit {V} (e : Event) : M V unit :=
  fun w => (Val tt, mkWorld (view w) (trace w ++ [e])).

(** A state setter, [setX(prev => f prev)]. *)
Definition update {V} (f : V -> V) : M V unit :=
  fun w => (Val tt, mkWorld (f (view w)) (trace w)).

(** Awaiting a query of the client library. *)
Definition await {V A} (oracle : list Request -> Request -> Outcome A)
    (r : Request) : M V (option A * option ApiError) :=
  fun w =>
    let w' := mkWorld (view w) (trace w ++ [Net r]) in
    match oracle (requests (trace w)) r with
    | Resolved d e => (Val (d, e), w')
    | Rejected x => (Exc x, w')
    end.

(** Awaiting [fetch(url)] and the body of its response. *)
Definition awaitFetch {V} (oracle : list Request -> option jsstring -> FetchOutcome)
    (url : option jsstring) : M V (list N) :=
  fun w =>
    let w' := mkWorld (view w) (trace w ++ [Net (HttpGet url)]) in
    match oracle (requests (trace w)) url with
    | Fetched b => (Val b, w')
    | FetchFailed x => (Exc x, w')
    end.

(** Reading the clock or the random source. *)
Definition ask {V A} (oracle : list Request -> A) : M V A :=
  fun w => (Val (oracle (requests (trace w))), w).

(** An event handler reads the state of the render it was created in. *)
Definition handle {V A} (h : V -> M V A) : M V A := fun w => h (view w) w.

Definition start {V} (v : V) : World V := mkWorld v [].

Definition viewAfter {V A} (c : M V A) (w : World V) : V := view (snd (c w)).
Definition traceAfter {V A} (c : M V A) (w : World V) : list Event :=
  trace (snd (c w)).

End Run.
Export Run.

Declare Scope handler_scope.
Delimit Scope handler_scope with handler.
Notation "x <- c ;; k" := (bind c (fun x => k))
  (at level 61, c at next level, right associativity) : handler_scope.
Notation "c ;; k" := (bind c (fun _ => k))
  (at level 61, right associativity) : handler_scope.
Notation "' pat <- c ;; k" := (bind c (fun x => match x with pat => k end))
  (at level 61, pat pattern, c at next level, right associativity) : handler_scope.

Local Open Scope handler_scope.

(** [x || []] on an array that may be [null]. *)
Definition orEmpty {A} (data : option (list A)) : list A :=
  match data with Some l => l | None => [] end.

(** Truthiness of a string that may be [null] or [undefined]. *)
Definition truthyOpt (s : option jsstring) : bool :=
  match s with Some s => truthy s | None => false end.

(* ===================================================================== *)
(** ** The public view ([App]) *)
(* ===================================================================== *)

Module App.

Import ContentCard.

Record t := mk {
  activeCategory : jsstring;
  selectedContent : option ContentCard.t;
  isAdmin : bool;
  showAdminPanel : bool;
  featuredContent : list ContentCard.t;
  error : option jsstring;
  filteredContent : list ContentCard.t;
  comments : list Comment.t;
  commentAuthor : jsstring;
  commentText : jsstring
}.

(** The [useState] initial values. *)
Definition initial : t := mk (lit "all") None false false [] None [] [] [] [].

Definition setActiveCategory (v : jsstring) (s : t) : t :=
  mk v (selectedContent s) (isAdmin s) (showAdminPanel s) (featuredContent s)
     (error s) (filteredContent s) (comments s) (commentAuthor s) (commentText s).
Definition setSelectedContent (v : option ContentCard.t) (s : t) : t :=
  mk (activeCategory s) v (isAdmin s) (showAdminPanel s) (featuredContent s)
     (error s) (filteredContent s) (comments s) (commentAuthor s) (commentText s).
Definition setIsAdmin (v : bool) (s : t) : t :=
  mk (activeCategory s) (selectedContent s) v (showAdminPanel s) (featuredContent s)
     (error s) (filteredContent s) (comments s) (commentAuthor s) (commentText s).
Definition setShowAdminPanel (v : bool) (s : t) : t :=
  mk (activeCategory s) (selectedContent s) (isAdmin s) v (featuredContent s)
     (error s) (filteredContent s) (comments s) (commentAuthor s) (commentText s).
Definition setFeaturedContent (f : list ContentCard.t -> list ContentCard.t) (s : t) : t :=
  mk (activeCategory s) (selectedContent s) (isAdmin s) (showAdminPanel s)
     (f (featuredContent s))
     (error s) (filteredContent s) (comments s) (commentAuthor s) (commentText s).
Definition setError (v : option jsstring) (s : t) : t :=
  mk (activeCategory s) (selectedContent s) (isAdmin s) (showAdminPanel s) (featuredContent s)
     v (filteredContent s) (comments s) (commentAuthor s) (commentText s).
Definition setFilteredContent (f : list ContentCard.t -> list ContentCard.t) (s : t) : t :=
  mk (activeCategory s) (selectedContent s) (isAdmin s) (showAdminPanel s) (featuredContent s)
     (error s) (f (filteredContent s)) (comments s) (commentAuthor s) (commentText s).
Definition setComments (f : list Comment.t -> list Comment.t) (s : t) : t :=
  mk (activeCategory s) (selectedContent s) (isAdmin s) (showAdminPanel s) (featuredContent s)
     (error s) (filteredContent s) (f (comments s)) (commentAuthor s) (commentText s).
Definition setCommentAuthor (v : jsstring) (s : t) : t :=
  mk (activeCategory s) (selectedContent s) (isAdmin s) (showAdminPanel s) (featuredContent s)
     (error s) (filteredContent s) (comments s) v (commentText s).
Definition setCommentText (v : jsstring) (s : t) : t :=
  mk (activeCategory s) (selectedContent s) (isAdmin s) (showAdminPanel s) (featuredContent s)
     (error s) (filteredContent s) (comments s) (commentAuthor s) v.

(** The predicate of the [filter] in the category effect (the [switch]). *)
Definition matchesCategory (activeCategory : jsstring) (content : ContentCard.t) : bool :=
  if eqb activeCategory (lit "resource-packs") then eqb (type content) (lit "Resource Pack")
  else if eqb activeCategory (lit "mods") then eqb (type content) (lit "Mod")
  else if eqb activeCategory (lit "clients") then eqb (type content) (lit "Client")
  else true.

(** [item.id === id ? updated : item] under [prev.map]. *)
Definition replaceById (id0 : jsstring) (updated : ContentCard.t)
    (prev : list ContentCard.t) : list ContentCard.t :=
  map (fun item => if eqb (id item) id0 then updated else item) prev.

Section Handlers.

Variable rnd : Q -> Q.
Variable be : Backend.

(** [useEffect(..., [activeCategory, featuredContent])] *)
Definition categoryEffect : M t unit :=
  handle (fun s =>
    if eqb (activeCategory s) (lit "all") then
      update (setFilteredContent (fun _ => featuredContent s))
    else
      let filtered := filter (matchesCategory (activeCategory s)) (featuredContent s) in
      update (setFilteredContent (fun _ => filtered))).

(** A click on a category button, and the effect of the render it causes. *)
Definition selectCategory (categoryId : jsstring) : M t unit :=
  update (setActiveCategory categoryId) ;; categoryEffect.

Definition checkAdmin : M t unit :=
  tryCatch
    ('(session, authError) <- await (session be) AuthGetSession ;;
     match authError with
     | Some _ =>
         emit (ConsoleError (lit "Auth error:")) ;;
         update (setIsAdmin false)
     | None =>
         let isUserAdmin := match session with Some _ => true | None => false end in
         emit (ConsoleLog (lit "Admin status check:")) ;;
         update (setIsAdmin isUserAdmin)
     end)
    (fun _ =>
       emit (ConsoleError (lit "Error checking admin status:")) ;;
       update (setIsAdmin false)).

Definition fetchContent : M t unit :=
  tryCatch
    ('(data, error) <- await (contentRows be) (SelectContent (lit "downloads") false) ;;
     match error with
     | Some _ =>
         update (setError (Some (lit "Error fetching content. Please try again later."))) ;;
         emit (ConsoleError (lit "Error fetching content:"))
     | None =>
         update (setFeaturedContent (fun _ => orEmpty data)) ;;
         update (setFilteredContent (fun _ => orEmpty data)) ;;
         update (setError None)
     end)
    (fun _ =>
       update (setError (Some (lit "An unexpected error occurred. Please try again later."))) ;;
       emit (ConsoleError (lit "Unexpected error:"))).

Definition handleLogin : M t unit :=
  update (setIsAdmin true) ;; update (setShowAdminPanel true).

Definition handleLogout : M t unit :=
  tryCatch
    (_ <- await (written be) AuthSignOut ;;
     update (setIsAdmin false) ;;
     update (setShowAdminPanel false))
    (fun _ => emit (ConsoleError (lit "Error signing out:"))).

(** [content.downloads + 1] is the sum of the integers here; it is the
    binary64 sum of the code while the count is below 2^53, the range for
    which the value sent is stated. *)
Definition handleDownload (s : t) (content : ContentCard.t) : M t unit :=
  tryCatch
    (match file_url content with
     | None | Some [] => emit (Alert (lit "No file available for download."))
     | Some url =>
         tryCatch
           ('(_, error) <- await (written be)
                             (UpdateDownloads (id content) (downloads content + 1)) ;;
            match error with
            | Some _ => emit (ConsoleError (lit "Error updating download count:"))
            | None => ret tt
            end)
           (fun _ => emit (ConsoleError (lit "Error in download count update:"))) ;;
         tryCatch
           (blob <- awaitFetch (httpGet be) (Some url) ;;
            let fileExt :=
              match pop (split 46 url) with
              | Some ext =>
                  if truthy (toLowerCase ext) then toLowerCase ext else lit "html"
              | None => lit "html"
              end in
            let fileName := replaceNonAlnum (title content) ++ lit "." ++ fileExt in
            emit (SaveFile fileName blob (lit "application/octet-stream")) ;;
            (* [error] is the component's banner state here: the response's
               [error] went out of scope with the inner [try]. *)
            if negb (truthyOpt (error s)) then
              let updatedContent := with_downloads (downloads content + 1) content in
              update (setFeaturedContent (replaceById (id content) updatedContent)) ;;
              update (setFilteredContent (replaceById (id content) updatedContent))
            else ret tt)
           (fun _ =>
              emit (ConsoleError (lit "Download error:")) ;;
              emit (Alert (lit "Download started in a new tab. You may need to save the file manually.")) ;;
              emit (WindowOpen url))
     end)
    (fun _ =>
       emit (ConsoleError (lit "Error handling download:")) ;;
       emit (Alert (lit "Failed to download. Please try again later."))).

(** [selectedContent || filteredContent.find(item => item.id === contentId)] *)
Definition ratedContent (s : t) (contentId : jsstring) : option ContentCard.t :=
  match selectedContent s with
  | Some c => Some c
  | None => find (fun item => eqb (id item) contentId) (filteredContent s)
  end.

(** [content.rating || 0] *)
Definition currentRating (content : ContentCard.t) : Q :=
  match rating content with Some r => r | None => 0 end.

(** [content.ratings_count || 0] *)
Definition ratingsCount (content : ContentCard.t) : N :=
  match ratings_count content with Some n => n | None => 0%N end.

(** [((currentRating * ratingsCount) + rating) / newRatingsCount] *)
Definition newRating (content : ContentCard.t) (rating : Z) : Q :=
  fdiv rnd
    (fadd rnd
       (fmul rnd (currentRating content) (inject_Z (Z.of_N (ratingsCount content))))
       (inject_Z rating))
    (inject_Z (Z.of_N (ratingsCount content + 1))).

(** [parseFloat(newRating.toFixed(1))] *)
Definition roundedRating (content : ContentCard.t) (rating : Z) : option Q :=
  parseFloat rnd (toFixed 1 (newRating content rating)).

Definition handleRate (s : t) (contentId : jsstring) (rating : Z) : M t unit :=
  tryCatch
    (match ratedContent s contentId with
     | None => ret tt
     | Some content =>
         let newRatingsCount := (ratingsCount content + 1)%N in
         '(_, error) <- await (written be)
                          (UpdateRating contentId (roundedRating content rating)
                                        newRatingsCount) ;;
         match error with
         | Some _ => emit (ConsoleError (lit "Error updating rating:"))
         | None =>
             let updatedContent :=
               with_rating (roundedRating content rating) newRatingsCount content in
             match selectedContent s with
             | Some sc =>
                 if eqb (id sc) contentId
                 then update (setSelectedContent (Some updatedContent))
                 else ret tt
             | None => ret tt
             end ;;
             update (setFeaturedContent (replaceById contentId updatedContent)) ;;
             update (setFilteredContent (replaceById contentId updatedContent)) ;;
             emit (Alert (lit "Thank you for rating!"))
         end
     end)
    (fun _ => emit (ConsoleError (lit "Rating error:"))).

Definition fetchComments (contentId : jsstring) : M t unit :=
  tryCatch
    (emit (ConsoleLog (lit "Fetching comments for content:")) ;;
     '(data, error) <- await (commentRows be) (SelectComments contentId) ;;
     match error with
     | Some _ => emit (ConsoleError (lit "Error fetching comments:"))
     | None =>
         emit (ConsoleLog (lit "Comments fetched:")) ;;
         update (setComments (fun _ => orEmpty data))
     end)
    (fun _ => emit (ConsoleError (lit "Error in fetchComments:"))).

Definition postComment (s : t) (contentId : jsstring) : M t unit :=
  tryCatch
    (if negb (truthy (trim (commentAuthor s))) || negb (truthy (trim (commentText s)))
     then emit (Alert (lit "Please enter your name and comment"))
     else
       emit (ConsoleLog (lit "Submitting comment:")) ;;
       '(data, error) <- await (commentRows be)
                           (InsertComment contentId (trim (commentAuthor s))
                                          (trim (commentText s))) ;;
       match error with
       | Some e =>
           emit (ConsoleError (lit "Error posting comment:")) ;;
           emit (Alert (lit "Failed to post comment: " ++ message e))
       | None =>
           emit (ConsoleLog (lit "Comment posted successfully:")) ;;
           match data with
           | Some (newComment :: _) =>
               update (setComments (fun prevComments => newComment :: prevComments)) ;;
               update (setCommentText []) ;;
               emit (Alert (lit "Comment posted successfully!"))
           | _ =>
               emit (ConsoleLog (lit "Fetching all comments after post")) ;;
               detached (fetchComments contentId)
           end
       end)
    (fun _ =>
       emit (ConsoleError (lit "Error in postComment:")) ;;
       emit (Alert (lit "An error occurred while posting your comment."))).

Definition deleteComment (s : t) (commentId : jsstring) : M t unit :=
  tryCatch
    (if negb (isAdmin s) then
       emit (ConsoleError (lit "Unauthorized deletion attempt")) ;;
       emit (Alert (lit "Only administrators can delete comments."))
     else
       '(_, error) <- await (written be) (DeleteComment commentId) ;;
       match error with
       | Some e =>
           emit (ConsoleError (lit "Error deleting comment:")) ;;
           emit (Alert (lit "Failed to delete comment: " ++ message e))
       | None =>
           update (setComments
                     (filter (fun comment => negb (eqb (Comment.id comment) commentId)))) ;;
           emit (Alert (lit "Comment deleted successfully"))
       end)
    (fun _ =>
       emit (ConsoleError (lit "Error in deleteComment:")) ;;
       emit (Alert (lit "An error occurred while deleting the comment."))).

Definition handleSelectContent (content : ContentCard.t) : M t unit :=
  update (setSelectedContent (Some content)) ;;
  detached (fetchComments (id content)).

End Handlers.

(** What [App] returns: the login form, the administration panel, the detail
    page of the selected item, or the catalogue. *)
Inductive Screen :=
| Login
| Panel
| Detail (content : ContentCard.t)
| Catalogue.

Definition render (s : t) : Screen :=
  if negb (isAdmin s) && showAdminPanel s then Login
  else if showAdminPanel s then Panel
  else match selectedContent s with
       | Some content => Detail content
       | None => Catalogue
       end.

(** [onClick={() => setShowAdminPanel(true)}], the header button of the
    catalogue and of the detail page. *)
Definition openAdminPanel : M t unit := update (setShowAdminPanel true).

(** The download button of the detail page,
    [onClick={() => handleDownload(selectedContent)}]; the page is rendered
    only while an item is selected. *)
Definition downloadSelected (be : Backend) : M t unit :=
  handle (fun s =>
    match selectedContent s with
    | Some content => handleDownload be s content
    | None => ret tt
    end).

(** A star button of the detail page,
    [onClick={() => handleRate(selectedContent.id, star)}]. *)
Definition rateSelected (rnd : Q -> Q) (be : Backend) (star : Z) : M t unit :=
  handle (fun s =>
    match selectedContent s with
    | Some content => handleRate rnd be s (id content) star
    | None => ret tt
    end).

End App.

(* ===================================================================== *)
(** ** The administration panel ([AdminPanel]) *)
(* ===================================================================== *)

Module AdminPanel.

Record t := mk {
  formData : ContentFormData.t;
  content : list ContentCard.t;
  isEditing : option jsstring;
  file : option File.t;
  uploading : bool;
  error : option jsstring;
  deletingId : option jsstring;
  showDeleteConfirm : bool;
  authStatus : jsstring
}.

Definition emptyForm : ContentFormData.t :=
  ContentFormData.mk [] (lit "Resource Pack") [] [] [] [] None.

Definition initial : t :=
  mk emptyForm [] None None false None None false (lit "Checking...").

Definition setFormData (v : ContentFormData.t) (s : t) : t :=
  mk v (content s) (isEditing s) (file s) (uploading s) (error s)
     (deletingId s) (showDeleteConfirm s) (authStatus s).
Definition setContent (f : list ContentCard.t -> list ContentCard.t) (s : t) : t :=
  mk (formData s) (f (content s)) (isEditing s) (file s) (uploading s) (error s)
     (deletingId s) (showDeleteConfirm s) (authStatus s).
Definition setIsEditing (v : option jsstring) (s : t) : t :=
  mk (formData s) (content s) v (file s) (uploading s) (error s)
     (deletingId s) (showDeleteConfirm s) (authStatus s).
Definition setFile (v : option File.t) (s : t) : t :=
  mk (formData s) (content s) (isEditing s) v (uploading s) (error s)
     (deletingId s) (showDeleteConfirm s) (authStatus s).
Definition setUploading (v : bool) (s : t) : t :=
  mk (formData s) (content s) (isEditing s) (file s) v (error s)
     (deletingId s) (showDeleteConfirm s) (authStatus s).
Definition setError (v : option jsstring) (s : t) : t :=
  mk (formData s) (content s) (isEditing s) (file s) (uploading s) v
     (deletingId s) (showDeleteConfirm s) (authStatus s).
Definition setDeletingId (v : option jsstring) (s : t) : t :=
  mk (formData s) (content s) (isEditing s) (file s) (uploading s) (error s)
     v (showDeleteConfirm s) (authStatus s).
Definition setShowDeleteConfirm (v : bool) (s : t) : t :=
  mk (formData s) (content s) (isEditing s) (file s) (uploading s) (error s)
     (deletingId s) v (authStatus s).

(** [50 * 1024 * 1024] *)
Definition maxFileSize : N := 50 * 1024 * 1024.

(** [prev.filter(item => item.id !== id)] *)
Definition removeById (id0 : jsstring) (prev : list ContentCard.t) : list ContentCard.t :=
  filter (fun item => negb (eqb (ContentCard.id item) id0)) prev.

(** [file.type === 'text/html' || fileExt?.toLowerCase() === 'html'] *)
Definition isHtmlUpload (file : File.t) : bool :=
  let fileExt := pop (split 46 (File.name file)) in
  eqb (File.type file) (lit "text/html")
  || match fileExt with
     | Some ext => eqb (toLowerCase ext) (lit "html")
     | None => false
     end.

Section Handlers.

Variable rnd : Q -> Q.
Variable be : Backend.

Definition fetchContent : M t unit :=
  '(data, error) <- await (contentRows be) (SelectContent (lit "created_at") false) ;;
  match error with
  | Some _ => emit (ConsoleError (lit "Error fetching content:"))
  | None => update (setContent (fun _ => orEmpty data))
  end.

(** [(file.size / (1024 * 1024)).toFixed(2) + 'MB'] *)
Definition sizeLabel (file : File.t) : jsstring :=
  toFixed 2 (fdiv rnd (inject_Z (Z.of_N (File.size file))) (inject_Z (1024 * 1024)))
  ++ lit "MB".

(** [`content/${uniqueId}-${file.name}`] *)
Definition objectPath (uniqueId : jsstring) (file : File.t) : jsstring :=
  lit "content/" ++ (uniqueId ++ lit "-" ++ File.name file).

(** Returns [{ url, size }]. *)
Definition uploadFile (file : File.t) : M t (jsstring * jsstring) :=
  finally
    (tryCatch
       (update (setUploading true) ;;
        uniqueId <- ask (randomToken be) ;;
        let filePath := objectPath uniqueId file in
        let contentType :=
          if isHtmlUpload file then lit "application/octet-stream"
          else File.type file in
        '(_, uploadError) <- await (written be)
                               (StorageUpload (lit "content-files") filePath file
                                              contentType (lit "3600")) ;;
        match uploadError with
        | Some e => throw (message e)
        | None =>
            let publicUrl := getPublicUrl be (lit "content-files") filePath in
            ret (publicUrl, sizeLabel file)
        end)
       (fun err => emit (ConsoleError (lit "Error uploading file:")) ;; throw err))
    (update (setUploading false)).

(** [{ ...formData, file_size: fileData?.size || formData.file_size,
       file_url: fileData?.url || formData.file_url }] *)
Definition contentData (formData : ContentFormData.t)
    (fileData : option (jsstring * jsstring)) : ContentFormData.t :=
  ContentFormData.mk
    (ContentFormData.title formData)
    (ContentFormData.type formData)
    (ContentFormData.description formData)
    (ContentFormData.version formData)
    (match fileData with
     | Some (_, size) => if truthy size then size else ContentFormData.file_size formData
     | None => ContentFormData.file_size formData
     end)
    (ContentFormData.image formData)
    (match fileData with
     | Some (url, _) => if truthy url then Some url else ContentFormData.file_url formData
     | None => ContentFormData.file_url formData
     end).

Definition handleSubmit (s : t) : M t unit :=
  update (setError None) ;;
  tryCatch
    (fileData <- match file s with
                 | Some f => (r <- uploadFile f ;; ret (Some r))
                 | None => ret None
                 end ;;
     let data := contentData (formData s) fileData in
     match isEditing s with
     | Some (c :: editing) =>
         updated_at <- ask (nowISO be) ;;
         '(_, error) <- await (written be) (UpdateContent (c :: editing) data updated_at) ;;
         match error with Some e => throw (message e) | None => ret tt end
     | _ =>
         '(_, error) <- await (written be) (InsertContent data 0 0 (lit "admin")) ;;
         match error with Some e => throw (message e) | None => ret tt end
     end ;;
     update (setFormData emptyForm) ;;
     update (setIsEditing None) ;;
     update (setFile None) ;;
     detached fetchContent)
    (fun _ =>
       emit (ConsoleError (lit "Error saving content:")) ;;
       update (setError (Some (lit "Failed to save content. Please try again.")))).

Definition handleDelete (id : jsstring) : M t unit :=
  tryCatch
    (update (setError None) ;;
     emit (ConsoleLog (lit "Attempting to delete content with ID:")) ;;
     '(_, error) <- await (written be) (DeleteContent id) ;;
     match error with
     | Some _ =>
         emit (ConsoleError (lit "Supabase delete error:")) ;;
         update (setContent (removeById id)) ;;
         emit (ConsoleLog (lit "Removed from local state due to server error"))
     | None => fetchContent
     end ;;
     update (setDeletingId None) ;;
     update (setShowDeleteConfirm false))
    (fun _ =>
       emit (ConsoleError (lit "Error deleting content:")) ;;
       update (setError (Some (lit "Failed to delete content on server, but removed from view."))) ;;
       update (setContent (removeById id))).

Definition confirmDelete (id : jsstring) : M t unit :=
  update (setDeletingId (Some id)) ;; update (setShowDeleteConfirm true).

(** The Cancel button of the confirmation dialog. *)
Definition cancelDelete : M t unit :=
  update (setShowDeleteConfirm false) ;; update (setDeletingId None).

(** The Delete button of the dialog: [deletingId && handleDelete(deletingId)]. *)
Definition confirmedDelete (s : t) : M t unit :=
  match deletingId s with
  | Some (c :: id) => handleDelete (c :: id)
  | _ => ret tt
  end.

(** [selectedFile] is [e.target.files?.[0] || null]. *)
Definition handleFileChange (selectedFile : option File.t) : M t unit :=
  match selectedFile with
  | Some f =>
      if (maxFileSize <? File.size f)%N then
        update (setError (Some (lit "File size exceeds the 50MB limit. Please select a smaller file."))) ;;
        emit InputReset
      else
        update (setFile (Some f)) ;; update (setError None)
  | None => update (setFile None) ;; update (setError None)
  end.

End Handlers.

Definition setAuthStatus (v : jsstring) (s : t) : t :=
  mk (formData s) (content s) (isEditing s) (file s) (uploading s) (error s)
     (deletingId s) (showDeleteConfirm s) v.

(** [checkAuthStatus]: the session is read for the e-mail address of its
    user, which stands for it here; the call is not guarded by a [try]. *)
Definition checkAuthStatus (be : Backend) : M t unit :=
  '(session, _) <- await (session be) AuthGetSession ;;
  match session with
  | Some email => update (setAuthStatus (lit "Authenticated as: " ++ email))
  | None => update (setAuthStatus (lit "Not authenticated - delete may not work"))
  end.

End AdminPanel.

(* ===================================================================== *)
(** ** The download endpoint ([pages/api/download.ts]) *)
(* ===================================================================== *)

Module Download.

Definition quote : N := 34.

(** [`attachment; filename="${title.replace(/[^a-z0-9]/gi, '_')}.html"`] *)
Definition contentDisposition (title : jsstring) : jsstring :=
  lit "attachment; filename=" ++ [quote]
  ++ (replaceNonAlnum title ++ lit ".html") ++ [quote].

Section Handler.

Variable be : Backend.

(** [(data.downloads || 0) + 1] is the sum of the integers, as in
    [handleDownload]. *)
Definition handler (id : jsstring) : M unit unit :=
  tryCatch
    ('(data, error) <- await (fileRecord be) (SelectFileRecord id) ;;
     match error, data with
     | None, Some data =>
         _ <- await (written be)
                (UpdateDownloads id
                   (match FileRecord.downloads data with Some d => d | None => 0 end + 1)) ;;
         fileBuffer <- awaitFetch (httpGet be) (FileRecord.file_url data) ;;
         emit (ResSetHeader (lit "Content-Disposition")
                            (contentDisposition (FileRecord.title data))) ;;
         emit (ResSetHeader (lit "Content-Type") (lit "application/octet-stream")) ;;
         emit (ResSetHeader (lit "Content-Length")
                            (digits (N.of_nat (length fileBuffer)))) ;;
         emit (ResSend fileBuffer)
     | _, _ =>
         emit (ResStatus 404) ;; emit (ResJson (lit "File not found"))
     end)
    (fun _ =>
       emit (ConsoleError (lit "Error in download API:")) ;;
       emit (ResStatus 500) ;; emit (ResJson (lit "Server error"))).

End Handler.


End Download.

(* ===================================================================== *)
(** ** Sample data and remote services *)
(* ===================================================================== *)

Module Scenario.

(** The first two rows the migration inserts, the first already rated twice
    and without a file, the second with a file. *)
Definition pack : ContentCard.t :=
  ContentCard.mk (lit "c1") (lit "Modern UI Resource Pack") (lit "admin")
    (lit "Resource Pack") 1200 (lit "https://images.example/ui.png")
    (Some (45 # 10)) (Some 2%N)
    (Some (lit "A sleek, modern UI overhaul for Minecraft")) (Some (lit "1.0.0"))
    (Some (lit "24MB")) None None None.

Definition shaders : ContentCard.t :=
  ContentCard.mk (lit "c2") (lit "Enhanced Graphics Mod") (lit "admin")
    (lit "Mod") 2500 (lit "https://images.example/shaders.png")
    (Some (48 # 10)) (Some 10%N)
    (Some (lit "Enhance your Minecraft graphics with realistic shaders"))
    (Some (lit "2.1.0")) (Some (lit "156MB"))
    (Some (lit "https://files.example/content/shaders.zip")) None None.

(** An item nobody has rated yet. *)
Definition fresh : ContentCard.t :=
  ContentCard.mk (lit "c3") (lit "Speed Runner Client") (lit "admin")
    (lit "Client") 0 (lit "https://images.example/client.png")
    (Some 0) None None (Some (lit "1.5.2")) None None None None.

(** An item rated 4.0 over nineteen ratings. *)
Definition steady : ContentCard.t :=
  ContentCard.mk (lit "c4") (lit "Faithful Textures") (lit "admin")
    (lit "Resource Pack") 310 (lit "https://images.example/faithful.png")
    (Some 4) (Some 19%N) None (Some (lit "3.2")) (Some (lit "12.40MB"))
    (Some (lit "https://files.example/content/faithful.zip")) None None.

Definition praise : Comment.t :=
  Comment.mk (lit "m1") (lit "c1") (lit "Alex") (lit "Looks great")
    (lit "2025-03-26T15:00:00Z").

Definition spam : Comment.t :=
  Comment.mk (lit "m2") (lit "c1") (lit "Bot") (lit "Buy now")
    (lit "2025-03-26T16:00:00Z").

Definition ok {A} : Outcome A := Resolved None None.

Definition refused {A} : Outcome A :=
  Resolved None (Some {| message := lit "permission denied" |}).

(** Remote services that give every request of a kind the same answer. *)
Definition services (writes : Outcome unit) (contents : Outcome (list ContentCard.t))
    (remarks : Outcome (list Comment.t)) (found : Outcome FileRecord.t)
    (fetched : FetchOutcome) : Backend :=
  {| session := fun _ _ => ok;
     contentRows := fun _ _ => contents;
     commentRows := fun _ _ => remarks;
     fileRecord := fun _ _ => found;
     written := fun _ _ => writes;
     httpGet := fun _ _ => fetched;
     getPublicUrl := fun bucket path =>
       lit "https://storage.example/object/public/" ++ bucket ++ lit "/" ++ path;
     randomToken := fun _ => lit "k3x9";
     nowISO := fun _ => lit "2025-03-26T14:43:18.000Z" |}.

(** Every call succeeds and returns nothing. *)
Definition quiet : Backend :=
  services ok ok ok ok (Fetched []).

(** Every call answers with an error. *)
Definition denying : Backend :=
  services refused refused refused refused (FetchFailed (lit "offline")).

(** No call gets through. *)
Definition offline : Backend :=
  services (Rejected (lit "Failed to fetch")) (Rejected (lit "Failed to fetch"))
           (Rejected (lit "Failed to fetch")) (Rejected (lit "Failed to fetch"))
           (FetchFailed (lit "Failed to fetch")).

(** The public view showing the detail page of [pack] to a visitor who has
    typed a comment. *)
Definition visitor : App.t :=
  App.mk (lit "all") (Some pack) false false [pack; shaders; fresh] None
         [pack; shaders; fresh] [spam; praise] (lit " Sam ") (lit "Nice pack!").

(** The same page in an administrator's session. *)
Definition moderator : App.t := App.setIsAdmin true visitor.

(** The same page with an empty name in the comment form. *)
Definition anonymous : App.t := App.setCommentAuthor (lit "   ") visitor.

Definition guide : File.t :=
  File.mk (lit "guide.v2.HTML") (lit "") 1572864.

Definition oversized : File.t :=
  File.mk (lit "world.zip") (lit "application/zip") 52428801.

(** The administration panel listing two items, a file picked in the form
    and the delete dialog open on [pack]. *)
Definition panel : AdminPanel.t :=
  AdminPanel.mk
    (ContentFormData.mk (lit "Test Pack") (lit "Resource Pack") (lit "A pack")
       (lit "1.0") (lit "") (lit "https://images.example/t.png") None)
    [pack; shaders] None (Some guide) false None (Some (lit "c1")) true
    (lit "Authenticated as: admin@admin.com").

Definition stored : FileRecord.t :=
  FileRecord.mk (Some (lit "https://files.example/content/shaders.zip"))
    (lit "Enhanced Graphics Mod") (Some 2500%N).

(** The third row the migration inserts: rated 4.2 by the seed, and no count
    of ratings. *)
Definition seeded : ContentCard.t :=
  ContentCard.mk (lit "c5") (lit "Speed Runner Client") (lit "admin")
    (lit "Client") 3100 (lit "https://images.example/runner.png")
    (Some (42 # 10)) None
    (Some (lit "Optimized client for Minecraft speedrunning")) (Some (lit "1.5.2"))
    (Some (lit "85MB")) None None None.

(** The catalogue narrowed to mods, with nothing selected. *)
Definition browsing : App.t :=
  App.mk (lit "mods") None false false [pack; shaders; seeded] None [shaders] [] [] [].

(** The detail page of [shaders]. *)
Definition reading : App.t := App.setSelectedContent (Some shaders) visitor.

(** [be] with a session service that always answers [answer]. *)
Definition withSession (answer : Outcome jsstring) (be : Backend) : Backend :=
  {| session := fun _ _ => answer;
     contentRows := contentRows be;
     commentRows := commentRows be;
     fileRecord := fileRecord be;
     written := written be;
     httpGet := httpGet be;
     getPublicUrl := getPublicUrl be;
     randomToken := randomToken be;
     nowISO := nowISO be |}.

(** The administration panel at rest: no file picked, no dialog. *)
Definition idle : AdminPanel.t :=
  AdminPanel.mk
    (ContentFormData.mk (lit "Test Pack") (lit "Resource Pack") (lit "A pack")
       (lit "1.0") (lit "2MB") (lit "https://images.example/t.png") None)
    [pack; shaders] None None false None None false
    (lit "Authenticated as: admin@admin.com").

(** Two items whose next rating averages to 27/20: 1.4 over seven ratings
    (with one star) and 1.3 over thirteen (with two stars), the ratings being
    the binary64 numbers of these decimals. *)
Definition tepid : ContentCard.t :=
  ContentCard.mk (lit "c6") (lit "Pocket Edition Port") (lit "admin")
    (lit "Mod") 40 (lit "https://images.example/port.png")
    (Some (Binary64.round (14 # 10))) (Some 7%N) None (Some (lit "0.3"))
    None None None None.

Definition cool : ContentCard.t :=
  ContentCard.mk (lit "c7") (lit "Legacy Launcher") (lit "admin")
    (lit "Client") 75 (lit "https://images.example/launcher.png")
    (Some (Binary64.round (13 # 10))) (Some 13%N) None (Some (lit "0.9"))
    None None None None.

(** A file of exactly 50 * 1024 * 1024 bytes. *)
Definition brimful : File.t :=
  File.mk (lit "world.zip") (lit "application/zip") 52428800.

End Scenario.

(* ===================================================================== *)
(** ** Notions of the specification *)
(* ===================================================================== *)

Module Spec.

(** The running average of the specification, [(R * N + S) / (N + 1)], for a
    rating of [r] tenths over [n] prior ratings and a new star. *)
Definition exactAverage (r : Z) (n : N) (star : Z) : Q :=
  ((r # 10) * inject_Z (Z.of_N n) + inject_Z star) / inject_Z (Z.of_N (n + 1)).

(** [x] is the number the format holds for the decimal of [r] tenths: what
    reading [r / 10] from the store, or from [toFixed(1)], yields. *)
Definition tenths (rnd : Q -> Q) (x : Q) (r : Z) : Prop :=
  exists q, q == r # 10 /\ x == rnd q.

(** [n] tenths is [x] rounded to one decimal place. *)
Definition nearestTenth (n : N) (x : Q) : Prop :=
  Qabs (inject_Z (Z.of_N n) / 10 - x) <= 1 # 20.

(** [n] hundredths is [x] rounded to two decimal places, halves upwards. *)
Definition roundedHundredths (n : N) (x : Q) : Prop :=
  inject_Z (Z.of_N n) <= x * 100 + (1 # 2) /\ x * 100 + (1 # 2) < inject_Z (Z.of_N n) + 1.

End Spec.
Export Spec.

(* ===================================================================== *)
(** * Properties *)
(* ===================================================================== *)

Lemma eqb_eq a b : eqb a b = true <-> a = b.
Proof.
  unfold eqb. destruct (list_eq_dec N.eq_dec a b); split; congruence.
Qed.

Lemma eqb_refl a : eqb a a = true.
Proof. now apply eqb_eq. Qed.

Example split_demo : split 46 (lit "a.b.html") = [lit "a"; lit "b"; lit "html"].
Proof. reflexivity. Qed.

Example digits_demo : digits 1205 = lit "1205" /\ digits 0 = lit "0".
Proof. split; reflexivity. Qed.

Example toFixed_demo :
  toFixed 1 (13 # 3) = lit "4.3" /\ toFixed 2 (1 # 200) = lit "0.01"
  /\ toFixed 1 (4 # 1) = lit "4.0" /\ toFixed 2 (- (5 # 4)) = lit "-1.25"
  /\ toFixed 0 (5 # 2) = lit "3".
Proof. repeat split; reflexivity. Qed.

Example parseFloat_demo :
  parseFloat (fun x => x) (lit "4.3") = Some (4 + 3 / 10)
  /\ parseFloat (fun x => x) (lit "abc") = None.
Proof. split; reflexivity. Qed.

(* ===================================================================== *)
(** ** Printing and reading decimals *)
(* ===================================================================== *)

Section DecimalFacts.

Let step := fun (acc c : N) => (10 * acc + (c - 48))%N.

Lemma fold_units_pos d acc :
  fold_left step (units_of_uint d) (Npos acc) = Npos (Pos.of_uint_acc d acc).
Proof.
  revert acc; induction d; intros acc;
    cbn [units_of_uint fold_left Pos.of_uint_acc]; trivial;
    rewrite <- IHd; f_equal; unfold step; lia.
Qed.

Lemma digitsValue_units d : digitsValue (units_of_uint d) = N.of_uint d.
Proof.
  unfold digitsValue, N.of_uint. fold step.
  induction d; cbn [units_of_uint fold_left Pos.of_uint]; trivial;
    apply fold_units_pos.
Qed.

Lemma digitsValue_digits n : digitsValue (digits n) = n.
Proof. unfold digits. rewrite digitsValue_units. apply DecimalN.Unsigned.of_to. Qed.

Lemma fold_step_shift b acc :
  fold_left step b acc
  = (acc * 10 ^ N.of_nat (length b) + fold_left step b 0)%N.
Proof.
  revert acc; induction b as [|c b IH]; intros acc.
  - simpl. lia.
  - cbn [fold_left length]. rewrite IH, (IH (step 0%N c)).
    rewrite Nat2N.inj_succ, N.pow_succ_r'. unfold step. lia.
Qed.

Lemma digitsValue_app a b :
  digitsValue (a ++ b)
  = (digitsValue a * 10 ^ N.of_nat (length b) + digitsValue b)%N.
Proof.
  unfold digitsValue. fold step. rewrite fold_left_app. apply fold_step_shift.
Qed.

Lemma digitsValue_zeros k m : digitsValue (repeat 48%N k ++ m) = digitsValue m.
Proof.
  rewrite digitsValue_app.
  assert (E : digitsValue (repeat 48%N k) = 0%N).
  { unfold digitsValue. induction k; simpl; auto. }
  rewrite E. lia.
Qed.

End DecimalFacts.

Lemma allDigits_units d : allDigits (units_of_uint d).
Proof. induction d; simpl; constructor; auto. Qed.

Lemma allDigits_repeat k : allDigits (repeat 48%N k).
Proof. induction k; simpl; constructor; auto. Qed.

Lemma allDigits_app a b : allDigits a -> allDigits b -> allDigits (a ++ b).
Proof. apply Forall_app_intro || (intros; apply Forall_app; auto). Qed.

Lemma allDigits_firstn k s : allDigits s -> allDigits (firstn k s).
Proof.
  intros H. rewrite <- (firstn_skipn k s) in H. apply Forall_app in H. tauto.
Qed.

Lemma allDigits_skipn k s : allDigits s -> allDigits (skipn k s).
Proof.
  intros H. rewrite <- (firstn_skipn k s) in H. apply Forall_app in H. tauto.
Qed.

Lemma spanDigits_all a : allDigits a -> spanDigits a = (a, []).
Proof.
  induction 1 as [|c a Hc _ IH]; simpl; trivial. now rewrite Hc, IH.
Qed.

Lemma spanDigits_dot a b : allDigits a -> spanDigits (a ++ 46%N :: b) = (a, 46%N :: b).
Proof.
  induction 1 as [|c a Hc _ IH]; simpl; trivial. now rewrite Hc, IH.
Qed.

Lemma digits_nonempty n : digits n <> [].
Proof.
  unfold digits. destruct n as [|p]; simpl; [discriminate|].
  intros E. apply (DecimalPos.Unsigned.to_uint_nonnil p).
  destruct (Pos.to_uint p); simpl in E; trivial; discriminate.
Qed.

Lemma pow10_pos f : (0 < pow10 f)%Z.
Proof. unfold pow10. apply Z.pow_pos_nonneg; lia. Qed.

Lemma pow10_neq0 f : ~ inject_Z (pow10 f) == 0.
Proof.
  intros H0. unfold Qeq in H0. cbn [inject_Z Qnum Qden] in H0.
  pose proof (pow10_pos f). lia.
Qed.

Lemma pow10_N f : Z.of_N (10 ^ N.of_nat f) = pow10 f.
Proof. unfold pow10. rewrite N2Z.inj_pow, nat_N_Z. reflexivity. Qed.

(** The shape of [x.toFixed(f)] for [f > 0]: a sign, at least one integer
    digit, a point and exactly [f] fraction digits that together spell
    [toFixedN f x]. *)
Lemma toFixed_shape f x :
  exists a b,
    toFixed (S f) x = (if Qle_bool 0 x then [] else [45%N]) ++ a ++ 46%N :: b
    /\ a <> [] /\ allDigits a /\ allDigits b /\ length b = S f
    /\ digitsValue (a ++ b) = toFixedN (S f) x.
Proof.
  set (m' := padZeros (S f + 1) (digits (toFixedN (S f) x))).
  assert (Hlen : (S f + 1 <= length m')%nat).
  { unfold m', padZeros. rewrite length_app, repeat_length. lia. }
  exists (firstn (length m' - S f) m'), (skipn (length m' - S f) m').
  repeat split.
  - intros E. apply (f_equal (@length N)) in E.
    rewrite length_firstn in E. simpl in E. lia.
  - apply allDigits_firstn. apply allDigits_app;
      [apply allDigits_repeat | apply allDigits_units].
  - apply allDigits_skipn. apply allDigits_app;
      [apply allDigits_repeat | apply allDigits_units].
  - rewrite length_skipn. lia.
  - rewrite firstn_skipn. unfold m', padZeros.
    rewrite digitsValue_zeros. apply digitsValue_digits.
Qed.

Section ParseFacts.

Variable rnd : Q -> Q.

Lemma isDigit_not_space c : isDigit c = true -> isWhiteSpace c = false.
Proof.
  unfold isDigit, isWhiteSpace. intros H.
  apply andb_true_iff in H. destruct H as [H1 H2].
  apply N.leb_le in H1, H2.
  repeat (apply orb_false_iff; split);
    try (apply N.eqb_neq; lia).
  apply andb_false_iff. left. apply N.leb_gt. lia.
Qed.

Lemma parseFloat_decimal (neg : bool) a b :
  a <> [] -> allDigits a -> allDigits b ->
  parseFloat rnd ((if neg then [45%N] else []) ++ a ++ 46%N :: b)
  = Some (rnd (let v := inject_Z (Z.of_N (digitsValue a))
                        + inject_Z (Z.of_N (digitsValue b))
                          / inject_Z (pow10 (length b)) in
               if neg then - v else v)).
Proof.
  intros Ha Da Db. unfold parseFloat.
  destruct a as [|c a]; [congruence|].
  assert (Hc : isDigit c = true) by (inversion Da; trivial).
  assert (H45 : (c =? 45)%N = false /\ (c =? 43)%N = false).
  { unfold isDigit in Hc. apply andb_true_iff in Hc. destruct Hc as [H1 H2].
    apply N.leb_le in H1, H2. split; apply N.eqb_neq; lia. }
  destruct H45 as [H45 H43].
  pose proof (isDigit_not_space _ Hc) as Hs.
  assert (E : parseSign (trimStart ((if neg then [45%N] else []) ++ (c :: a) ++ 46%N :: b))
              = (neg, (c :: a) ++ 46%N :: b)).
  { destruct neg; cbn [app trimStart parseSign].
    - reflexivity.
    - rewrite Hs. cbn [parseSign]. now rewrite H45, H43. }
  rewrite E, (spanDigits_dot _ Da), (spanDigits_all Db). reflexivity.
Qed.

(** Reading back what [toFixed] printed yields the rounding of
    [± toFixedN / 10^f]. *)
Lemma parseFloat_toFixed f x :
  exists q,
    parseFloat rnd (toFixed (S f) x) = Some (rnd q)
    /\ q == (if Qle_bool 0 x then 1 else - (1)) *
            (inject_Z (Z.of_N (toFixedN (S f) x)) / inject_Z (pow10 (S f))).
Proof.
  destruct (toFixed_shape f x) as (a & b & E & Ha & Da & Db & Lb & V).
  exists (let v := inject_Z (Z.of_N (digitsValue a))
                   + inject_Z (Z.of_N (digitsValue b))
                     / inject_Z (pow10 (length b)) in
          if Qle_bool 0 x then v else - v).
  split.
  - rewrite E.
    pose proof (parseFloat_decimal (negb (Qle_bool 0 x)) Ha Da Db) as P.
    destruct (Qle_bool 0 x); exact P.
  - cbv zeta. rewrite <- V, digitsValue_app, Lb.
    rewrite N2Z.inj_add, N2Z.inj_mul, pow10_N, inject_Z_plus, inject_Z_mult.
    pose proof (pow10_neq0 (S f)) as Hq.
    destruct (Qle_bool 0 x); field; exact Hq.
Qed.

End ParseFacts.

(** [toFixedN] is the half-up rounding of [|x| * 10^f]. *)
Lemma toFixedN_spec f x :
  let n := inject_Z (Z.of_N (toFixedN f x)) in
  n <= Qabs x * inject_Z (pow10 f) + (1 # 2) /\
  Qabs x * inject_Z (pow10 f) + (1 # 2) < n + 1.
Proof.
  cbv zeta. unfold toFixedN.
  set (y := Qabs x * inject_Z (pow10 f) + (1 # 2)).
  assert (Hy : 0 <= y).
  { unfold y. pose proof (Qabs_nonneg x) as Hx.
    assert (0 <= inject_Z (pow10 f)).
    { change 0 with (inject_Z 0). rewrite <- Zle_Qle. pose proof (pow10_pos f). lia. }
    pose proof (Qmult_le_0_compat _ _ Hx H). lra. }
  assert (Hf : (0 <= Qfloor y)%Z).
  { change 0%Z with (Qfloor 0). now apply Qfloor_resp_le. }
  rewrite Z2N.id by trivial. split.
  - apply Qfloor_le.
  - pose proof (Qlt_floor y) as H. rewrite inject_Z_plus in H. exact H.
Qed.

(* ===================================================================== *)
(** ** Rounding the running average *)
(* ===================================================================== *)

Lemma eta_le_u : underflowUnit <= unitRoundoff.
Proof. unfold Qle. vm_compute. discriminate. Qed.

Section RatingBound.
Variable rnd : Q -> Q.
Hypothesis SM : StandardModel rnd.

Lemma rnd_within x :
  0 <= x -> x <= 2 ^ 64 ->
  x - (1 # 9007199254740992) * (x + 1) <= rnd x /\
  rnd x <= x + (1 # 9007199254740992) * (x + 1).
Proof.
  intros H0 H1.
  assert (H2 : x <= inject_Z (2 ^ 1023)).
  { eapply Qle_trans; [exact H1|]. unfold Qle. vm_compute. discriminate. }
  pose proof (rnd_error SM H0 H2) as H.
  apply Qabs_Qle_condition in H. destruct H as [Ha Hb].
  pose proof eta_le_u as Heu.
  change unitRoundoff with (1 # 9007199254740992) in *.
  split; lra.
Qed.

Lemma mul_le_r (a b c : Q) : a <= b -> 0 <= c -> a * c <= b * c.
Proof. intros. now apply Qmult_le_compat_r. Qed.

Lemma cancel_le_r (a b c : Q) : 0 < c -> a * c <= b * c -> a <= b.
Proof. intros Hc H. now apply (Qmult_le_r a b c Hc). Qed.

Lemma average_error (R R0 Nq Sq Mq E : Q) :
  0 <= R -> Qabs (R - R0) <= 6 # 9007199254740992 ->
  0 <= R0 -> R0 <= 5 -> 0 <= Nq -> Nq <= 2 ^ 32 -> 0 <= Sq -> Sq <= 5 ->
  Mq == Nq + 1 -> E * Mq == R0 * Nq + Sq ->
  let q := fdiv rnd (fadd rnd (fmul rnd R Nq) Sq) Mq in
  0 <= q /\ Qabs (q - E) <= 27 # 9007199254740992.
Proof.
  intros R3 HR HR0 HR5 HN0 HN HS0 HS5 HMq HE. cbv zeta. unfold fdiv, fadd, fmul.
  change (2 ^ 32) with 4294967296 in HN.
  assert (B64 : forall x, x <= 2 ^ 40 -> x <= 2 ^ 64).
  { intros x Hx. eapply Qle_trans; [exact Hx|]. unfold Qle. vm_compute. discriminate. }
  change (2 ^ 40) with 1099511627776 in B64.
  apply Qabs_Qle_condition in HR. destruct HR as [Rb Ra].
  assert (Ra' : R - R0 <= 6 # 9007199254740992) by lra.
  assert (Rb' : R0 - R <= 6 # 9007199254740992) by lra.
  pose proof (mul_le_r Ra' HN0) as RN1.
  pose proof (mul_le_r Rb' HN0) as RN2.
  pose proof (Qmult_le_0_compat _ _ R3 HN0) as RN3.
  pose proof (Qmult_le_0_compat _ _ HR0 HN0) as RN6.
  pose proof (mul_le_r HR5 HN0) as RN5.
  assert (RN4 : R * Nq <= 6 * Nq) by lra.
  (* the product *)
  destruct (@rnd_within (R * Nq)) as [P1 P2]; trivial. { apply B64. lra. }
  pose proof (rnd_nonneg SM RN3) as P3.
  set (p := rnd (R * Nq)) in *.
  (* the sum *)
  assert (S0 : 0 <= p + Sq) by lra.
  destruct (@rnd_within (p + Sq)) as [S1 S2]; trivial. { apply B64. lra. }
  pose proof (rnd_nonneg SM S0) as S3.
  set (s := rnd (p + Sq)) in *.
  (* the quotient *)
  assert (HM : 0 < Mq) by lra.
  set (t := s / Mq).
  assert (Ht : t * Mq == s) by (unfold t; field; lra).
  assert (T0 : 0 <= t).
  { apply (@cancel_le_r 0 t Mq); lra. }
  assert (T3 : t - E <= 20 # 9007199254740992).
  { apply (@cancel_le_r _ _ Mq); lra. }
  assert (T4 : E - t <= 20 # 9007199254740992).
  { apply (@cancel_le_r _ _ Mq); lra. }
  assert (E5 : E <= 5).
  { apply (@cancel_le_r _ _ Mq); lra. }
  destruct (@rnd_within t) as [Q1 Q2]; trivial. { apply B64. lra. }
  pose proof (rnd_nonneg SM T0) as Q3.
  split; trivial.
  apply Qabs_Qle_condition. split; lra.
Qed.

End RatingBound.

Lemma toFixedN_nearest (q E : Q) (B M : Z) :
  0 <= q -> (0 < M <= 2 ^ 32)%Z ->
  E * (10 * inject_Z M) == inject_Z B ->
  Qabs (q - E) <= 27 # 9007199254740992 ->
  nearestTenth (toFixedN 1 q) E.
Proof.
  intros Hq HM HE Herr. unfold nearestTenth.
  destruct (toFixedN_spec 1 q) as [Lo Hi].
  rewrite (Qabs_pos q Hq) in Lo, Hi. change (inject_Z (pow10 1)) with 10 in Lo, Hi.
  set (n := Z.of_N (toFixedN 1 q)) in *.
  apply Qabs_Qle_condition in Herr. destruct Herr as [E1 E2].
  assert (M0 : 0 < inject_Z M).
  { change 0 with (inject_Z 0). rewrite <- Zlt_Qlt. lia. }
  assert (M1 : inject_Z M <= 4294967296).
  { change 4294967296 with (inject_Z (2 ^ 32)). rewrite <- Zle_Qle. lia. }
  assert (M0' : 0 <= inject_Z M) by lra.
  assert (Ea : (q - E) * inject_Z M <= (27 # 9007199254740992) * inject_Z M)
    by (apply mul_le_r; lra).
  assert (Eb : (E - q) * inject_Z M <= (27 # 9007199254740992) * inject_Z M)
    by (apply mul_le_r; lra).
  assert (La : inject_Z n * inject_Z M <= (q * 10 + (1 # 2)) * inject_Z M)
    by (apply mul_le_r; lra).
  assert (Ha : (q * 10 + (1 # 2)) * inject_Z M <= (inject_Z n + 1) * inject_Z M)
    by (apply mul_le_r; lra).
  assert (Z1 : (2 * n * M < 2 * B + M + 1)%Z).
  { rewrite Zlt_Qlt, !inject_Z_plus, !inject_Z_mult. change (inject_Z 2) with 2.
    change (inject_Z 1) with 1. lra. }
  assert (Z2 : (2 * B - M - 1 < 2 * n * M)%Z).
  { rewrite Zlt_Qlt. unfold Z.sub. rewrite !inject_Z_plus, !inject_Z_opp, !inject_Z_mult.
    change (inject_Z 2) with 2. change (inject_Z 1) with 1. lra. }
  assert (Q1 : 2 * (inject_Z n * inject_Z M) <= 2 * inject_Z B + inject_Z M).
  { rewrite <- !inject_Z_mult. change 2 with (inject_Z 2). rewrite <- !inject_Z_mult, <- inject_Z_plus.
    rewrite <- Zle_Qle. lia. }
  assert (Q2 : 2 * inject_Z B - inject_Z M <= 2 * (inject_Z n * inject_Z M)).
  { assert (Hx : inject_Z (2 * B - M) <= inject_Z (2 * (n * M))) by (rewrite <- Zle_Qle; lia).
    unfold Z.sub in Hx. rewrite !inject_Z_plus, !inject_Z_opp, !inject_Z_mult in Hx.
    change (inject_Z 2) with 2 in Hx. lra. }
  apply Qabs_Qle_condition. split.
  - apply (@cancel_le_r _ _ (20 * inject_Z M)); [lra|].
    assert (X : (inject_Z n / 10 - E) * (20 * inject_Z M)
                == 2 * (inject_Z n * inject_Z M) - 2 * (E * (10 * inject_Z M))) by field.
    rewrite X, HE. lra.
  - apply (@cancel_le_r _ _ (20 * inject_Z M)); [lra|].
    assert (X : (inject_Z n / 10 - E) * (20 * inject_Z M)
                == 2 * (inject_Z n * inject_Z M) - 2 * (E * (10 * inject_Z M))) by field.
    rewrite X, HE. lra.
Qed.

Section RatingRounding.
Variable rnd : Q -> Q.
Hypothesis SM : StandardModel rnd.

Lemma rating_rounding (R : Q) (r : Z) (n : N) (star : Z) :
  tenths rnd R r -> (0 <= r <= 50)%Z -> (n < 2 ^ 32)%N -> (0 <= star <= 5)%Z ->
  let x := fdiv rnd (fadd rnd (fmul rnd R (inject_Z (Z.of_N n))) (inject_Z star))
                (inject_Z (Z.of_N (n + 1))) in
  0 <= x /\ nearestTenth (toFixedN 1 x) (exactAverage r n star).
Proof.
  intros (q0 & Hq0 & HR) Hr Hn Hs.
  assert (R00 : 0 <= r # 10) by (unfold Qle; simpl; lia).
  assert (R05 : r # 10 <= 5) by (unfold Qle; simpl; lia).
  assert (Nn : 0 <= inject_Z (Z.of_N n)).
  { change 0 with (inject_Z 0). rewrite <- Zle_Qle. lia. }
  assert (Nb : inject_Z (Z.of_N n) <= 2 ^ 32).
  { change (2 ^ 32) with (inject_Z (2 ^ 32)). rewrite <- Zle_Qle. lia. }
  assert (S0 : 0 <= inject_Z star).
  { change 0 with (inject_Z 0). rewrite <- Zle_Qle. lia. }
  assert (S5 : inject_Z star <= 5).
  { change 5 with (inject_Z 5). rewrite <- Zle_Qle. lia. }
  assert (HM : inject_Z (Z.of_N (n + 1)) == inject_Z (Z.of_N n) + 1).
  { rewrite N2Z.inj_add, inject_Z_plus. reflexivity. }
  assert (Q00 : 0 <= q0) by (rewrite Hq0; exact R00).
  assert (HR0 : 0 <= R) by (rewrite HR; apply (rnd_nonneg SM Q00)).
  assert (HRe : Qabs (R - (r # 10)) <= 6 # 9007199254740992).
  { destruct (@rnd_within rnd SM q0) as [A B]; trivial.
    { rewrite Hq0. eapply Qle_trans; [exact R05|]. unfold Qle. vm_compute. discriminate. }
    apply Qabs_Qle_condition. split; lra. }
  assert (HE : exactAverage r n star * inject_Z (Z.of_N (n + 1))
               == (r # 10) * inject_Z (Z.of_N n) + inject_Z star).
  { unfold exactAverage. field. rewrite HM. lra. }
  destruct (average_error SM HR0 HRe R00 R05 Nn Nb S0 S5 HM HE) as [Q0 Qe].
  split; [exact Q0|].
  apply (@toFixedN_nearest _ _ (r * Z.of_N n + 10 * star) (Z.of_N (n + 1))); trivial.
  - lia.
  - rewrite inject_Z_plus, !inject_Z_mult.
    assert (X : exactAverage r n star * (10 * inject_Z (Z.of_N (n + 1)))
                == 10 * (exactAverage r n star * inject_Z (Z.of_N (n + 1)))) by ring.
    rewrite X, HE. change (inject_Z 10) with 10.
    assert (Y : r # 10 == inject_Z r / 10).
    { unfold Qeq. simpl. lia. }
    rewrite Y. field.
Qed.

(** The exact average of a rating within [0, 5] and a star of at most five
    is within [0, 5]. *)
Lemma exactAverage_le_5 (r : Z) (n : N) (star : Z) :
  (0 <= r <= 50)%Z -> (0 <= star <= 5)%Z -> exactAverage r n star <= 5.
Proof.
  intros Hr Hs. unfold exactAverage.
  assert (HM : 0 < inject_Z (Z.of_N (n + 1))).
  { change 0 with (inject_Z 0). rewrite <- Zlt_Qlt. lia. }
  apply Qle_shift_div_r; [exact HM|].
  rewrite N2Z.inj_add, inject_Z_plus. change (inject_Z (Z.of_N 1)) with 1.
  assert (R05 : r # 10 <= 5) by (unfold Qle; simpl; lia).
  assert (Nn : 0 <= inject_Z (Z.of_N n)).
  { change 0 with (inject_Z 0). rewrite <- Zle_Qle. lia. }
  assert (S5 : inject_Z star <= 5).
  { change 5 with (inject_Z 5). rewrite <- Zle_Qle. lia. }
  pose proof (mul_le_r R05 Nn). lra.
Qed.

Lemma nearestTenth_le_50 (n : N) (x : Q) : nearestTenth n x -> x <= 5 -> (n <= 50)%N.
Proof.
  unfold nearestTenth. intros H Hx. apply Qabs_Qle_condition in H. destruct H as [_ B].
  assert (T : inject_Z (Z.of_N n) / 10 == inject_Z (Z.of_N n) * (1 # 10)) by field.
  rewrite T in B.
  assert (B' : inject_Z (Z.of_N n) < inject_Z 51) by (change (inject_Z 51) with 51; lra).
  rewrite <- Zlt_Qlt in B'. lia.
Qed.

End RatingRounding.

Lemma tenth_of_integer (n k : Z) :
  Qabs (inject_Z n / 10 - inject_Z k) <= 1 # 20 -> n = (10 * k)%Z.
Proof.
  intros H. apply Qabs_Qle_condition in H. destruct H as [A B].
  assert (T : inject_Z n / 10 == inject_Z n * (1 # 10)) by field.
  rewrite T in A, B.
  assert (A' : inject_Z (10 * k - 1) < inject_Z n).
  { unfold Z.sub. rewrite inject_Z_plus, inject_Z_mult, inject_Z_opp.
    change (inject_Z 10) with 10. change (inject_Z 1) with 1. lra. }
  assert (B' : inject_Z n < inject_Z (10 * k + 1)).
  { rewrite inject_Z_plus, inject_Z_mult.
    change (inject_Z 10) with 10. change (inject_Z 1) with 1. lra. }
  rewrite <- Zlt_Qlt in A', B'. lia.
Qed.

Lemma nearestTenth_integer n x k :
  nearestTenth n x -> x == inject_Z k -> Z.of_N n = (10 * k)%Z.
Proof.
  unfold nearestTenth. intros H E. rewrite E in H. now apply tenth_of_integer.
Qed.

(** Two tenths within a twentieth of the same number are equal, or the
    number lies exactly halfway between them. *)
Lemma nearestTenth_unique (m n : N) (x : Q) :
  nearestTenth m x -> nearestTenth n x ->
  m = n \/ x == inject_Z (Z.of_N m + Z.of_N n) / 20.
Proof.
  unfold nearestTenth. intros Hm Hn.
  apply Qabs_Qle_condition in Hm, Hn. destruct Hm as [M1 M2], Hn as [N1 N2].
  set (a := Z.of_N m) in *. set (b := Z.of_N n) in *.
  assert (Ta : inject_Z a / 10 == inject_Z a * (1 # 10)) by field.
  assert (Tb : inject_Z b / 10 == inject_Z b * (1 # 10)) by field.
  rewrite Ta in M1, M2. rewrite Tb in N1, N2.
  assert (L1 : inject_Z a < inject_Z (b + 2)).
  { rewrite inject_Z_plus. change (inject_Z 2) with 2. lra. }
  assert (L2 : inject_Z b < inject_Z (a + 2)).
  { rewrite inject_Z_plus. change (inject_Z 2) with 2. lra. }
  rewrite <- Zlt_Qlt in L1, L2.
  assert (C : (a = b \/ a = b + 1 \/ b = a + 1)%Z) by lia.
  destruct C as [C | [C | C]].
  - left. apply N2Z.inj. exact C.
  - right. rewrite C in M1, M2 |- *.
    assert (T : inject_Z (b + 1 + b) / 20 == inject_Z b * (1 # 10) + (1 # 20)).
    { rewrite !inject_Z_plus. change (inject_Z 1) with 1. field. }
    rewrite T. rewrite inject_Z_plus in M1, M2. change (inject_Z 1) with 1 in M1, M2.
    apply Qle_antisym; lra.
  - right. rewrite C in N1, N2 |- *.
    assert (T : inject_Z (a + (a + 1)) / 20 == inject_Z a * (1 # 10) + (1 # 20)).
    { rewrite !inject_Z_plus. change (inject_Z 1) with 1. field. }
    rewrite T. rewrite inject_Z_plus in N1, N2. change (inject_Z 1) with 1 in N1, N2.
    apply Qle_antisym; lra.
Qed.

Lemma find_first (A : Type) (f : A -> bool) (pre post : list A) (x : A) :
  (forall y, In y pre -> f y = false) -> f x = true ->
  find f (pre ++ x :: post) = Some x.
Proof.
  intros Hpre Hx. induction pre as [|a pre IH]; cbn.
  - now rewrite Hx.
  - rewrite (Hpre a (or_introl eq_refl)). apply IH. intros y Hy. apply Hpre. now right.
Qed.

(* ===================================================================== *)
(** ** Binary64 rounding *)
(* ===================================================================== *)

Section Binary64Facts.

Import Binary64.

Lemma roundHalfEven_error x : Qabs (inject_Z (roundHalfEven x) - x) <= 1 # 2.
Proof.
  unfold roundHalfEven.
  pose proof (Qfloor_le x) as Lo. pose proof (Qlt_floor x) as Hi.
  rewrite inject_Z_plus in Hi. change (inject_Z 1) with 1 in Hi.
  set (f := Qfloor x) in *.
  apply Qabs_Qle_condition.
  destruct (x - inject_Z f ?= 1 # 2) eqn:C.
  - apply Qeq_alt in C. destruct (Z.even f).
    + split; lra.
    + rewrite inject_Z_plus. change (inject_Z 1) with 1. split; lra.
  - apply Qlt_alt in C. split; lra.
  - apply Qgt_alt in C. rewrite inject_Z_plus. change (inject_Z 1) with 1. split; lra.
Qed.

Lemma roundHalfEven_integer x j : x == inject_Z j -> roundHalfEven x = j.
Proof.
  intros E. unfold roundHalfEven.
  assert (F : Qfloor x = j) by (rewrite (Qfloor_comp _ _ E); apply Qfloor_Z).
  rewrite F.
  assert (C : (x - inject_Z j ?= 1 # 2) = Lt).
  { apply (proj1 (Qlt_alt _ _)). rewrite E. lra. }
  now rewrite C.
Qed.

Lemma roundHalfEven_nonneg x : 0 <= x -> (0 <= roundHalfEven x)%Z.
Proof.
  intros H. unfold roundHalfEven.
  assert (F : (0 <= Qfloor x)%Z).
  { change 0%Z with (Qfloor 0). now apply Qfloor_resp_le. }
  destruct (_ ?= _); [destruct (Z.even _)| |]; lia.
Qed.

Lemma pow2_pos (z : Z) : 0 < 2 ^ z.
Proof. apply Qpower_0_lt. reflexivity. Qed.

Lemma pow2_Z (n : Z) : (0 <= n)%Z -> inject_Z (2 ^ n) == 2 ^ n.
Proof. intros H. now rewrite Zpower_Qpower. Qed.

Lemma pow2_add (a b : Z) : 2 ^ (a + b) == 2 ^ a * 2 ^ b.
Proof. apply Qpower_plus. discriminate. Qed.

Lemma pow2_sub (a b : Z) : 2 ^ (a - b) == 2 ^ a / 2 ^ b.
Proof. apply Qpower_minus. discriminate. Qed.

Lemma pow2_le (a b : Z) : (a <= b)%Z -> 2 ^ a <= 2 ^ b.
Proof. intros H. apply Qpower_le_compat_l; [exact H | discriminate]. Qed.

Lemma pow2_le_inv (a b : Z) : 2 ^ a <= 2 ^ b -> (a <= b)%Z.
Proof. intros H. apply (Qpower_le_compat_l_inv 2); [exact H | reflexivity]. Qed.

(** The exponent of a positive number brackets it. *)
Lemma exponent_spec x : 0 < x -> 2 ^ exponent x <= x /\ x < 2 ^ (exponent x + 1).
Proof.
  intros Hx. unfold exponent.
  destruct x as [a b]. cbn [Qnum Qden].
  assert (Ha : (0 < a)%Z) by (unfold Qlt in Hx; cbn in Hx; lia).
  pose proof (Z.log2_spec a Ha) as [A1 A2].
  pose proof (Z.log2_spec (Zpos b) (Pos2Z.is_pos b)) as [B1 B2].
  pose proof (Z.log2_nonneg a) as La. pose proof (Z.log2_nonneg (Zpos b)) as Lb.
  set (la := Z.log2 a) in *. set (lb := Z.log2 (Zpos b)) in *.
  assert (X : a # b == inject_Z a / inject_Z (Zpos b)) by apply Qmake_Qdiv.
  assert (Bp : 0 < inject_Z (Zpos b)) by reflexivity.
  assert (QA1 : 2 ^ la <= inject_Z a) by (rewrite <- pow2_Z by lia; now rewrite <- Zle_Qle).
  assert (QA2 : inject_Z a < 2 ^ (la + 1)).
  { rewrite <- pow2_Z by lia. rewrite <- Zlt_Qlt.
    replace (la + 1)%Z with (Z.succ la) by lia. exact A2. }
  assert (QB1 : 2 ^ lb <= inject_Z (Zpos b)) by (rewrite <- pow2_Z by lia; now rewrite <- Zle_Qle).
  assert (QB2 : inject_Z (Zpos b) < 2 ^ (lb + 1)).
  { rewrite <- pow2_Z by lia. rewrite <- Zlt_Qlt.
    replace (lb + 1)%Z with (Z.succ lb) by lia. exact B2. }
  assert (Up : a # b < 2 ^ (la - lb + 1)).
  { rewrite X. apply Qlt_shift_div_r; [exact Bp|].
    apply Qlt_le_trans with (2 ^ (la + 1)); [exact QA2|].
    replace (la + 1)%Z with ((la - lb + 1) + lb)%Z by lia.
    rewrite pow2_add. apply Qmult_le_l; [apply pow2_pos | exact QB1]. }
  assert (Lo : 2 ^ (la - lb - 1) <= a # b).
  { rewrite X. apply Qle_shift_div_l; [exact Bp|].
    apply Qle_trans with (2 ^ la); [|exact QA1].
    replace la with ((la - lb - 1) + (lb + 1))%Z at 2 by lia.
    rewrite pow2_add. apply Qmult_le_l; [apply pow2_pos|]. apply Qlt_le_weak. exact QB2. }
  destruct (Qle_bool (2 ^ (la - lb)) (a # b)) eqn:C.
  - apply Qle_bool_iff in C. split; [exact C | exact Up].
  - split; [exact Lo|].
    replace (la - lb - 1 + 1)%Z with (la - lb)%Z by lia.
    apply Qnot_le_lt. intros H. apply Qle_bool_iff in H. congruence.
Qed.


Lemma roundPositive_scaled x :
  let g := Z.max (exponent x - 52) (-1074) in
  roundPositive x - x == (inject_Z (roundHalfEven (x / 2 ^ g)) - x / 2 ^ g) * 2 ^ g.
Proof.
  cbv zeta. unfold roundPositive.
  set (g := Z.max (exponent x - 52) (-1074)).
  pose proof (pow2_pos g) as Pg. field. lra.
Qed.

Lemma half_ulp_bound x :
  0 < x ->
  let g := Z.max (exponent x - 52) (-1074) in
  (1 # 2) * 2 ^ g <= unitRoundoff * x + underflowUnit.
Proof.
  intros Hx g.
  destruct (@exponent_spec x Hx) as [Lo _].
  assert (Eu : unitRoundoff == 1 # 9007199254740992) by reflexivity.
  assert (Ep : 0 < underflowUnit) by reflexivity.
  assert (H1 : 2 ^ (-1) == 1 # 2) by reflexivity.
  destruct (Z.max_spec (exponent x - 52) (-1074)) as [[_ Hg]|[_ Hg]]; subst g; rewrite Hg.
  - assert (E : (1 # 2) * 2 ^ (-1074) == underflowUnit) by (vm_compute; reflexivity).
    rewrite E, Eu. lra.
  - assert (E : (1 # 2) * 2 ^ (exponent x - 52) == 2 ^ exponent x * (1 # 9007199254740992)).
    { replace (exponent x - 52)%Z with (exponent x + (-52))%Z by lia.
      rewrite pow2_add.
      assert (C : 2 ^ (-52) == 2 # 9007199254740992) by reflexivity.
      rewrite C. ring. }
    rewrite E, Eu. lra.
Qed.

Lemma roundPositive_error x :
  0 < x -> Qabs (roundPositive x - x) <= unitRoundoff * x + underflowUnit.
Proof.
  intros Hx. rewrite (Qabs_wd _ _ (roundPositive_scaled x)).
  set (g := Z.max (exponent x - 52) (-1074)).
  pose proof (@half_ulp_bound x Hx) as Hb. cbv zeta in Hb. fold g in Hb.
  pose proof (roundHalfEven_error (x / 2 ^ g)) as He.
  rewrite Qabs_Qmult, (Qabs_pos (2 ^ g)) by (apply Qlt_le_weak, pow2_pos).
  apply Qle_trans with ((1 # 2) * 2 ^ g); [|exact Hb].
  apply Qmult_le_compat_r; [exact He | apply Qlt_le_weak, pow2_pos].
Qed.

Lemma roundPositive_nonneg x : 0 <= x -> 0 <= roundPositive x.
Proof.
  intros Hx. unfold roundPositive.
  set (g := Z.max (exponent x - 52) (-1074)).
  pose proof (pow2_pos g) as Pg.
  apply Qmult_le_0_compat; [|lra].
  change 0 with (inject_Z 0). rewrite <- Zle_Qle.
  apply roundHalfEven_nonneg. apply Qle_shift_div_l; [exact Pg | lra].
Qed.

Lemma pow2_opp (a : Z) : 2 ^ (- a) == / 2 ^ a.
Proof. apply Qpower_opp. Qed.

Lemma roundPositive_of_integer x j :
  let g := Z.max (exponent x - 52) (-1074) in
  x == inject_Z j * 2 ^ g -> roundPositive x == x.
Proof.
  cbv zeta. intros E. unfold roundPositive.
  set (g := Z.max (exponent x - 52) (-1074)) in *.
  pose proof (pow2_pos g) as Pg.
  assert (S : x / 2 ^ g == inject_Z j) by (rewrite E; field; lra).
  rewrite (@roundHalfEven_integer _ _ S). symmetry. exact E.
Qed.

Lemma roundPositive_dyadic (m : Z) (k : nat) x :
  x == inject_Z m / inject_Z (2 ^ Z.of_nat k) ->
  (0 < m <= 2 ^ 53)%Z -> (k <= 1022)%nat -> roundPositive x == x.
Proof.
  intros Ex Hm Hk.
  set (K := Z.of_nat k) in *.
  assert (HK : (0 <= K <= 1022)%Z) by (unfold K; lia).
  pose proof (pow2_pos K) as PK.
  assert (Ex' : x == inject_Z m * 2 ^ (- K)).
  { rewrite Ex, pow2_Z, pow2_opp by lia. field. lra. }
  assert (Mpos : 0 < inject_Z m) by (change 0 with (inject_Z 0); rewrite <- Zlt_Qlt; lia).
  assert (Mle : inject_Z m <= 2 ^ 53).
  { change (2 ^ 53) with (inject_Z (2 ^ 53)). rewrite <- Zle_Qle. lia. }
  pose proof (pow2_pos (- K)) as PnK.
  assert (Hx : 0 < x) by (rewrite Ex'; apply Qmult_lt_0_compat; trivial).
  destruct (@exponent_spec x Hx) as [Lo Hi].
  set (e := exponent x) in *.
  (* e <= 53 - K *)
  assert (Hup : x <= 2 ^ (53 - K)).
  { rewrite Ex'. replace (53 - K)%Z with (53 + - K)%Z by lia. rewrite pow2_add.
    apply Qmult_le_compat_r; [exact Mle | lra]. }
  assert (He : (e <= 53 - K)%Z) by (apply pow2_le_inv; lra).
  apply roundPositive_of_integer with
    (j := if (53 - K <=? e)%Z then (2 ^ 52)%Z
          else (m * 2 ^ (- K - Z.max (e - 52) (-1074)))%Z).
  fold e. set (g := Z.max (e - 52) (-1074)).
  destruct (Z.leb_spec (53 - K) e) as [Hc|Hc].
  - (* e = 53 - K, hence m = 2^53 and g = e - 52 *)
    assert (Ee : e = (53 - K)%Z) by lia.
    assert (Eg : g = (1 - K)%Z) by (unfold g; lia).
    assert (Em : inject_Z m == 2 ^ 53).
    { apply Qle_antisym; [exact Mle|].
      (* 2^(53-K) <= m * 2^-K *)
      rewrite Ee, Ex' in Lo. replace (53 - K)%Z with (53 + - K)%Z in Lo by lia.
      rewrite pow2_add in Lo. apply (Qmult_le_r _ _ (2 ^ (- K))); trivial. }
    rewrite Ex', Em, Eg.
    replace (1 - K)%Z with (1 + - K)%Z by lia. rewrite pow2_add.
    change (inject_Z (2 ^ 52)) with (2 ^ 52). 
    assert (C : 2 ^ 53 == 2 ^ 52 * 2 ^ 1) by reflexivity.
    rewrite C. ring.
  - (* the scaling exponent is non-negative *)
    assert (Ht : (0 <= - K - g)%Z) by (unfold g; lia).
    rewrite inject_Z_mult, pow2_Z by exact Ht.
    rewrite Ex'.
    replace (- K)%Z with ((- K - g) + g)%Z at 1 by lia.
    rewrite pow2_add. ring.
Qed.

(** Binary64 rounding obeys the standard model. *)
Theorem binary64_standard : StandardModel round.
Proof.
  split.
  - intros [a b] H0 _. unfold round. cbn [Qnum].
    destruct a as [|a|a].
    + assert (E : 0 - (0 # b) == 0) by reflexivity.
      rewrite (Qabs_wd _ _ E). change (Qabs 0) with 0.
      assert (Z0' : (0 # b) == 0) by reflexivity. rewrite Z0'.
      unfold unitRoundoff, underflowUnit. discriminate.
    + apply roundPositive_error. reflexivity.
    + exfalso. unfold Qle in H0. cbn in H0. lia.
  - intros [a b] H0. unfold round. cbn [Qnum].
    destruct a as [|a|a].
    + apply Qle_refl.
    + apply roundPositive_nonneg. exact H0.
    + exfalso. unfold Qle in H0. cbn in H0. lia.
  - intros m k [a b] Ex Hm Hk. unfold round. cbn [Qnum].
    assert (PK : 0 < inject_Z (2 ^ Z.of_nat k)).
    { change 0 with (inject_Z 0). rewrite <- Zlt_Qlt. apply Z.pow_pos_nonneg; lia. }
    destruct a as [|a|a].
    + reflexivity.
    + apply (@roundPositive_dyadic m k); trivial.
      assert (Hp : 0 < inject_Z m / inject_Z (2 ^ Z.of_nat k)) by (rewrite <- Ex; reflexivity).
      assert (Hm0 : 0 < inject_Z m).
      { apply (Qmult_lt_r _ _ _ PK) in Hp. rewrite Qmult_0_l in Hp.
        assert (F : inject_Z m / inject_Z (2 ^ Z.of_nat k) * inject_Z (2 ^ Z.of_nat k)
                    == inject_Z m) by (field; lra).
        rewrite F in Hp. exact Hp. }
      change 0 with (inject_Z 0) in Hm0. rewrite <- Zlt_Qlt in Hm0. lia.
    + assert (En : - (Z.neg a # b) == inject_Z (- m) / inject_Z (2 ^ Z.of_nat k)).
      { rewrite Ex, inject_Z_opp. field. lra. }
      assert (Hn : roundPositive (- (Z.neg a # b)) == - (Z.neg a # b)).
      { apply (@roundPositive_dyadic (- m) k); trivial.
        assert (Hp : 0 < inject_Z (- m) / inject_Z (2 ^ Z.of_nat k))
          by (rewrite <- En; reflexivity).
        assert (Hm0 : 0 < inject_Z (- m)).
        { apply (Qmult_lt_r _ _ _ PK) in Hp. rewrite Qmult_0_l in Hp.
          assert (F : inject_Z (- m) / inject_Z (2 ^ Z.of_nat k)
                      * inject_Z (2 ^ Z.of_nat k) == inject_Z (- m)) by (field; lra).
          rewrite F in Hp. exact Hp. }
        change 0 with (inject_Z 0) in Hm0. rewrite <- Zlt_Qlt in Hm0. lia. }
      rewrite Hn. ring.
Qed.

End Binary64Facts.

(* ===================================================================== *)
(** ** Running handlers *)
(* ===================================================================== *)

Ltac run_handler :=
  cbv [viewAfter traceAfter handle tryCatch finally detached bind ret throw emit update
       await awaitFetch ask start];
  cbn [view trace fst snd].

Lemma requests_app a b : requests (a ++ b) = requests a ++ requests b.
Proof. unfold requests. now rewrite flat_map_app. Qed.

Lemma requests_nil : requests [] = [].
Proof. reflexivity. Qed.

Lemma requests_net r l : requests (Net r :: l) = r :: requests l.
Proof. reflexivity. Qed.

Lemma requests_local e l : isNet e = false -> requests (e :: l) = requests l.
Proof. intros H. destruct e; try discriminate H; reflexivity. Qed.

#[local] Arguments requests : simpl never.
#[local] Arguments lit : simpl never.

(** Normalises the request history and the trace of a run. *)
Ltac req_simpl :=
  repeat first [ rewrite requests_app
               | rewrite requests_net
               | rewrite requests_local by reflexivity
               | rewrite requests_nil ];
  rewrite ?app_nil_r;
  repeat rewrite <- app_assoc;
  cbn [app].

(** Case analysis on the settlement of every request that is left. *)
Ltac case_oracles :=
  repeat (cbn; req_simpl;
          match goal with
          | |- context [written ?b ?h ?r] => destruct (written b h r) as [? [?|]|?]
          | |- context [contentRows ?b ?h ?r] =>
              destruct (contentRows b h r) as [? [?|]|?]
          | |- context [commentRows ?b ?h ?r] =>
              destruct (commentRows b h r) as [? [?|]|?]
          end);
  cbn; req_simpl; trivial.

(* ===================================================================== *)
(** ** The public view *)
(* ===================================================================== *)

Section AppFacts.

Import App ContentCard.
Variable rnd : Q -> Q.
Variable be : Backend.

(** C7.  Whatever list was fetched, choosing a category displays the fetched
    list itself for "all" and, for the resource-pack, mod and client buttons,
    exactly the fetched items of that type, in their order; choosing a
    category emits no event at all, so no request, and leaves the fetched list
    as it is. *)
Theorem category_filter_is_client_side (s : App.t) (tr : list Event) :
  let w := mkWorld s tr in
  let shown c := filteredContent (viewAfter (selectCategory c) w) in
  let ofType ty := filter (fun c => eqb (type c) (lit ty)) (featuredContent s) in
  shown (lit "all") = featuredContent s
  /\ shown (lit "resource-packs") = ofType "Resource Pack"%string
  /\ shown (lit "mods") = ofType "Mod"%string
  /\ shown (lit "clients") = ofType "Client"%string
  /\ (forall c, traceAfter (selectCategory c) w = tr)
  /\ (forall c, featuredContent (viewAfter (selectCategory c) w) = featuredContent s).
Proof.
  cbv zeta. unfold selectCategory, categoryEffect. run_handler.
  repeat split; try reflexivity.
  - intros c. cbn [activeCategory setActiveCategory].
    destruct (eqb c (lit "all")); reflexivity.
  - intros c. cbn [activeCategory setActiveCategory].
    destruct (eqb c (lit "all")); reflexivity.
Qed.

(** C6.  For an item whose file reference is absent or empty the download
    handler shows one alert and does nothing else: no counter update, no
    fetch, no save, no new tab, and the state is unchanged. *)
Theorem download_without_file_is_blocked (w : World App.t) (content : ContentCard.t) :
  truthyOpt (file_url content) = false ->
  let run := handle (fun s => handleDownload be s content) in
  traceAfter run w = trace w ++ [Alert (lit "No file available for download.")]
  /\ requests (traceAfter run w) = requests (trace w)
  /\ viewAfter run w = view w.
Proof.
  intros H. cbv zeta. unfold handleDownload. run_handler.
  destruct (file_url content) as [[|c url]|]; try discriminate H;
    cbn; rewrite requests_app, app_nil_r; auto.
Qed.

(** C5.  Without administrator status, deleting a comment logs and shows the
    explanatory message, sends no request and leaves the state, so the comment
    list, unchanged; with administrator status and a delete the store accepts,
    the delete request is the only one sent and the comment with that id
    leaves the local list. *)
Theorem deleteComment_requires_admin (w : World App.t) (commentId : jsstring) :
  let run := handle (fun s => deleteComment be s commentId) in
  (isAdmin (view w) = false ->
     traceAfter run w
     = trace w ++ [ConsoleError (lit "Unauthorized deletion attempt");
                   Alert (lit "Only administrators can delete comments.")]
     /\ requests (traceAfter run w) = requests (trace w)
     /\ viewAfter run w = view w)
  /\ (isAdmin (view w) = true ->
      forall d, written be (requests (trace w)) (DeleteComment commentId) = Resolved d None ->
      requests (traceAfter run w) = requests (trace w) ++ [DeleteComment commentId]
      /\ comments (viewAfter run w)
         = filter (fun c => negb (eqb (Comment.id c) commentId)) (comments (view w))).
Proof.
  cbv zeta. unfold deleteComment. run_handler. split.
  - intros H. rewrite H. cbn. req_simpl. auto.
  - intros H d Hd. rewrite H. cbn. rewrite Hd. cbn. req_simpl. auto.
Qed.

(** C3.  When the trimmed author or the trimmed text is empty, posting shows
    one alert, sends no request and leaves the state unchanged.  Otherwise the
    trimmed fields are inserted; when the store echoes the new row, that row
    is put in front of the local list and nothing else is requested; when the
    insert succeeds with no row echoed (no data, or an empty array), the
    comments of the item are fetched again, and the local list becomes the
    fetched one. *)
Theorem postComment_validates_then_prepends (w : World App.t) (contentId : jsstring) :
  let run := handle (fun s => postComment be s contentId) in
  let author := trim (commentAuthor (view w)) in
  let text := trim (commentText (view w)) in
  let insert := InsertComment contentId author text in
  (author = [] \/ text = [] ->
     traceAfter run w = trace w ++ [Alert (lit "Please enter your name and comment")]
     /\ requests (traceAfter run w) = requests (trace w)
     /\ viewAfter run w = view w)
  /\ (author <> [] -> text <> [] ->
      (forall newComment rest,
          commentRows be (requests (trace w)) insert
          = Resolved (Some (newComment :: rest)) None ->
          requests (traceAfter run w) = requests (trace w) ++ [insert]
          /\ comments (viewAfter run w) = newComment :: comments (view w))
      /\ (forall data,
             commentRows be (requests (trace w)) insert = Resolved data None ->
             data = None \/ data = Some [] ->
             requests (traceAfter run w)
             = requests (trace w) ++ [insert; SelectComments contentId]
             /\ forall rows,
                 commentRows be (requests (trace w) ++ [insert]) (SelectComments contentId)
                 = Resolved rows None ->
                 comments (viewAfter run w) = orEmpty rows)).
Proof.
  cbv zeta. unfold postComment, fetchComments. run_handler. split.
  - intros H.
    assert (E : negb (truthy (trim (commentAuthor (view w))))
                || negb (truthy (trim (commentText (view w)))) = true).
    { destruct H as [H|H]; rewrite H; cbn; auto using orb_true_r. }
    rewrite E. cbn. req_simpl. auto.
  - intros Ha Ht.
    assert (E : negb (truthy (trim (commentAuthor (view w))))
                || negb (truthy (trim (commentText (view w)))) = false).
    { destruct (trim (commentAuthor (view w))); [congruence|].
      destruct (trim (commentText (view w))); [congruence|]. reflexivity. }
    rewrite E. cbn. req_simpl. split.
    + intros newComment rest Hr. rewrite Hr. cbn. req_simpl. auto.
    + intros data Hr Hd. rewrite Hr.
      destruct Hd as [-> | ->]; cbn; req_simpl.
      * split.
        -- destruct (commentRows be _ (SelectComments contentId)) as [d [e|]|x];
             cbn; req_simpl; reflexivity.
        -- intros rows Hrows. rewrite Hrows. reflexivity.
      * split.
        -- destruct (commentRows be _ (SelectComments contentId)) as [d [e|]|x];
             cbn; req_simpl; reflexivity.
        -- intros rows Hrows. rewrite Hrows. reflexivity.
Qed.

(** C1 (as amended).  Rating an item that carries [r] tenths over [count]
    ratings with a star of 1 to 5 sends one update of that item: its count is
    [count + 1] and its rating is [n] tenths, where [n / 10] lies within a
    twentieth of the exact average [(R * N + S) / (N + 1)] and within 0 to 5.
    So [n / 10] is the average rounded to one decimal place unless the average
    lies exactly halfway between two tenths, where either may be stored.  When
    the update is accepted, the selected item and the item in both lists carry
    these values; when the store answers with an error or the call is
    rejected, the state is the one before.  An item with no prior ratings
    rated 4 gets 4.0 and 1. *)
Theorem handleRate_running_average
    (SM : StandardModel rnd) (w : World App.t) (content : ContentCard.t)
    (R : Q) (count : N) (star r : Z) :
  let s := view w in
  let contentId := id content in
  let run := handle (fun s => handleRate rnd be s contentId star) in
  let average := exactAverage r count star in
  (selectedContent s = Some content
   \/ (selectedContent s = None
       /\ exists pre post,
            filteredContent s = pre ++ content :: post
            /\ forall item, In item pre -> id item <> contentId)) ->
  (rating content = Some R \/ (rating content = None /\ R = 0)) ->
  tenths rnd R r ->
  (ratings_count content = Some count \/ (ratings_count content = None /\ count = 0%N)) ->
  (0 <= r <= 50)%Z -> (count < 2 ^ 32)%N -> (1 <= star <= 5)%Z ->
  exists (n : N) (v : Q),
    nearestTenth n average
    /\ (forall m, nearestTenth m average ->
                  m = n \/ average == inject_Z (Z.of_N m + Z.of_N n) / 20)
    /\ (n <= 50)%N
    /\ tenths rnd v (Z.of_N n)
    /\ let req := UpdateRating contentId (Some v) (count + 1) in
       let updated :=
         ContentCard.mk (id content) (title content) (author content) (type content)
           (downloads content) (image content) (Some v) (Some (count + 1)%N)
           (description content) (version content) (file_size content)
           (file_url content) (created_at content) (updated_at content) in
       requests (traceAfter run w) = requests (trace w) ++ [req]
       /\ (forall d, written be (requests (trace w)) req = Resolved d None ->
           selectedContent (viewAfter run w)
           = match selectedContent s with Some _ => Some updated | None => None end
           /\ featuredContent (viewAfter run w)
              = map (fun item => if eqb (id item) contentId then updated else item)
                    (featuredContent s)
           /\ filteredContent (viewAfter run w)
              = map (fun item => if eqb (id item) contentId then updated else item)
                    (filteredContent s))
       /\ (forall d e, written be (requests (trace w)) req = Resolved d (Some e) ->
           viewAfter run w = s)
       /\ (forall x, written be (requests (trace w)) req = Rejected x ->
           viewAfter run w = s)
       /\ (r = 0%Z -> count = 0%N -> star = 4%Z ->
           v == 4 /\ (count + 1 = 1)%N).
Proof.
  intros s contentId run average Hsel Hrating HR Hcount Hr Hn Hs.
  assert (Hc : ratedContent s contentId = Some content).
  { unfold ratedContent. destruct Hsel as [-> | (-> & pre & post & -> & Hpre)];
      [reflexivity|].
    apply find_first; [|apply eqb_refl].
    intros y Hy. destruct (eqb (id y) contentId) eqn:E; [|reflexivity].
    apply eqb_eq in E. exfalso. exact (Hpre y Hy E). }
  assert (HcR : currentRating content = R).
  { unfold currentRating. destruct Hrating as [-> | [-> ->]]; reflexivity. }
  assert (HcN : ratingsCount content = count).
  { unfold ratingsCount. destruct Hcount as [-> | [-> ->]]; reflexivity. }
  destruct (@rating_rounding rnd SM R r count star) as [Hx Hnear]; trivial; try lia.
  assert (Enew : fdiv rnd (fadd rnd (fmul rnd R (inject_Z (Z.of_N count))) (inject_Z star))
                   (inject_Z (Z.of_N (count + 1)))
                 = newRating rnd content star).
  { unfold newRating. rewrite HcR, HcN. reflexivity. }
  rewrite Enew in Hx, Hnear.
  destruct (parseFloat_toFixed rnd 0 (newRating rnd content star)) as (q & Hq & Eq).
  fold (roundedRating rnd content star) in Hq.
  assert (Hb : Qle_bool 0 (newRating rnd content star) = true) by now apply Qle_bool_iff.
  rewrite Hb in Eq. change (inject_Z (pow10 1)) with 10 in Eq.
  set (n := toFixedN 1 (newRating rnd content star)) in *.
  assert (Eq' : q == Z.of_N n # 10).
  { assert (Y : Z.of_N n # 10 == inject_Z (Z.of_N n) / 10) by (unfold Qeq; simpl; lia).
    rewrite Eq, Y. ring. }
  exists n, (rnd q).
  split; [exact Hnear|].
  split; [intros m Hm; exact (nearestTenth_unique Hm Hnear)|].
  split; [apply (nearestTenth_le_50 Hnear); apply exactAverage_le_5; lia|].
  split; [exists q; split; [exact Eq' | reflexivity]|].
  assert (Hex : r = 0%Z -> count = 0%N -> star = 4%Z -> rnd q == 4 /\ (count + 1 = 1)%N).
  { intros -> E0 ->. split; [|rewrite E0; reflexivity].
    assert (Y : exactAverage 0 count 4 == inject_Z 4) by (rewrite E0; reflexivity).
    assert (Hn40 : Z.of_N n = 40%Z) by exact (nearestTenth_integer Hnear Y).
    rewrite Hn40 in Eq.
    assert (Hd : rnd q == q).
    { apply (rnd_dyadic SM (m := 4) (k := 0)); [rewrite Eq; reflexivity | lia | lia]. }
    rewrite Hd, Eq. reflexivity. }
  cbv zeta. subst run. unfold handleRate. run_handler.
  subst s. rewrite Hc, HcN, Hq.
  change (with_rating (Some (rnd q)) (count + 1) content)
    with (ContentCard.mk (id content) (title content) (author content) (type content)
            (downloads content) (image content) (Some (rnd q)) (Some (count + 1)%N)
            (description content) (version content) (file_size content)
            (file_url content) (created_at content) (updated_at content)).
  destruct (selectedContent (view w)) as [sc|] eqn:Esel.
  - assert (sc = content).
    { destruct Hsel as [E | [E _]]; congruence. }
    subst sc. fold contentId. rewrite eqb_refl.
    split; [|split; [|split; [|split]]]; trivial.
    + destruct (written be _ _) as [d [e|]|x]; cbn; req_simpl; reflexivity.
    + intros d H. rewrite H. cbn. auto.
    + intros d e H. rewrite H. reflexivity.
    + intros x H. rewrite H. reflexivity.
  - split; [|split; [|split; [|split]]]; trivial.
    + destruct (written be _ _) as [d [e|]|x]; cbn; req_simpl; reflexivity.
    + intros d H. rewrite H. cbn. rewrite Esel. auto.
    + intros d e H. rewrite H. reflexivity.
    + intros x H. rewrite H. reflexivity.
Qed.

End AppFacts.

(* ===================================================================== *)
(** ** Splitting a file name *)
(* ===================================================================== *)

Lemma pop_cons (A : Type) (x : A) (l : list A) : l <> [] -> pop (x :: l) = pop l.
Proof.
  unfold pop. intros H. cbn [rev].
  destruct (rev l) as [|y r] eqn:E.
  - apply (f_equal (@rev A)) in E. rewrite rev_involutive in E. contradiction.
  - reflexivity.
Qed.

Lemma split_nonempty sep s : split sep s <> [].
Proof.
  destruct s as [|c s]; cbn; [discriminate|].
  destruct (c =? sep)%N; [discriminate|].
  destruct (split sep s); discriminate.
Qed.

Lemma split_no_separator sep s : ~ In sep s -> split sep s = [s].
Proof.
  induction s as [|c s IH]; intros H; cbn; trivial.
  destruct (N.eqb_spec c sep) as [->|Hc].
  - exfalso. apply H. now left.
  - rewrite IH; [reflexivity|]. intros Hin. apply H. now right.
Qed.

Lemma split_two_segments sep stem ext :
  (2 <= length (split sep (stem ++ sep :: ext)))%nat.
Proof.
  induction stem as [|c stem IH]; cbn [app split].
  - rewrite N.eqb_refl. pose proof (split_nonempty sep ext).
    destruct (split sep ext); [contradiction | cbn; lia].
  - destruct (c =? sep)%N; [cbn; lia|].
    destruct (split sep (stem ++ sep :: ext)); cbn in *; lia.
Qed.

(** The last dot-separated segment of [stem.ext] is [ext]. *)
Lemma pop_split_extension sep stem ext :
  ~ In sep ext -> pop (split sep (stem ++ sep :: ext)) = Some ext.
Proof.
  intros H. induction stem as [|c stem IH]; cbn [app split].
  - rewrite N.eqb_refl, pop_cons by apply split_nonempty.
    now rewrite split_no_separator.
  - destruct (c =? sep)%N.
    + rewrite pop_cons by apply split_nonempty. exact IH.
    + pose proof (split_two_segments sep stem ext) as L.
      destruct (split sep (stem ++ sep :: ext)) as [|seg [|seg' segs]];
        cbn in L; try lia.
      rewrite pop_cons in IH by discriminate.
      rewrite pop_cons by discriminate. exact IH.
Qed.


(* ===================================================================== *)
(** ** The administration panel *)
(* ===================================================================== *)

Section AdminFacts.

Import AdminPanel.
Variable rnd : Q -> Q.
Variable be : Backend.

Lemma handleDelete_settled (w : World AdminPanel.t) (id : jsstring) :
  let run := handleDelete be id in
  let delete := DeleteContent id in
  let refetch := SelectContent (lit "created_at") false in
  (forall d e,
      written be (requests (trace w)) delete = Resolved d (Some e) ->
      content (viewAfter run w) = removeById id (content (view w)))
  /\ (forall x,
         written be (requests (trace w)) delete = Rejected x ->
         content (viewAfter run w) = removeById id (content (view w))
         /\ error (viewAfter run w)
            = Some (lit "Failed to delete content on server, but removed from view."))
  /\ (forall d,
         written be (requests (trace w)) delete = Resolved d None ->
         requests (traceAfter run w) = requests (trace w) ++ [delete; refetch]
         /\ (forall rows,
                contentRows be (requests (trace w) ++ [delete]) refetch
                = Resolved rows None ->
                content (viewAfter run w) = orEmpty rows)
         /\ (forall rows e,
                contentRows be (requests (trace w) ++ [delete]) refetch
                = Resolved rows (Some e) ->
                content (viewAfter run w) = content (view w))).
Proof.
  cbv zeta. unfold handleDelete, fetchContent. run_handler. req_simpl.
  split; [|split].
  - intros d e H. rewrite H. reflexivity.
  - intros x H. rewrite H. auto.
  - intros d H. rewrite H. cbn. req_simpl. split; [|split].
    + destruct (contentRows be _ _) as [rows [e|]|x]; cbn; req_simpl; reflexivity.
    + intros rows Hr. rewrite Hr. reflexivity.
    + intros rows e Hr. rewrite Hr. reflexivity.
Qed.

(** C2 (as amended).  When the administrator confirms the deletion of the item
    the dialog is open on: if the remote delete fails, by an error answer or
    by a rejected call, the item leaves the local list; a rejected call also
    sets the error banner; if the remote delete succeeds the list is fetched
    again and the displayed list is the fetched one, or the one before when
    that fetch answers with an error. *)
Theorem confirmed_delete_by_settlement (w : World AdminPanel.t) (id : jsstring) :
  deletingId (view w) = Some id -> id <> [] ->
  let run := handle (confirmedDelete be) in
  let delete := DeleteContent id in
  let refetch := SelectContent (lit "created_at") false in
  (forall d e,
      written be (requests (trace w)) delete = Resolved d (Some e) ->
      content (viewAfter run w) = removeById id (content (view w)))
  /\ (forall x,
         written be (requests (trace w)) delete = Rejected x ->
         content (viewAfter run w) = removeById id (content (view w))
         /\ error (viewAfter run w)
            = Some (lit "Failed to delete content on server, but removed from view."))
  /\ (forall d,
         written be (requests (trace w)) delete = Resolved d None ->
         requests (traceAfter run w) = requests (trace w) ++ [delete; refetch]
         /\ (forall rows,
                contentRows be (requests (trace w) ++ [delete]) refetch
                = Resolved rows None ->
                content (viewAfter run w) = orEmpty rows)
         /\ (forall rows e,
                contentRows be (requests (trace w) ++ [delete]) refetch
                = Resolved rows (Some e) ->
                content (viewAfter run w) = content (view w))).
Proof.
  intros Hd Hid. cbv zeta.
  assert (E : handle (confirmedDelete be) w = handleDelete be id w).
  { unfold handle, confirmedDelete. rewrite Hd. destruct id; [contradiction | reflexivity]. }
  unfold viewAfter, traceAfter. rewrite E. apply handleDelete_settled.
Qed.

(** The error-reply path on its own: the item leaves the list, the banner
    stays empty and nothing is shown, only logged. *)
Lemma handleDelete_error_reply_is_only_logged (w : World AdminPanel.t) (id : jsstring) d e :
  written be (requests (trace w)) (DeleteContent id) = Resolved d (Some e) ->
  error (viewAfter (handleDelete be id) w) = None
  /\ traceAfter (handleDelete be id) w
     = trace w ++ [ConsoleLog (lit "Attempting to delete content with ID:");
                   Net (DeleteContent id);
                   ConsoleError (lit "Supabase delete error:");
                   ConsoleLog (lit "Removed from local state due to server error")].
Proof.
  intros H. unfold handleDelete. run_handler. req_simpl. rewrite H. cbn.
  repeat rewrite <- app_assoc. auto.
Qed.

(** The size label: the megabytes, rounded to hundredths, with exactly two
    decimals. *)
Lemma sizeLabel_spec (SM : StandardModel rnd) (f : File.t) :
  (File.size f < 2 ^ 53)%N ->
  exists (n : N) (a b : jsstring),
    sizeLabel rnd f = a ++ [46%N] ++ b ++ lit "MB"
    /\ a <> [] /\ allDigits a /\ allDigits b /\ length b = 2%nat
    /\ digitsValue (a ++ b) = n
    /\ roundedHundredths n (inject_Z (Z.of_N (File.size f)) / inject_Z (1024 * 1024)).
Proof.
  intros Hsz. unfold sizeLabel, fdiv.
  set (y := inject_Z (Z.of_N (File.size f)) / inject_Z (1024 * 1024)).
  assert (Hx : rnd y == y).
  { apply (rnd_dyadic SM (m := Z.of_N (File.size f)) (k := 20)); [reflexivity | lia | lia]. }
  assert (Hy : 0 <= y).
  { unfold y. apply Qle_shift_div_l; [reflexivity|].
    rewrite Qmult_0_l. change 0 with (inject_Z 0). rewrite <- Zle_Qle. lia. }
  assert (Hq : Qabs (rnd y) == y).
  { rewrite (Qabs_wd _ _ Hx). now apply Qabs_pos. }
  destruct (toFixed_shape 1 (rnd y)) as (a & b & E & Ha & Da & Db & Lb & V).
  assert (Hs : Qle_bool 0 (rnd y) = true) by (apply Qle_bool_iff; rewrite Hx; exact Hy).
  rewrite Hs in E. cbn [app] in E.
  exists (toFixedN 2 (rnd y)), a, b. repeat split; trivial.
  - rewrite E. repeat rewrite <- app_assoc. reflexivity.
  - destruct (toFixedN_spec 2 (rnd y)) as [Lo _].
    rewrite Hq in Lo. exact Lo.
  - destruct (toFixedN_spec 2 (rnd y)) as [_ Hi].
    rewrite Hq in Hi. exact Hi.
Qed.

(** C8.  An upload stores the file under [content/<token>-<name>], the token
    drawn from the random source; when the declared type is [text/html] or the
    part of the name after its last dot is [html] in any letter case, the
    content type sent is [application/octet-stream]; and when storage accepts
    the upload the handler returns the public URL of that path together with
    a label [<digits>.<two digits>MB] spelling the size in mebibytes rounded
    to hundredths. *)
Theorem uploadFile_names_hardens_and_measures
    (SM : StandardModel rnd) (w : World AdminPanel.t) (f : File.t) :
  let token := randomToken be (requests (trace w)) in
  let path := lit "content/" ++ (token ++ lit "-" ++ File.name f) in
  let storedType :=
    if isHtmlUpload f then lit "application/octet-stream" else File.type f in
  let upload := StorageUpload (lit "content-files") path f storedType (lit "3600") in
  requests (traceAfter (uploadFile rnd be f) w) = requests (trace w) ++ [upload]
  /\ (File.type f = lit "text/html"
      \/ (exists stem ext, File.name f = stem ++ 46%N :: ext
                           /\ ~ In 46%N ext /\ toLowerCase ext = lit "html") ->
      storedType = lit "application/octet-stream")
  /\ (forall d, written be (requests (trace w)) upload = Resolved d None ->
      (File.size f < 2 ^ 53)%N ->
      exists (n : N) (a b : jsstring),
        fst (uploadFile rnd be f w)
        = Val (getPublicUrl be (lit "content-files") path, a ++ [46%N] ++ b ++ lit "MB")
        /\ a <> [] /\ allDigits a /\ allDigits b /\ length b = 2%nat
        /\ digitsValue (a ++ b) = n
        /\ roundedHundredths n
             (inject_Z (Z.of_N (File.size f)) / inject_Z (1024 * 1024))).
Proof.
  cbv zeta. unfold uploadFile, objectPath. run_handler. split; [|split].
  - destruct (written be _ _) as [d [e|]|x]; cbn; req_simpl; reflexivity.
  - intros [Ht | (stem & ext & Hn & Hdot & Hl)]; unfold isHtmlUpload.
    + rewrite Ht. reflexivity.
    + rewrite Hn, (@pop_split_extension 46%N stem ext Hdot), Hl, orb_true_r. reflexivity.
  - intros d Hd Hsz. rewrite Hd. cbn.
    destruct (sizeLabel_spec SM f Hsz) as (n & a & b & E & R).
    exists n, a, b. rewrite E. split; [reflexivity | exact R].
Qed.


Lemma sizeLabel_truthy (f : File.t) : truthy (sizeLabel rnd f) = true.
Proof.
  unfold sizeLabel. destruct (toFixed 2 _); reflexivity.
Qed.

(** C4.  Submitting the form with a file attached sends the upload first.  When
    storage accepts it, the next request is the write of the record, an
    update of the edited item or else an insert, and the record written
    carries the public URL of the uploaded object and its size label.  When
    the upload fails, by an error answer or a rejected call, the upload is the
    only request of the submission, so nothing is inserted or updated, and
    the error banner is set. *)
Theorem handleSubmit_uploads_before_writing (w : World AdminPanel.t) (f : File.t) :
  file (view w) = Some f ->
  let s := view w in
  let run := handle (handleSubmit rnd be) in
  let path := objectPath (randomToken be (requests (trace w))) f in
  let upload :=
    StorageUpload (lit "content-files") path f
      (if isHtmlUpload f then lit "application/octet-stream" else File.type f)
      (lit "3600") in
  let url := getPublicUrl be (lit "content-files") path in
  let data :=
    ContentFormData.mk
      (ContentFormData.title (formData s)) (ContentFormData.type (formData s))
      (ContentFormData.description (formData s)) (ContentFormData.version (formData s))
      (sizeLabel rnd f) (ContentFormData.image (formData s)) (Some url) in
  let write :=
    match isEditing s with
    | Some (c :: editing) =>
        UpdateContent (c :: editing) data (nowISO be (requests (trace w) ++ [upload]))
    | _ => InsertContent data 0 0 (lit "admin")
    end in
  (forall d, written be (requests (trace w)) upload = Resolved d None -> url <> [] ->
     exists rest,
       requests (traceAfter run w) = requests (trace w) ++ upload :: write :: rest)
  /\ ((exists d e, written be (requests (trace w)) upload = Resolved d (Some e))
      \/ (exists x, written be (requests (trace w)) upload = Rejected x) ->
      requests (traceAfter run w) = requests (trace w) ++ [upload]
      /\ error (viewAfter run w)
         = Some (lit "Failed to save content. Please try again.")).
Proof.
  intros Hf. cbv zeta. unfold handleSubmit, uploadFile, fetchContent. run_handler.
  rewrite Hf. cbn [view trace setError setUploading]. split.
  - intros d Hd Hurl. rewrite Hd. cbn. unfold contentData.
    rewrite sizeLabel_truthy.
    destruct (getPublicUrl be _ _) as [|u url] eqn:Eu; [contradiction|].
    cbn [truthy].
    destruct (isEditing (view w)) as [[|c editing]|]; cbn; req_simpl.
    + destruct (written be _ (InsertContent _ _ _ _)) as [d1 [e1|]|x1]; cbn; req_simpl.
      * eexists. reflexivity.
      * destruct (contentRows be _ _) as [d2 [e2|]|x2]; cbn; req_simpl;
          eexists; reflexivity.
      * eexists. reflexivity.
    + destruct (written be _ (UpdateContent _ _ _)) as [d1 [e1|]|x1]; cbn; req_simpl.
      * eexists. reflexivity.
      * destruct (contentRows be _ _) as [d2 [e2|]|x2]; cbn; req_simpl;
          eexists; reflexivity.
      * eexists. reflexivity.
    + destruct (written be _ (InsertContent _ _ _ _)) as [d1 [e1|]|x1]; cbn; req_simpl.
      * eexists. reflexivity.
      * destruct (contentRows be _ _) as [d2 [e2|]|x2]; cbn; req_simpl;
          eexists; reflexivity.
      * eexists. reflexivity.
  - intros [(d & e & H) | (x & H)]; rewrite H; cbn; req_simpl; auto.
Qed.


(** C9.  Selecting a file of more than 50 * 1024 * 1024 bytes sets the error
    banner, clears the file input, and sends no request; the file held by the
    form is the one held before, so a submission that follows sends exactly
    the requests it would have sent without the rejected selection. *)
Theorem oversized_file_is_rejected (w : World AdminPanel.t) (f : File.t) :
  (maxFileSize < File.size f)%N ->
  let run := handleFileChange (Some f) in
  traceAfter run w = trace w ++ [InputReset]
  /\ requests (traceAfter run w) = requests (trace w)
  /\ error (viewAfter run w)
     = Some (lit "File size exceeds the 50MB limit. Please select a smaller file.")
  /\ file (viewAfter run w) = file (view w)
  /\ requests (traceAfter (run ;; handle (handleSubmit rnd be))%handler w)
     = requests (traceAfter (handle (handleSubmit rnd be)) w).
Proof.
  intros H. cbv zeta. unfold handleFileChange.
  apply N.ltb_lt in H. rewrite H. unfold handleSubmit, uploadFile, fetchContent.
  run_handler. req_simpl.
  repeat split.
  cbn [view trace setError file formData isEditing].
  destruct (file (view w)) as [f0|];
    destruct (isEditing (view w)) as [[|c editing]|]; case_oracles.
Qed.

End AdminFacts.

(* ===================================================================== *)
(** ** The download endpoint *)
(* ===================================================================== *)

Section DownloadFacts.
Import Download.
Variable be : Backend.

(** C10.  Once the endpoint has resolved a record, every Content-Disposition
    header it sets is [attachment; filename="<name>.html"], the name being the
    title with every character outside a-z, A-Z and 0-9 replaced by an
    underscore, whatever the stored file reference is; and when the counter
    update is not rejected and the file is fetched, the header is set, before
    the type, the length and the body. *)
Theorem download_filename_ends_in_html (tr : list Event) (id : jsstring) (data : FileRecord.t) :
  fileRecord be (requests tr) (SelectFileRecord id) = Resolved (Some data) None ->
  let filename := replaceNonAlnum (FileRecord.title data) ++ lit ".html" in
  let header := lit "attachment; filename=" ++ [quote] ++ filename ++ [quote] in
  let select := SelectFileRecord id in
  let count :=
    UpdateDownloads id
      (match FileRecord.downloads data with Some d => d | None => 0%N end + 1) in
  let after := traceAfter (handler be id) (mkWorld tt tr) in
  (forall v, In (ResSetHeader (lit "Content-Disposition") v) after ->
             In (ResSetHeader (lit "Content-Disposition") v) tr \/ v = header)
  /\ (forall body,
         (forall x, written be (requests tr ++ [select]) count <> Rejected x) ->
         httpGet be (requests tr ++ [select; count]) (FileRecord.file_url data)
         = Fetched body ->
         after = tr ++ [Net select; Net count; Net (HttpGet (FileRecord.file_url data));
                        ResSetHeader (lit "Content-Disposition") header;
                        ResSetHeader (lit "Content-Type") (lit "application/octet-stream");
                        ResSetHeader (lit "Content-Length")
                                     (digits (N.of_nat (length body)));
                        ResSend body]).
Proof.
  intros H. cbv zeta.
  change (lit "attachment; filename=" ++ [quote]
          ++ (replaceNonAlnum (FileRecord.title data) ++ lit ".html") ++ [quote])
    with (contentDisposition (FileRecord.title data)).
  unfold handler. run_handler. rewrite H. cbn. req_simpl.
  assert (Hdec : forall v e,
             ResSetHeader (lit "Content-Disposition") v = e ->
             e = ResSetHeader (lit "Content-Type") (lit "application/octet-stream")
             \/ (exists n, e = ResSetHeader (lit "Content-Length") n)
             \/ (exists r, e = Net r) \/ (exists b, e = ResSend b)
             \/ (exists c, e = ResStatus c) \/ (exists t, e = ResJson t)
             \/ (exists t, e = ConsoleError t) -> False).
  { intros v e <- [E|[[n E]|[[r E]|[[b E]|[[c E]|[[t E]|[t E]]]]]]];
      try discriminate E; injection E as E _; vm_compute in E; discriminate E. }
  split.
  - intros v Hin.
    assert (Hnew : forall new,
               In (ResSetHeader (lit "Content-Disposition") v) (tr ++ new) ->
               Forall (fun e =>
                         e = ResSetHeader (lit "Content-Disposition")
                               (contentDisposition (FileRecord.title data))
                         \/ e = ResSetHeader (lit "Content-Type")
                                  (lit "application/octet-stream")
                         \/ (exists n, e = ResSetHeader (lit "Content-Length") n)
                         \/ (exists r, e = Net r) \/ (exists b, e = ResSend b)
                         \/ (exists c, e = ResStatus c) \/ (exists t, e = ResJson t)
                         \/ (exists t, e = ConsoleError t)) new ->
               In (ResSetHeader (lit "Content-Disposition") v) tr
               \/ v = contentDisposition (FileRecord.title data)).
    { intros new Hi Hall. apply in_app_or in Hi. destruct Hi as [Hi|Hi]; [now left|].
      right. rewrite Forall_forall in Hall. destruct (Hall _ Hi) as [E|E].
      - injection E as E. exact E.
      - exfalso. exact (Hdec v _ eq_refl E). }
    revert Hin.
    destruct (written be _ _) as [d e|x]; cbn; req_simpl;
      [destruct (httpGet be _ _) as [body|x]; cbn; req_simpl|];
      intros Hin; apply (Hnew _ Hin);
      repeat (apply Forall_cons;
              [first [ left; reflexivity | right; left; reflexivity
                     | right; right; eauto 10 ] |]);
      apply Forall_nil.
  - intros body Hw Hf.
    destruct (written be _ _) as [d e|x]; [|exfalso; eapply Hw; reflexivity].
    cbn. req_simpl. rewrite Hf. cbn. req_simpl. reflexivity.
Qed.
End DownloadFacts.

(* ===================================================================== *)
(** ** Further properties of the handlers *)
(* ===================================================================== *)

Section AppSession.

Import App ContentCard.
Variable be : Backend.

(** X1.  The check of the session on mount asks the session service once; the
    visitor becomes an administrator only when a session comes back without
    an error; a missing session, an error answer or a rejected call all set
    the status to non-administrator, whatever it was; nothing else changes. *)
Theorem checkAdmin_fails_closed (w : World App.t) :
  let run := checkAdmin be in
  let answer := session be (requests (trace w)) AuthGetSession in
  requests (traceAfter run w) = requests (trace w) ++ [AuthGetSession]
  /\ (forall token, answer = Resolved (Some token) None ->
      viewAfter run w = setIsAdmin true (view w))
  /\ (answer = Resolved None None
      \/ (exists token e, answer = Resolved token (Some e))
      \/ (exists x, answer = Rejected x) ->
      viewAfter run w = setIsAdmin false (view w)).
Proof.
  cbv zeta. unfold checkAdmin. run_handler. split; [|split].
  - destruct (session be _ _) as [d [e|]|x]; cbn; req_simpl; reflexivity.
  - intros token H. rewrite H. reflexivity.
  - intros [H | [(token & e & H) | (x & H)]]; rewrite H; reflexivity.
Qed.

(** X2.  Loading the catalogue sends one select ordered by downloads,
    descending.  When rows come back, the fetched and the shown list both
    become these rows (none when the data is null) and the banner is cleared;
    on an error answer or a rejected call both lists stay as they were and the
    banner carries the message of that case. *)
Theorem fetchContent_replaces_or_reports (w : World App.t) :
  let run := App.fetchContent be in
  let select := SelectContent (lit "downloads") false in
  let answer := contentRows be (requests (trace w)) select in
  requests (traceAfter run w) = requests (trace w) ++ [select]
  /\ (forall rows, answer = Resolved rows None ->
      viewAfter run w
      = setError None
          (setFilteredContent (fun _ => orEmpty rows)
             (setFeaturedContent (fun _ => orEmpty rows) (view w))))
  /\ (forall rows e, answer = Resolved rows (Some e) ->
      viewAfter run w
      = setError (Some (lit "Error fetching content. Please try again later.")) (view w))
  /\ (forall x, answer = Rejected x ->
      viewAfter run w
      = setError (Some (lit "An unexpected error occurred. Please try again later."))
          (view w)).
Proof.
  cbv zeta. unfold App.fetchContent. run_handler. split; [|split; [|split]].
  - destruct (contentRows be _ _) as [d [e|]|x]; cbn; req_simpl; reflexivity.
  - intros rows H. rewrite H. reflexivity.
  - intros rows e H. rewrite H. reflexivity.
  - intros x H. rewrite H. reflexivity.
Qed.

(** X3.  A successful load followed by the effect that the change of the
    fetched list triggers: the shown list is the fetched rows for the
    category "all" and otherwise the fetched rows the active category
    accepts, so every shown item is one of the fetched ones; only the select
    is requested. *)
Theorem fetched_catalogue_is_shown_by_category (w : World App.t) rows :
  let select := SelectContent (lit "downloads") false in
  let run := (App.fetchContent be ;; categoryEffect)%handler in
  let category := activeCategory (view w) in
  contentRows be (requests (trace w)) select = Resolved rows None ->
  featuredContent (viewAfter run w) = orEmpty rows
  /\ (category = lit "all" -> filteredContent (viewAfter run w) = orEmpty rows)
  /\ (category <> lit "all" ->
      filteredContent (viewAfter run w) = filter (matchesCategory category) (orEmpty rows))
  /\ (forall item, In item (filteredContent (viewAfter run w)) -> In item (orEmpty rows))
  /\ requests (traceAfter run w) = requests (trace w) ++ [select].
Proof.
  cbv zeta. intros H. unfold App.fetchContent, categoryEffect. run_handler.
  rewrite H. cbn.
  destruct (eqb (activeCategory (view w)) (lit "all")) eqn:E.
  - apply eqb_eq in E. cbn. req_simpl. repeat split; trivial.
    intros Hn. contradiction.
  - assert (Hn : activeCategory (view w) <> lit "all").
    { intros Heq. rewrite Heq, eqb_refl in E. discriminate. }
    cbn. req_simpl. repeat split; trivial.
    + intros Heq. contradiction.
    + intros item Hin. apply filter_In in Hin. tauto.
Qed.

(** X4.  Logging out sends one sign-out request.  Once the call settles,
    with or without an error in its answer, the administrator status is
    dropped and the panel closed, so the public view is rendered; when the
    call is rejected the state stays as it was and the failure is only
    logged. *)
Theorem handleLogout_needs_a_settled_call (w : World App.t) :
  let run := handleLogout be in
  let answer := written be (requests (trace w)) AuthSignOut in
  requests (traceAfter run w) = requests (trace w) ++ [AuthSignOut]
  /\ (forall d e, answer = Resolved d e ->
      viewAfter run w = setShowAdminPanel false (setIsAdmin false (view w))
      /\ render (viewAfter run w)
         = match selectedContent (view w) with
           | Some content => Detail content
           | None => Catalogue
           end)
  /\ (forall x, answer = Rejected x ->
      viewAfter run w = view w
      /\ traceAfter run w
         = trace w ++ [Net AuthSignOut; ConsoleError (lit "Error signing out:")]).
Proof.
  cbv zeta. unfold handleLogout. run_handler. split; [|split].
  - destruct (written be _ _) as [d e|x]; cbn; req_simpl; reflexivity.
  - intros d e H. rewrite H. cbn. split; reflexivity.
  - intros x H. rewrite H. cbn. rewrite <- app_assoc. split; [|reflexivity].
    destruct w; reflexivity.
Qed.

End AppSession.

Section AppScreens.
Import App ContentCard.

(** X5.  The administration panel is rendered exactly when the panel is
    requested and the visitor is an administrator: for anybody else the
    header button leads to the login form, and it is the login callback that
    opens the panel. *)
Theorem panel_is_rendered_to_admins_only (s : App.t) :
  (render s = Panel <-> isAdmin s = true /\ showAdminPanel s = true)
  /\ (isAdmin s = false ->
      render (viewAfter openAdminPanel (start s)) = Login)
  /\ render (viewAfter handleLogin (start s)) = Panel
  /\ (isAdmin s = true ->
      render (viewAfter openAdminPanel (start s)) = Panel).
Proof.
  unfold render, openAdminPanel, handleLogin. run_handler.
  cbn [isAdmin showAdminPanel selectedContent setShowAdminPanel setIsAdmin].
  split; [|split; [|split]].
  - destruct (isAdmin s), (showAdminPanel s); cbn;
      (split; [intros H | intros [H1 H2]]); try discriminate; auto;
      destruct (selectedContent s); discriminate.
  - intros ->. reflexivity.
  - reflexivity.
  - intros ->. reflexivity.
Qed.

(** X6.  A category other than the three the [switch] names filters nothing:
    the whole fetched list is shown; and choosing a category twice is the
    same as choosing it once. *)
Theorem unlisted_category_shows_everything (s : App.t) (tr : list Event) (category : jsstring) :
  category <> lit "resource-packs" -> category <> lit "mods" ->
  category <> lit "clients" ->
  let w := mkWorld s tr in
  filteredContent (viewAfter (selectCategory category) w) = featuredContent s
  /\ viewAfter (selectCategory category ;; selectCategory category)%handler w
     = viewAfter (selectCategory category) w.
Proof.
  intros H1 H2 H3. cbv zeta. unfold selectCategory, categoryEffect. run_handler.
  cbn [activeCategory setActiveCategory featuredContent view].
  assert (E : forall l, filter (matchesCategory category) l = l).
  { intros l. induction l as [|a l IH]; [reflexivity|]. cbn [filter].
    unfold matchesCategory at 1.
    destruct (eqb category (lit "resource-packs")) eqn:E1;
      [apply eqb_eq in E1; contradiction|].
    destruct (eqb category (lit "mods")) eqn:E2; [apply eqb_eq in E2; contradiction|].
    destruct (eqb category (lit "clients")) eqn:E3; [apply eqb_eq in E3; contradiction|].
    now rewrite IH. }
  destruct (eqb category (lit "all")); cbn; rewrite ?E; split; reflexivity.
Qed.

End AppScreens.

Lemma replaceById_ids (id0 : jsstring) (updated : ContentCard.t) (l : list ContentCard.t) :
  ContentCard.id updated = id0 ->
  map ContentCard.id (App.replaceById id0 updated l) = map ContentCard.id l.
Proof.
  intros H. unfold App.replaceById. induction l as [|item l IH]; cbn; [reflexivity|].
  rewrite IH. destruct (eqb (ContentCard.id item) id0) eqn:E; [|reflexivity].
  apply eqb_eq in E. congruence.
Qed.

Lemma replaceNonAlnum_safe title c :
  In c (replaceNonAlnum title) -> isAlnum c = true \/ c = underscore.
Proof.
  unfold replaceNonAlnum. intros H. apply in_map_iff in H. destruct H as (x & E & _).
  destruct (isAlnum x) eqn:A; subst c; auto.
Qed.

(** Below 2^53 the binary64 sum [n + 1] is the sum of the integers. *)
Lemma counter_sum_is_exact (rnd : Q -> Q) (n : N) :
  StandardModel rnd -> (n < 2 ^ 53)%N ->
  fadd rnd (inject_Z (Z.of_N n)) 1 == inject_Z (Z.of_N (n + 1)).
Proof.
  intros SM Hn. unfold fadd.
  assert (E : inject_Z (Z.of_N n) + 1 == inject_Z (Z.of_N (n + 1))).
  { rewrite N2Z.inj_add, inject_Z_plus. reflexivity. }
  rewrite (rnd_dyadic SM (m := Z.of_N (n + 1)) (k := 0)); [exact E| |lia|lia].
  rewrite E. change (inject_Z (2 ^ Z.of_nat 0)) with 1. field.
Qed.

Section AppDownloads.

Import App ContentCard.
Variable be : Backend.

#[local] Arguments split : simpl never.
#[local] Arguments pop : simpl never.
#[local] Arguments toLowerCase : simpl never.
#[local] Arguments replaceNonAlnum : simpl never.

(** Rewrites with the answer [Hb] of the file fetch. *)
Ltac fetch_answer Hb :=
  match goal with
  | |- context [httpGet ?b ?h ?u] =>
      match type of Hb with
      | _ = ?r => replace (httpGet b h u) with r by (symmetry; exact Hb)
      end
  end.

Ltac with_file Hf Hu url :=
  unfold handleDownload; rewrite Hf;
  destruct url as [|c0 url0] eqn:Eurl; [contradiction|];
  run_handler.

(** X7.  For an item with a file and fewer than 2^53 downloads, a download
    sends the counter update and then the fetch of the file, in this order,
    whatever the store answers to the update (accepted, refused or rejected);
    the count sent is the binary64 sum of the downloads and 1; when the file
    arrives it is saved; the selected item is never touched. *)
Theorem download_proceeds_despite_counter_failure
    (w : World App.t) (content : ContentCard.t) (url : jsstring) :
  file_url content = Some url -> url <> [] ->
  (downloads content < 2 ^ 53)%N ->
  let run := handle (fun s => handleDownload be s content) in
  let count := UpdateDownloads (id content) (downloads content + 1) in
  let get := HttpGet (Some url) in
  requests (traceAfter run w) = requests (trace w) ++ [count; get]
  /\ (forall rnd, StandardModel rnd ->
      fadd rnd (inject_Z (Z.of_N (downloads content))) 1
      == inject_Z (Z.of_N (downloads content + 1)))
  /\ (forall body,
         httpGet be (requests (trace w) ++ [count]) (Some url) = Fetched body ->
         exists name,
           In (SaveFile name body (lit "application/octet-stream")) (traceAfter run w))
  /\ selectedContent (viewAfter run w) = selectedContent (view w).
Proof.
  intros Hf Hu Hd. cbv zeta. with_file Hf Hu url.
  split; [|split; [|split]].
  - destruct (written be _ _) as [d [e|]|x]; cbn; req_simpl;
      destruct (httpGet be _ _) as [body|x']; cbn; req_simpl;
      try destruct (truthyOpt (error (view w))); cbn; req_simpl; reflexivity.
  - intros rnd SM. now apply counter_sum_is_exact.
  - intros body Hb.
    destruct (written be _ _) as [d [e|]|x]; cbn; req_simpl; fetch_answer Hb;
      cbn; eexists;
      destruct (truthyOpt (error (view w))); cbn;
      rewrite !in_app_iff; cbn; eauto 10.
  - destruct (written be _ _) as [d [e|]|x]; cbn; req_simpl;
      destruct (httpGet be _ _) as [body|x']; cbn; req_simpl;
      try destruct (truthyOpt (error (view w))); cbn; reflexivity.
Qed.

(** X8.  For an item with fewer than 2^53 downloads whose file reference is
    [stem.ext] with an extension of ASCII characters: when the file arrives it
    is saved as octet-stream under the title, with every character other than
    an ASCII letter or digit replaced by an underscore, a dot, and the
    lower-cased extension ([html] when the reference ends in a dot).  While no
    error banner is showing, every item of both lists with the id of the item
    is replaced by the item with one more download; with a banner the state is
    left as it is. *)
Theorem download_saves_under_a_sanitised_name
    (w : World App.t) (content : ContentCard.t) (stem ext : jsstring) (body : list N) :
  let url := stem ++ 46%N :: ext in
  let run := handle (fun s => handleDownload be s content) in
  let count := UpdateDownloads (id content) (downloads content + 1) in
  let extension := match ext with [] => lit "html" | _ :: _ => toLowerCase ext end in
  let name := replaceNonAlnum (title content) ++ lit "." ++ extension in
  let counted :=
    ContentCard.mk (id content) (title content) (author content) (type content)
      (downloads content + 1) (image content) (rating content) (ratings_count content)
      (description content) (version content) (file_size content) (file_url content)
      (created_at content) (updated_at content) in
  let recount := map (fun item => if eqb (id item) (id content) then counted else item) in
  file_url content = Some url -> ~ In 46%N ext ->
  Forall (fun c => (c < 128)%N) ext ->
  (downloads content < 2 ^ 53)%N ->
  httpGet be (requests (trace w) ++ [count]) (Some url) = Fetched body ->
  In (SaveFile name body (lit "application/octet-stream")) (traceAfter run w)
  /\ (forall c, In c (replaceNonAlnum (title content)) ->
                isAlnum c = true \/ c = underscore)
  /\ (truthyOpt (error (view w)) = false ->
      viewAfter run w = setFilteredContent recount (setFeaturedContent recount (view w)))
  /\ (truthyOpt (error (view w)) = true -> viewAfter run w = view w).
Proof.
  cbv zeta. intros Hf Hdot Hascii Hd Hb.
  assert (Hu : stem ++ 46%N :: ext <> []) by (destruct stem; discriminate).
  pose proof (@pop_split_extension 46%N stem ext Hdot) as Hp.
  remember (stem ++ 46%N :: ext) as url eqn:Eu.
  unfold handleDownload. rewrite Hf.
  destruct url as [|c0 url0]; [contradiction|]. run_handler.
  rewrite Hp.
  assert (Hext : (if truthy (toLowerCase ext) then toLowerCase ext else lit "html")
                 = match ext with [] => lit "html" | _ :: _ => toLowerCase ext end).
  { destruct ext; reflexivity. }
  rewrite Hext. clear Hext.
  split; [|split; [|split]].
  - destruct (written be _ _) as [d [e|]|x]; cbn; req_simpl; fetch_answer Hb;
      cbn; destruct (truthyOpt (error (view w))); cbn;
      rewrite !in_app_iff; cbn; auto 10.
  - apply replaceNonAlnum_safe.
  - intros He. rewrite He.
    destruct (written be _ _) as [d [e|]|x]; cbn; req_simpl; fetch_answer Hb;
      cbn; unfold replaceById, with_downloads; rewrite ?Hf; reflexivity.
  - intros He. rewrite He.
    destruct (written be _ _) as [d [e|]|x]; cbn; req_simpl; fetch_answer Hb;
      cbn; destruct w; reflexivity.
Qed.

(** X9.  When the fetch of the file fails, the handler logs, tells the
    visitor, and opens the file reference in a new tab; the state is
    unchanged although the counter update was sent before. *)
Theorem failed_download_opens_the_file_in_a_tab
    (w : World App.t) (content : ContentCard.t) (url reason : jsstring) :
  file_url content = Some url -> url <> [] ->
  let run := handle (fun s => handleDownload be s content) in
  let count := UpdateDownloads (id content) (downloads content + 1) in
  httpGet be (requests (trace w) ++ [count]) (Some url) = FetchFailed reason ->
  viewAfter run w = view w
  /\ exists log,
       traceAfter run w
       = trace w ++ Net count :: log
           ++ [Net (HttpGet (Some url)); ConsoleError (lit "Download error:");
               Alert (lit "Download started in a new tab. You may need to save the file manually.");
               WindowOpen url]
       /\ requests log = [].
Proof.
  intros Hf Hu. cbv zeta. intros Hb. with_file Hf Hu url.
  destruct (written be _ _) as [d [e|]|x]; cbn; req_simpl; fetch_answer Hb; cbn;
    (split; [destruct w; reflexivity|]).
  - exists [ConsoleError (lit "Error updating download count:")].
    split; [repeat rewrite <- app_assoc|]; reflexivity.
  - exists [].
    split; [repeat rewrite <- app_assoc|]; reflexivity.
  - exists [ConsoleError (lit "Error in download count update:")].
    split; [repeat rewrite <- app_assoc|]; reflexivity.
Qed.

Lemma handleDownload_requests
    (s : App.t) (w : World App.t) (content : ContentCard.t) (url : jsstring) :
  file_url content = Some url -> url <> [] ->
  let after := snd (handleDownload be s content w) in
  requests (trace after)
  = requests (trace w) ++ [UpdateDownloads (id content) (downloads content + 1);
                           HttpGet (Some url)]
  /\ selectedContent (view after) = selectedContent (view w)
  /\ fst (handleDownload be s content w) = Val tt.
Proof.
  intros Hf Hu. cbv zeta. with_file Hf Hu url.
  destruct (written be _ _) as [d [e|]|x]; cbn; req_simpl;
    destruct (httpGet be _ _) as [body|x']; cbn; req_simpl;
    try destruct (truthyOpt (error s)); cbn; req_simpl; repeat split; reflexivity.
Qed.

(** X10.  Two downloads from the detail page of an item with fewer than 2^53
    downloads send the same counter value, the count of the selected item
    plus one, because a download never replaces the selected item. *)
Theorem downloads_from_the_detail_page_repeat_the_count
    (w : World App.t) (content : ContentCard.t) (url : jsstring) :
  selectedContent (view w) = Some content ->
  file_url content = Some url -> url <> [] ->
  (downloads content < 2 ^ 53)%N ->
  let twice := (downloadSelected be ;; downloadSelected be)%handler in
  let count := UpdateDownloads (id content) (downloads content + 1) in
  let get := HttpGet (Some url) in
  requests (traceAfter twice w) = requests (trace w) ++ [count; get; count; get]
  /\ (forall rnd, StandardModel rnd ->
      fadd rnd (inject_Z (Z.of_N (downloads content))) 1
      == inject_Z (Z.of_N (downloads content + 1)))
  /\ selectedContent (viewAfter twice w) = Some content.
Proof.
  intros Hs Hf Hu Hd. cbv zeta.
  unfold downloadSelected, viewAfter, traceAfter, bind, handle.
  rewrite Hs.
  destruct (@handleDownload_requests (view w) w content url Hf Hu) as (R1 & S1 & V1).
  cbv zeta in R1, S1.
  destruct (handleDownload be (view w) content w) as [r1 w1]. cbn [fst snd] in R1, S1, V1.
  rewrite Hs in S1. subst r1. rewrite S1.
  destruct (@handleDownload_requests (view w1) w1 content url Hf Hu) as (R2 & S2 & _).
  cbv zeta in R2, S2. rewrite R2, S2, R1, S1, <- app_assoc.
  split; [reflexivity|]. split; [|reflexivity].
  intros rnd SM. now apply counter_sum_is_exact.
Qed.

End AppDownloads.

Lemma find_absent (A : Type) (f : A -> bool) (l : list A) :
  (forall x, In x l -> f x = false) -> find f l = None.
Proof.
  induction l as [|a l IH]; intros H; cbn; [reflexivity|].
  rewrite (H a (or_introl eq_refl)). apply IH. intros x Hx. apply H. now right.
Qed.

(** [toFixedN] of a non-negative integer. *)
Lemma toFixedN_of_integer (x : Q) (k : Z) :
  x == inject_Z k -> (0 <= k)%Z -> Z.of_N (toFixedN 1 x) = (10 * k)%Z.
Proof.
  intros E Hk.
  destruct (toFixedN_spec 1 x) as [Lo Hi]. cbv zeta in Lo, Hi.
  assert (Ha : Qabs x == inject_Z k).
  { rewrite (Qabs_wd _ _ E). apply Qabs_pos.
    change 0 with (inject_Z 0). rewrite <- Zle_Qle. exact Hk. }
  rewrite Ha in Lo, Hi. change (inject_Z (pow10 1)) with 10 in Lo, Hi.
  set (n := Z.of_N (toFixedN 1 x)) in *.
  assert (A : inject_Z n < inject_Z (10 * k + 1)).
  { rewrite inject_Z_plus, inject_Z_mult.
    change (inject_Z 10) with 10. change (inject_Z 1) with 1. lra. }
  assert (B : inject_Z (10 * k - 1) < inject_Z n).
  { unfold Z.sub. rewrite inject_Z_plus, inject_Z_mult, inject_Z_opp.
    change (inject_Z 10) with 10. change (inject_Z 1) with 1. lra. }
  rewrite <- Zlt_Qlt in A, B. lia.
Qed.

Section AppRatings.

Import App ContentCard.
Variable rnd : Q -> Q.
Variable be : Backend.

#[local] Arguments replaceById : simpl never.

Lemma ratedContent_found (s : App.t) (contentId : jsstring) (content : ContentCard.t) :
  selectedContent s = None -> ratedContent s contentId = Some content ->
  id content = contentId.
Proof.
  unfold ratedContent. intros -> H. apply find_some in H. destruct H as [_ H].
  now apply eqb_eq.
Qed.

Lemma handleRate_ids (s : App.t) (w : World App.t) (contentId : jsstring) (star : Z) :
  view w = s ->
  match selectedContent s with Some sc => id sc = contentId | None => True end ->
  let after := view (snd (handleRate rnd be s contentId star w)) in
  map id (featuredContent after) = map id (featuredContent s)
  /\ map id (filteredContent after) = map id (filteredContent s).
Proof.
  intros Hw Hsel. cbv zeta. unfold handleRate. run_handler.
  destruct (ratedContent s contentId) as [content|] eqn:Hc;
    [|cbn; rewrite Hw; split; reflexivity].
  assert (Hid : id content = contentId).
  { destruct (selectedContent s) as [sc|] eqn:Es.
    - unfold ratedContent in Hc. rewrite Es in Hc. congruence.
    - now apply (@ratedContent_found s). }
  destruct (written be _ _) as [d [e|]|x]; cbn; rewrite ?Hw; try (split; reflexivity).
  destruct (selectedContent s) as [sc|]; [destruct (eqb (id sc) contentId)|];
    cbn; rewrite ?Hw; split; apply replaceById_ids; exact Hid.
Qed.

(** X11.  Downloading, rating from the detail page, and rating an item found
    in the shown list never add, drop or reorder items: the ids of the
    fetched and of the shown list are the same afterwards, whatever the
    remote services answer. *)
Theorem rating_and_downloading_keep_the_items_and_their_order
    (w : World App.t) (content : ContentCard.t) (star : Z) :
  let ids s := (map id (featuredContent s), map id (filteredContent s)) in
  ids (viewAfter (handle (fun s => handleDownload be s content)) w) = ids (view w)
  /\ ids (viewAfter (rateSelected rnd be star) w) = ids (view w)
  /\ (selectedContent (view w) = None ->
      forall contentId,
        ids (viewAfter (handle (fun s => handleRate rnd be s contentId star)) w)
        = ids (view w)).
Proof.
  cbv zeta. split; [|split].
  - unfold handleDownload. run_handler.
    destruct (file_url content) as [[|c url]|]; try reflexivity.
    destruct (written be _ _) as [d [e|]|x]; cbn; req_simpl;
      destruct (httpGet be _ _) as [body|x']; cbn; try reflexivity;
      destruct (truthyOpt (error (view w))); cbn; try reflexivity;
      rewrite !replaceById_ids by reflexivity; reflexivity.
  - unfold rateSelected, viewAfter, handle.
    destruct (selectedContent (view w)) as [sc|] eqn:Es; [|reflexivity].
    destruct (@handleRate_ids (view w) w (id sc) star eq_refl) as [A B].
    { rewrite Es. reflexivity. }
    cbv zeta in A, B. rewrite A, B. reflexivity.
  - intros Es contentId. unfold viewAfter, handle.
    destruct (@handleRate_ids (view w) w contentId star eq_refl) as [A B].
    { rewrite Es. exact I. }
    cbv zeta in A, B. rewrite A, B. reflexivity.
Qed.

(** X12.  Rating an id that is neither selected nor in the shown list does
    nothing at all: no request, no message, no change of state. *)
Theorem rating_an_unlisted_item_does_nothing
    (w : World App.t) (contentId : jsstring) (star : Z) :
  selectedContent (view w) = None ->
  (forall item, In item (filteredContent (view w)) -> id item <> contentId) ->
  let run := handle (fun s => handleRate rnd be s contentId star) in
  traceAfter run w = trace w /\ viewAfter run w = view w.
Proof.
  intros Hs Hno. cbv zeta. unfold handleRate. run_handler.
  assert (E : ratedContent (view w) contentId = None).
  { unfold ratedContent. rewrite Hs. apply find_absent. intros item Hin.
    destruct (eqb (id item) contentId) eqn:Eq; [|reflexivity].
    apply eqb_eq in Eq. exfalso. exact (Hno item Hin Eq). }
  rewrite E. split; reflexivity.
Qed.

Hypothesis SM : StandardModel rnd.

Lemma newRating_without_count (content : ContentCard.t) (star : Z) :
  ratingsCount content = 0%N -> (Z.abs star <= 2 ^ 53)%Z ->
  newRating rnd content star == inject_Z star.
Proof.
  intros Hn Hs. unfold newRating, fdiv, fadd, fmul. rewrite Hn.
  set (a := rnd (currentRating content * inject_Z (Z.of_N 0))).
  assert (Ha : a == 0).
  { unfold a. rewrite (rnd_dyadic SM (m := 0) (k := 0)); [| |lia|lia].
    - change (inject_Z (Z.of_N 0)) with 0. ring.
    - change (inject_Z (Z.of_N 0)) with 0. change (inject_Z (2 ^ Z.of_nat 0)) with 1.
      change (inject_Z 0) with 0. field. }
  set (b := rnd (a + inject_Z star)).
  assert (Hb : b == inject_Z star).
  { unfold b. rewrite (rnd_dyadic SM (m := star) (k := 0)); [| |exact Hs|lia].
    - rewrite Ha. ring.
    - rewrite Ha. change (inject_Z (2 ^ Z.of_nat 0)) with 1. field. }
  rewrite (rnd_dyadic SM (m := star) (k := 0)); [| |exact Hs|lia].
  - rewrite Hb. change (inject_Z (Z.of_N (0 + 1))) with 1. field.
  - rewrite Hb. change (inject_Z (Z.of_N (0 + 1))) with 1.
    change (inject_Z (2 ^ Z.of_nat 0)) with 1. reflexivity.
Qed.

(** X13.  For an item without a count of ratings (absent or zero) the rating
    sent is the star itself with count 1, whatever rating the row carried
    before. *)
Theorem first_rating_is_the_star
    (w : World App.t) (contentId : jsstring) (content : ContentCard.t) (star : Z) :
  ratedContent (view w) contentId = Some content ->
  ratingsCount content = 0%N -> (1 <= star <= 5)%Z ->
  let run := handle (fun s => handleRate rnd be s contentId star) in
  exists v : Q,
    v == inject_Z star
    /\ requests (traceAfter run w)
       = requests (trace w) ++ [UpdateRating contentId (Some v) 1].
Proof.
  intros Hc Hn Hs. cbv zeta.
  pose proof (@newRating_without_count content star Hn) as Hx.
  assert (Hstar : (Z.abs star <= 2 ^ 53)%Z) by lia. specialize (Hx Hstar).
  destruct (parseFloat_toFixed rnd 0 (newRating rnd content star)) as (q & Hq & Eq).
  fold (roundedRating rnd content star) in Hq.
  assert (Hpos : Qle_bool 0 (newRating rnd content star) = true).
  { apply Qle_bool_iff. rewrite Hx. change 0 with (inject_Z 0). rewrite <- Zle_Qle. lia. }
  rewrite Hpos in Eq.
  assert (Hk : Z.of_N (toFixedN 1 (newRating rnd content star)) = (10 * star)%Z).
  { apply toFixedN_of_integer; [exact Hx | lia]. }
  rewrite Hk in Eq. change (inject_Z (pow10 1)) with 10 in Eq.
  assert (Eq' : q == inject_Z star).
  { rewrite Eq, inject_Z_mult. change (inject_Z 10) with 10. field. }
  exists (rnd q). split.
  - rewrite (rnd_dyadic SM (m := star) (k := 0)); [exact Eq'| |lia|lia].
    rewrite Eq'. change (inject_Z (2 ^ Z.of_nat 0)) with 1. field.
  - unfold handleRate. run_handler. rewrite Hc, Hn, Hq.
    destruct (written be _ _) as [d [e|]|x]; cbn; req_simpl;
      try reflexivity.
    destruct (selectedContent (view w)) as [sc|]; [destruct (eqb (id sc) contentId)|];
      cbn; req_simpl; reflexivity.
Qed.

End AppRatings.

Section AppComments.

Import App ContentCard.
Variable rnd : Q -> Q.
Variable be : Backend.

(** X14.  Selecting an item opens it and requests its comments; the item is
    selected whatever the request does.  Fetched rows replace the comment
    list; on an error answer or a rejected call the comments shown before stay
    in place. *)
Theorem selecting_an_item_fetches_its_comments
    (w : World App.t) (content : ContentCard.t) :
  let run := handleSelectContent be content in
  let select := SelectComments (id content) in
  let answer := commentRows be (requests (trace w)) select in
  requests (traceAfter run w) = requests (trace w) ++ [select]
  /\ selectedContent (viewAfter run w) = Some content
  /\ (forall rows, answer = Resolved rows None ->
      viewAfter run w
      = setComments (fun _ => orEmpty rows) (setSelectedContent (Some content) (view w)))
  /\ ((exists rows e, answer = Resolved rows (Some e)) \/ (exists x, answer = Rejected x) ->
      viewAfter run w = setSelectedContent (Some content) (view w)
      /\ comments (viewAfter run w) = comments (view w)).
Proof.
  cbv zeta. unfold handleSelectContent, fetchComments. run_handler. req_simpl.
  split; [|split; [|split]].
  - destruct (commentRows be _ _) as [d [e|]|x]; cbn; req_simpl; reflexivity.
  - destruct (commentRows be _ _) as [d [e|]|x]; reflexivity.
  - intros rows H. rewrite H. reflexivity.
  - intros [(rows & e & H) | (x & H)]; rewrite H; split; reflexivity.
Qed.

(** X15.  A post of a valid comment that the store refuses, or that is
    rejected, leaves the whole state, so list, name and text, as it was, and
    shows an alert (with the store's message on an error answer).  A post the
    store echoes empties the text field and keeps the name. *)
Theorem failed_comment_post_keeps_the_draft (w : World App.t) (contentId : jsstring) :
  let run := handle (fun s => postComment be s contentId) in
  let author := trim (commentAuthor (view w)) in
  let text := trim (commentText (view w)) in
  let insert := InsertComment contentId author text in
  let answer := commentRows be (requests (trace w)) insert in
  author <> [] -> text <> [] ->
  (forall d e, answer = Resolved d (Some e) ->
     viewAfter run w = view w
     /\ traceAfter run w
        = trace w ++ [ConsoleLog (lit "Submitting comment:"); Net insert;
                      ConsoleError (lit "Error posting comment:");
                      Alert (lit "Failed to post comment: " ++ message e)])
  /\ (forall x, answer = Rejected x ->
      viewAfter run w = view w
      /\ traceAfter run w
         = trace w ++ [ConsoleLog (lit "Submitting comment:"); Net insert;
                       ConsoleError (lit "Error in postComment:");
                       Alert (lit "An error occurred while posting your comment.")])
  /\ (forall newComment rest, answer = Resolved (Some (newComment :: rest)) None ->
      viewAfter run w
      = setCommentText [] (setComments (fun prev => newComment :: prev) (view w))
      /\ commentAuthor (viewAfter run w) = commentAuthor (view w)).
Proof.
  cbv zeta. intros Ha Ht. unfold postComment. run_handler.
  assert (E : negb (truthy (trim (commentAuthor (view w))))
              || negb (truthy (trim (commentText (view w)))) = false).
  { destruct (trim (commentAuthor (view w))); [congruence|].
    destruct (trim (commentText (view w))); [congruence|]. reflexivity. }
  rewrite E. cbn. req_simpl. split; [|split].
  - intros d e H. rewrite H. cbn. repeat rewrite <- app_assoc.
    split; [destruct w|]; reflexivity.
  - intros x H. rewrite H. cbn. repeat rewrite <- app_assoc.
    split; [destruct w|]; reflexivity.
  - intros c rest H. rewrite H. cbn. split; reflexivity.
Qed.

(** X16.  An administrator's delete of a comment that the store refuses, or
    that is rejected, leaves the state as it was and shows an alert; an
    accepted delete keeps exactly the comments with another id. *)
Theorem failed_comment_delete_changes_nothing (w : World App.t) (commentId : jsstring) :
  let run := handle (fun s => deleteComment be s commentId) in
  let delete := DeleteComment commentId in
  let answer := written be (requests (trace w)) delete in
  isAdmin (view w) = true ->
  (forall d e, answer = Resolved d (Some e) ->
     viewAfter run w = view w
     /\ traceAfter run w
        = trace w ++ [Net delete; ConsoleError (lit "Error deleting comment:");
                      Alert (lit "Failed to delete comment: " ++ message e)])
  /\ (forall x, answer = Rejected x ->
      viewAfter run w = view w
      /\ traceAfter run w
         = trace w ++ [Net delete; ConsoleError (lit "Error in deleteComment:");
                       Alert (lit "An error occurred while deleting the comment.")])
  /\ (forall d, answer = Resolved d None ->
      forall c, In c (comments (viewAfter run w))
                <-> In c (comments (view w)) /\ Comment.id c <> commentId).
Proof.
  cbv zeta. intros Hadm. unfold deleteComment. run_handler. rewrite Hadm. cbn.
  split; [|split].
  - intros d e H. rewrite H. cbn. repeat rewrite <- app_assoc.
    split; [destruct w|]; reflexivity.
  - intros x H. rewrite H. cbn. repeat rewrite <- app_assoc.
    split; [destruct w|]; reflexivity.
  - intros d H c. rewrite H. cbn. rewrite filter_In.
    split; intros [H1 H2]; (split; [exact H1|]).
    + intros Heq. rewrite Heq, eqb_refl in H2. discriminate.
    + destruct (eqb (Comment.id c) commentId) eqn:Eq; [|reflexivity].
      apply eqb_eq in Eq. contradiction.
Qed.

(** X17.  No handler of the public view lets an exception escape, whatever the
    remote services do: every one of them returns normally, the comment fetch
    that is started without being awaited included. *)
Theorem public_handlers_never_throw
    (w : World App.t) (content : ContentCard.t) (anId : jsstring) (star : Z) :
  fst (checkAdmin be w) = Val tt
  /\ fst (App.fetchContent be w) = Val tt
  /\ fst (handleLogout be w) = Val tt
  /\ fst (handle (fun s => handleDownload be s content) w) = Val tt
  /\ fst (handle (fun s => handleRate rnd be s anId star) w) = Val tt
  /\ fst (fetchComments be anId w) = Val tt
  /\ fst (handle (fun s => postComment be s anId) w) = Val tt
  /\ fst (handle (fun s => deleteComment be s anId) w) = Val tt
  /\ fst (handleSelectContent be content w) = Val tt.
Proof.
  repeat split.
  - unfold checkAdmin. run_handler.
    destruct (session be _ _) as [d [e|]|x]; reflexivity.
  - unfold App.fetchContent. run_handler.
    destruct (contentRows be _ _) as [d [e|]|x]; reflexivity.
  - unfold handleLogout. run_handler.
    destruct (written be _ _) as [d e|x]; reflexivity.
  - unfold handleDownload. run_handler.
    destruct (file_url content) as [[|c url]|]; try reflexivity.
    destruct (written be _ _) as [d [e|]|x]; cbn;
      destruct (httpGet be _ _) as [body|x']; cbn; try reflexivity;
      destruct (truthyOpt (error (view w))); reflexivity.
  - unfold handleRate. run_handler.
    destruct (ratedContent (view w) anId) as [c|]; [|reflexivity].
    destruct (written be _ _) as [d [e|]|x]; cbn; try reflexivity.
    destruct (selectedContent (view w)) as [sc|]; [destruct (eqb (id sc) anId)|];
      reflexivity.
  - unfold fetchComments. run_handler.
    destruct (commentRows be _ _) as [d [e|]|x]; reflexivity.
  - unfold postComment, fetchComments. run_handler.
    destruct (negb _ || negb _); [reflexivity|]. cbn.
    destruct (commentRows be _ _) as [[[|c rest]|] [e|]|x]; cbn; try reflexivity;
      destruct (commentRows be _ _) as [d' [e'|]|x']; reflexivity.
  - unfold deleteComment. run_handler.
    destruct (isAdmin (view w)); cbn; [|reflexivity].
    destruct (written be _ _) as [d [e|]|x]; reflexivity.
  - unfold handleSelectContent, fetchComments. run_handler.
    destruct (commentRows be _ _) as [d [e|]|x]; reflexivity.
Qed.

End AppComments.

Lemma contentData_without_file (form : ContentFormData.t) :
  AdminPanel.contentData form None = form.
Proof. destruct form; reflexivity. Qed.

Lemma pop_singleton (A : Type) (x : A) : pop [x] = Some x.
Proof. reflexivity. Qed.

Section AdminMore.

Import AdminPanel.
Variable rnd : Q -> Q.
Variable be : Backend.

(** X18.  After a delete the confirmation dialog is closed when the delete was
    answered, with an error or with a success whose re-fetch was answered
    too.  When the delete is rejected the dialog stays as it was.  When the
    delete succeeds and the re-fetch is rejected, the dialog stays as it was,
    the item leaves the local list and the banner reports a failed delete. *)
Theorem delete_dialog_closes_unless_a_call_is_rejected
    (w : World AdminPanel.t) (id : jsstring) :
  let run := handleDelete be id in
  let delete := DeleteContent id in
  let refetch := SelectContent (lit "created_at") false in
  let answer := written be (requests (trace w)) delete in
  let listing := contentRows be (requests (trace w) ++ [delete]) refetch in
  let closed s := deletingId s = None /\ showDeleteConfirm s = false in
  let asBefore s :=
    deletingId s = deletingId (view w)
    /\ showDeleteConfirm s = showDeleteConfirm (view w) in
  (forall d e, answer = Resolved d (Some e) -> closed (viewAfter run w))
  /\ (forall d rows e, answer = Resolved d None -> listing = Resolved rows e ->
      closed (viewAfter run w))
  /\ (forall x, answer = Rejected x -> asBefore (viewAfter run w))
  /\ (forall d x, answer = Resolved d None -> listing = Rejected x ->
      asBefore (viewAfter run w)
      /\ content (viewAfter run w) = removeById id (content (view w))
      /\ error (viewAfter run w)
         = Some (lit "Failed to delete content on server, but removed from view.")).
Proof.
  cbv zeta. unfold handleDelete, fetchContent. run_handler. req_simpl.
  split; [|split; [|split]].
  - intros d e H. rewrite H. split; reflexivity.
  - intros d rows e H L. rewrite H. cbn. req_simpl. rewrite L.
    destruct e; split; reflexivity.
  - intros x H. rewrite H. split; reflexivity.
  - intros d x H L. rewrite H. cbn. req_simpl. rewrite L. cbn. auto.
Qed.

(** X19.  Asking for a delete only opens the dialog on that id, and cancelling
    closes it again: no request is sent and the list is unchanged (from a
    state with no dialog the state is exactly restored); with nothing pending
    the Delete button of the dialog does nothing. *)
Theorem unconfirmed_delete_changes_no_item (w : World AdminPanel.t) (id : jsstring) :
  let ask := confirmDelete id in
  let askThenCancel := (confirmDelete id ;; cancelDelete)%handler in
  viewAfter ask w = setShowDeleteConfirm true (setDeletingId (Some id) (view w))
  /\ traceAfter ask w = trace w
  /\ viewAfter askThenCancel w = setDeletingId None (setShowDeleteConfirm false (view w))
  /\ content (viewAfter askThenCancel w) = content (view w)
  /\ traceAfter askThenCancel w = trace w
  /\ (deletingId (view w) = None -> showDeleteConfirm (view w) = false ->
      viewAfter askThenCancel w = view w)
  /\ (askThenCancel ;; handle (confirmedDelete be))%handler w = askThenCancel w.
Proof.
  cbv zeta. unfold confirmDelete, cancelDelete, confirmedDelete. run_handler.
  repeat split.
  intros H1 H2. destruct w as [[] tr]. cbn in *. subst. reflexivity.
Qed.

(** X20.  A file of at most 50 * 1024 * 1024 bytes is accepted: it becomes the
    form's file, the banner is cleared, nothing is sent, and the submission
    that follows starts by uploading this very file.  An emptied selection
    clears the file, and the submission that follows uploads nothing. *)
Theorem accepted_selection_is_what_a_submission_uploads
    (w : World AdminPanel.t) (f : File.t) :
  (File.size f <= maxFileSize)%N ->
  let pick := handleFileChange (Some f) in
  let unpick := handleFileChange None in
  let submit := handle (handleSubmit rnd be) in
  let upload :=
    StorageUpload (lit "content-files")
      (objectPath (randomToken be (requests (trace w))) f) f
      (if isHtmlUpload f then lit "application/octet-stream" else File.type f)
      (lit "3600") in
  viewAfter pick w = setError None (setFile (Some f) (view w))
  /\ traceAfter pick w = trace w
  /\ (exists rest,
        requests (traceAfter (pick ;; submit)%handler w) = requests (trace w) ++ upload :: rest)
  /\ viewAfter unpick w = setError None (setFile None (view w))
  /\ Forall (fun r => isUpload (Net r) = false)
       (skipn (length (requests (trace w)))
              (requests (traceAfter (unpick ;; submit)%handler w))).
Proof.
  intros H. cbv zeta. unfold handleFileChange.
  assert (E : (maxFileSize <? File.size f)%N = false) by (apply N.ltb_ge; exact H).
  rewrite E. unfold handleSubmit, uploadFile, fetchContent. run_handler.
  cbn [view trace file setFile setError formData isEditing].
  split; [reflexivity|]. split; [reflexivity|]. split; [|split; [reflexivity|]].
  - req_simpl.
    destruct (written be _ (StorageUpload _ _ _ _ _)) as [d [e|]|x]; cbn; req_simpl;
      try (eexists; reflexivity).
    destruct (isEditing (view w)) as [[|c editing]|]; cbn; req_simpl;
      destruct (written be _ _) as [d1 [e1|]|x1]; cbn; req_simpl;
      try (eexists; reflexivity);
      destruct (contentRows be _ _) as [d2 [e2|]|x2]; cbn; req_simpl;
      eexists; reflexivity.
  - destruct (isEditing (view w)) as [[|c editing]|]; cbn; req_simpl;
      destruct (written be _ _) as [d1 [e1|]|x1]; cbn; req_simpl;
      try destruct (contentRows be _ _) as [d2 [e2|]|x2]; cbn; req_simpl;
      rewrite skipn_app, skipn_all, Nat.sub_diag; cbn;
      repeat constructor.
Qed.

(** X21.  Without a file the first request of a submission is the write of
    the form as typed: an update while a non-empty id is being edited,
    otherwise an insert with 0 downloads, rating 0 and author admin.  When the
    write is accepted the list is fetched again and the form, the edited id,
    the file and the banner are reset; when it fails nothing else is sent and
    the state is the one before with the failure banner. *)
Theorem submission_without_file_writes_the_form (w : World AdminPanel.t) :
  file (view w) = None ->
  let s := view w in
  let run := handle (handleSubmit rnd be) in
  let write :=
    match isEditing s with
    | Some (c :: editing) =>
        UpdateContent (c :: editing) (formData s) (nowISO be (requests (trace w)))
    | _ => InsertContent (formData s) 0 0 (lit "admin")
    end in
  let refetch := SelectContent (lit "created_at") false in
  let answer := written be (requests (trace w)) write in
  (forall d, answer = Resolved d None ->
     requests (traceAfter run w) = requests (trace w) ++ [write; refetch]
     /\ formData (viewAfter run w) = emptyForm
     /\ isEditing (viewAfter run w) = None
     /\ file (viewAfter run w) = None
     /\ error (viewAfter run w) = None)
  /\ ((exists d e, answer = Resolved d (Some e)) \/ (exists x, answer = Rejected x) ->
      requests (traceAfter run w) = requests (trace w) ++ [write]
      /\ viewAfter run w
         = setError (Some (lit "Failed to save content. Please try again.")) (view w)).
Proof.
  intros Hf. cbv zeta. unfold handleSubmit, fetchContent. run_handler.
  rewrite Hf. cbn [view trace setError isEditing formData].
  rewrite contentData_without_file. req_simpl. split.
  - intros d H.
    destruct (isEditing (view w)) as [[|c editing]|]; cbn; req_simpl; rewrite H;
      cbn; req_simpl;
      destruct (contentRows be _ _) as [d2 [e2|]|x2]; cbn; req_simpl; auto.
  - intros [(d & e & H) | (x & H)];
      destruct (isEditing (view w)) as [[|c editing]|]; cbn; req_simpl; rewrite H;
      cbn; req_simpl; destruct w as [[] tr]; split; reflexivity.
Qed.

(** X22.  However an upload ends, the only change it leaves is the uploading
    flag set to false; a refused upload throws the store's message and a
    rejected one its reason, both after a console message; so after any
    submission with a file the flag is false. *)
Theorem failed_upload_is_rethrown_and_ends_the_spinner
    (w : World AdminPanel.t) (f : File.t) :
  let run := uploadFile rnd be f in
  let upload :=
    StorageUpload (lit "content-files")
      (objectPath (randomToken be (requests (trace w))) f) f
      (if isHtmlUpload f then lit "application/octet-stream" else File.type f)
      (lit "3600") in
  let answer := written be (requests (trace w)) upload in
  viewAfter run w = setUploading false (view w)
  /\ (forall d e, answer = Resolved d (Some e) ->
      fst (run w) = Exc (message e)
      /\ traceAfter run w = trace w ++ [Net upload; ConsoleError (lit "Error uploading file:")])
  /\ (forall x, answer = Rejected x ->
      fst (run w) = Exc x
      /\ traceAfter run w = trace w ++ [Net upload; ConsoleError (lit "Error uploading file:")])
  /\ (file (view w) = Some f ->
      uploading (viewAfter (handle (handleSubmit rnd be)) w) = false).
Proof.
  cbv zeta. unfold uploadFile. run_handler. split; [|split; [|split]].
  - destruct (written be _ _) as [d [e|]|x]; reflexivity.
  - intros d e H. rewrite H. cbn. rewrite <- app_assoc. split; reflexivity.
  - intros x H. rewrite H. cbn. rewrite <- app_assoc. split; reflexivity.
  - intros Hf. unfold handleSubmit, uploadFile, fetchContent. run_handler.
    rewrite Hf. cbn [view trace setError setUploading].
    destruct (written be _ (StorageUpload _ _ _ _ _)) as [d [e|]|x]; cbn; try reflexivity.
    destruct (isEditing (view w)) as [[|c editing]|]; cbn; req_simpl;
      destruct (written be _ _) as [d1 [e1|]|x1]; cbn; req_simpl; try reflexivity;
      destruct (contentRows be _ _) as [d2 [e2|]|x2]; reflexivity.
Qed.

(** X24.  With [ext] the part of the file name after its last dot (the whole
    name when it has no dot): the upload is sent as octet-stream when the
    declared type is [text/html] or [ext] is [html] in any letter case, and
    with the declared type otherwise. *)
Theorem upload_type_is_hardened_by_type_or_last_segment
    (w : World AdminPanel.t) (f : File.t) (stem ext : jsstring) :
  (File.name f = stem ++ 46%N :: ext /\ ~ In 46%N ext)
  \/ (~ In 46%N (File.name f) /\ ext = File.name f) ->
  let sent contentType :=
    requests (traceAfter (uploadFile rnd be f) w)
    = requests (trace w)
      ++ [StorageUpload (lit "content-files")
            (objectPath (randomToken be (requests (trace w))) f) f contentType
            (lit "3600")] in
  (File.type f <> lit "text/html" -> toLowerCase ext <> lit "html" -> sent (File.type f))
  /\ (File.type f = lit "text/html" \/ toLowerCase ext = lit "html" ->
      sent (lit "application/octet-stream")).
Proof.
  intros Hname. cbv zeta.
  assert (Hp : pop (split 46 (File.name f)) = Some ext).
  { destruct Hname as [[E Hdot] | [Hdot E]].
    - rewrite E. now apply pop_split_extension.
    - rewrite split_no_separator by exact Hdot. subst ext. apply pop_singleton. }
  assert (Hh : isHtmlUpload f
               = eqb (File.type f) (lit "text/html") || eqb (toLowerCase ext) (lit "html")).
  { unfold isHtmlUpload. rewrite Hp. reflexivity. }
  unfold uploadFile. run_handler. rewrite Hh. split.
  - intros Ht He.
    assert (E1 : eqb (File.type f) (lit "text/html") = false).
    { destruct (eqb _ _) eqn:E; [apply eqb_eq in E; contradiction | reflexivity]. }
    assert (E2 : eqb (toLowerCase ext) (lit "html") = false).
    { destruct (eqb (toLowerCase ext) _) eqn:E; [apply eqb_eq in E; contradiction | reflexivity]. }
    rewrite E1, E2. cbn [orb].
    destruct (written be _ _) as [d [e|]|x]; cbn; req_simpl; reflexivity.
  - intros H.
    assert (E : eqb (File.type f) (lit "text/html") || eqb (toLowerCase ext) (lit "html")
                = true).
    { destruct H as [H|H]; rewrite H, eqb_refl; auto using orb_true_r. }
    rewrite E.
    destruct (written be _ _) as [d [e|]|x]; cbn; req_simpl; reflexivity.
Qed.

(** X25.  The two loaders of the panel are not guarded: a rejected list fetch
    or a rejected session check escapes as an exception and changes nothing,
    so the status line stays at its initial text; a settled session check
    sets the status line to the user's address, or to the warning when there
    is no session. *)
Theorem panel_loaders_let_a_rejection_escape (w : World AdminPanel.t) :
  (forall x, contentRows be (requests (trace w)) (SelectContent (lit "created_at") false)
             = Rejected x ->
     fst (fetchContent be w) = Exc x /\ viewAfter (fetchContent be) w = view w)
  /\ (forall x, session be (requests (trace w)) AuthGetSession = Rejected x ->
      fst (checkAuthStatus be w) = Exc x
      /\ authStatus (viewAfter (checkAuthStatus be) w) = authStatus (view w))
  /\ (forall email e, session be (requests (trace w)) AuthGetSession = Resolved (Some email) e ->
      viewAfter (checkAuthStatus be) w
      = setAuthStatus (lit "Authenticated as: " ++ email) (view w))
  /\ (forall e, session be (requests (trace w)) AuthGetSession = Resolved None e ->
      viewAfter (checkAuthStatus be) w
      = setAuthStatus (lit "Not authenticated - delete may not work") (view w)).
Proof.
  unfold fetchContent, checkAuthStatus. run_handler. repeat split.
  - rewrite H. reflexivity.
  - rewrite H. reflexivity.
  - rewrite H. reflexivity.
  - rewrite H. reflexivity.
  - intros email e H. rewrite H. reflexivity.
  - intros e H. rewrite H. reflexivity.
Qed.

End AdminMore.

Lemma isAlnum_range c :
  isAlnum c = true -> (48 <= c <= 57 \/ 65 <= c <= 90 \/ 97 <= c <= 122)%N.
Proof.
  unfold isAlnum, isLower, isUpper, isDigit. intros H.
  repeat (apply orb_true_iff in H; destruct H as [H|H]);
    apply andb_true_iff in H; destruct H as [H1 H2];
    apply N.leb_le in H1, H2; lia.
Qed.

Section DownloadMore.
Import Download.
Variable be : Backend.

(** X26.  The file name the endpoint puts between the quotes of the
    Content-Disposition header has the length of the title plus five and
    consists of ASCII letters, digits, underscores and dots: no quote, line
    break, slash, backslash or semicolon of a title reaches the header. *)
Theorem title_cannot_break_the_disposition_header (title : jsstring) :
  exists name,
    contentDisposition title = lit "attachment; filename=" ++ [quote] ++ name ++ [quote]
    /\ length name = (length title + 5)%nat
    /\ (forall c, In c name -> isAlnum c = true \/ c = underscore \/ c = 46%N)
    /\ ~ In quote name /\ ~ In 10%N name /\ ~ In 13%N name
    /\ ~ In 47%N name /\ ~ In 92%N name /\ ~ In 59%N name.
Proof.
  exists (replaceNonAlnum title ++ lit ".html").
  assert (Hc : forall c, In c (replaceNonAlnum title ++ lit ".html") ->
                         isAlnum c = true \/ c = underscore \/ c = 46%N).
  { intros c H. apply in_app_or in H. destruct H as [H|H].
    - destruct (replaceNonAlnum_safe _ _ H); auto.
    - cbv in H. destruct H as [H|[H|[H|[H|[H|[]]]]]]; subst c; auto. }
  assert (Hn : forall c, (c < 46 \/ c = 47 \/ c = 59 \/ c = 92)%N ->
                         ~ In c (replaceNonAlnum title ++ lit ".html")).
  { intros c Hr Hin. destruct (Hc c Hin) as [H|[H|H]].
    - apply isAlnum_range in H. lia.
    - unfold underscore in H. lia.
    - lia. }
  split; [reflexivity|]. split.
  - unfold replaceNonAlnum. rewrite length_app, length_map. reflexivity.
  - split; [exact Hc|].
    unfold quote. repeat split; apply Hn; lia.
Qed.

(** X27.  When the record is not found, by an error answer or by no data, the
    endpoint answers 404 with [File not found] after its single request: no
    counter update, no fetch, no body. *)
Theorem unknown_record_is_answered_404 (tr : list Event) (id : jsstring) :
  let select := SelectFileRecord id in
  let answer := fileRecord be (requests tr) select in
  (exists d e, answer = Resolved d (Some e)) \/ answer = Resolved None None ->
  traceAfter (handler be id) (mkWorld tt tr)
  = tr ++ [Net select; ResStatus 404; ResJson (lit "File not found")].
Proof.
  cbv zeta. intros H. unfold handler. run_handler.
  destruct H as [(d & e & H) | H]; rewrite H; [destruct d|];
    cbn; repeat rewrite <- app_assoc; reflexivity.
Qed.

(** X28.  A rejected select, a rejected counter update or a failed fetch of
    the file is logged and answered 500 with [Server error]; in the last case
    the counter update has already been sent, and an error answer to that
    update does not stop the request. *)
Theorem failed_download_is_answered_500 (tr : list Event) (id : jsstring) :
  let select := SelectFileRecord id in
  let failure :=
    [ConsoleError (lit "Error in download API:"); ResStatus 500;
     ResJson (lit "Server error")] in
  let after := traceAfter (handler be id) (mkWorld tt tr) in
  (forall x, fileRecord be (requests tr) select = Rejected x ->
     after = tr ++ Net select :: failure)
  /\ (forall data,
         fileRecord be (requests tr) select = Resolved (Some data) None ->
         let count :=
           UpdateDownloads id
             (match FileRecord.downloads data with Some d => d | None => 0%N end + 1) in
         let get := HttpGet (FileRecord.file_url data) in
         (forall x, written be (requests tr ++ [select]) count = Rejected x ->
            after = tr ++ Net select :: Net count :: failure)
         /\ (forall d e x,
                written be (requests tr ++ [select]) count = Resolved d e ->
                httpGet be (requests tr ++ [select; count]) (FileRecord.file_url data)
                = FetchFailed x ->
                after = tr ++ Net select :: Net count :: Net get :: failure)).
Proof.
  cbv zeta. unfold handler. run_handler. split.
  - intros x H. rewrite H. cbn. repeat rewrite <- app_assoc. reflexivity.
  - intros data H. rewrite H. cbn. req_simpl. split.
    + intros x Hw. rewrite Hw. cbn. repeat rewrite <- app_assoc. reflexivity.
    + intros d e x Hw Hg. rewrite Hw. cbn. req_simpl. rewrite Hg. cbn.
      repeat rewrite <- app_assoc. reflexivity.
Qed.


End DownloadMore.

(** [trim] empties exactly the strings of white space. *)

Lemma trimStart_suffix s : exists prefix, s = prefix ++ trimStart s /\ blank prefix.
Proof.
  induction s as [|c s IH]; cbn.
  - exists []. split; [reflexivity | constructor].
  - destruct (isWhiteSpace c) eqn:E.
    + destruct IH as (p & Hp & Hb). exists (c :: p). split.
      * cbn. now rewrite <- Hp.
      * constructor; assumption.
    + exists []. split; [reflexivity | constructor].
Qed.

Lemma trimStart_nil s : trimStart s = [] <-> blank s.
Proof.
  split.
  - intros H. destruct (trimStart_suffix s) as (p & Hp & Hb).
    rewrite H, app_nil_r in Hp. now subst p.
  - intros H. induction H as [|c s Hc _ IH]; cbn; [reflexivity|]. now rewrite Hc.
Qed.

Lemma blank_trimStart s : blank (trimStart s) <-> blank s.
Proof.
  destruct (trimStart_suffix s) as (p & Hp & Hb). split; intros H.
  - rewrite Hp. apply Forall_app. split; assumption.
  - rewrite Hp in H. apply Forall_app in H. tauto.
Qed.

Lemma trim_nil s : trim s = [] <-> blank s.
Proof.
  unfold trim, trimEnd. split.
  - intros H. apply (f_equal (@rev N)) in H. rewrite rev_involutive in H. cbn in H.
    apply trimStart_nil in H. apply blank_trimStart.
    unfold blank in *. rewrite <- (rev_involutive (trimStart s)). now apply Forall_rev.
  - intros H. apply trimStart_nil in H. rewrite H. reflexivity.
Qed.

Section AppBlankComments.
Import App ContentCard.
Variable be : Backend.

(** X30.  A comment whose name or text consists of white space only is
    not posted: one alert, no request, no change of state.  When both contain
    some other character, the first request is the insert of the trimmed name
    and text. *)
Theorem blank_name_or_text_is_not_posted (w : World App.t) (contentId : jsstring) :
  let run := handle (fun s => postComment be s contentId) in
  let author := commentAuthor (view w) in
  let text := commentText (view w) in
  (blank author \/ blank text ->
     traceAfter run w = trace w ++ [Alert (lit "Please enter your name and comment")]
     /\ viewAfter run w = view w)
  /\ (~ blank author -> ~ blank text ->
      exists rest,
        requests (traceAfter run w)
        = requests (trace w) ++ InsertComment contentId (trim author) (trim text) :: rest).
Proof.
  cbv zeta. unfold postComment, fetchComments. run_handler. split.
  - intros H.
    assert (E : negb (truthy (trim (commentAuthor (view w))))
                || negb (truthy (trim (commentText (view w)))) = true).
    { destruct H as [H|H]; apply trim_nil in H; rewrite H; cbn; auto using orb_true_r. }
    rewrite E. cbn. split; [reflexivity | destruct w; reflexivity].
  - intros Ha Ht.
    assert (E : negb (truthy (trim (commentAuthor (view w))))
                || negb (truthy (trim (commentText (view w)))) = false).
    { destruct (trim (commentAuthor (view w))) eqn:E1;
        [exfalso; apply Ha; now apply trim_nil|].
      destruct (trim (commentText (view w))) eqn:E2;
        [exfalso; apply Ht; now apply trim_nil|]. reflexivity. }
    rewrite E. cbn. req_simpl.
    destruct (commentRows be _ _) as [[[|c rest]|] [e|]|x]; cbn; req_simpl;
      try (eexists; reflexivity);
      destruct (commentRows be _ _) as [d' [e'|]|x']; cbn; req_simpl;
      eexists; reflexivity.
Qed.

End AppBlankComments.


(* ===================================================================== *)
(** ** The theorems at sample inputs *)
(* ===================================================================== *)

Lemma exact_standard : StandardModel exact.
Proof.
  split; unfold exact.
  - intros x H0 _.
    assert (E : x - x == 0) by ring.
    rewrite (Qabs_wd _ _ E). cbn [Qabs Z.abs].
    assert (0 <= unitRoundoff * x) by (apply Qmult_le_0_compat; [discriminate | exact H0]).
    assert (0 <= underflowUnit) by discriminate.
    change (Qabs 0) with 0. lra.
  - trivial.
  - reflexivity.
Qed.

Import App ContentCard Scenario.

(** Rating [pack] (4.5 over two ratings) with four stars in exact
    arithmetic: 13/3 is stored as 4.3 with count 3, here and remotely. *)
Example rate_pack_with_four_stars :
  let run := handle (fun s => handleRate exact quiet s (lit "c1") 4) in
  roundedRating exact pack 4 = Some (4 + 3 / 10)
  /\ requests (traceAfter run (start visitor))
     = [UpdateRating (lit "c1") (Some (4 + 3 / 10)) 3]
  /\ selectedContent (viewAfter run (start visitor))
     = Some (with_rating (Some (4 + 3 / 10)) 3 pack)
  /\ viewAfter (handle (fun s => handleRate exact denying s (lit "c1") 4)) (start visitor)
     = visitor.
Proof. repeat split; reflexivity. Qed.

(** The same under binary64 rounding: 13/3 is not a tie, and 4.3 is stored. *)
Example rate_pack_in_binary64 :
  toFixed 1 (newRating Binary64.round pack 4) = lit "4.3"
  /\ toFixedN 1 (newRating Binary64.round pack 4) = 43%N.
Proof. split; vm_compute; reflexivity. Qed.

(** A tie: 4.0 over nineteen ratings and a fifth star average to 4.05.  The
    binary64 quotient 81/20 lies just below 4.05 and [toFixed(1)] prints 4.0,
    exact arithmetic prints 4.1; both are 4.05 rounded to one decimal. *)
Example rate_steady_with_five_stars :
  toFixed 1 (newRating Binary64.round steady 5) = lit "4.0"
  /\ toFixed 1 (newRating exact steady 5) = lit "4.1"
  /\ exactAverage 40 19 5 == 81 # 20
  /\ nearestTenth 40 (exactAverage 40 19 5)
  /\ nearestTenth 41 (exactAverage 40 19 5).
Proof.
  split; [vm_compute; reflexivity|]. split; [vm_compute; reflexivity|].
  split; [reflexivity|]. split; unfold nearestTenth, Qle; vm_compute; discriminate.
Qed.

(** On these operations [Binary64.round] computes what the floats of the
    kernel compute. *)
Example binary64_agrees_with_kernel_floats :
  KernelFloat.same KernelFloat.tenth (Binary64.round (1 # 10)) = true
  /\ KernelFloat.same KernelFloat.packAverage (newRating Binary64.round pack 4) = true
  /\ KernelFloat.same KernelFloat.steadyAverage (newRating Binary64.round steady 5) = true.
Proof. repeat split; vm_compute; reflexivity. Qed.

Lemma handleRate_running_average_witness :
  let rate (item : ContentCard.t) (star : Z) :=
    handle (fun s => handleRate Binary64.round quiet s (id item) star) in
  let page (item : ContentCard.t) := start (App.setSelectedContent (Some item) visitor) in
  StandardModel Binary64.round
  (* 4.5 over two ratings and a fourth star: 13/3, stored as 4.3 over three *)
  /\ ((selectedContent (view (page pack)) = Some pack
       /\ rating pack = Some (45 # 10) /\ tenths Binary64.round (45 # 10) 45
       /\ ratings_count pack = Some 2%N
       /\ (0 <= 45 <= 50)%Z /\ (2 < 2 ^ 32)%N /\ (1 <= 4 <= 5)%Z)
      /\ exists v : Q,
           nearestTenth 43 (exactAverage 45 2 4)
           /\ tenths Binary64.round v 43
           /\ requests (traceAfter (rate pack 4%Z) (page pack))
              = [UpdateRating (lit "c1") (Some v) 3]
           /\ (written quiet [] (UpdateRating (lit "c1") (Some v) 3) = Resolved None None
               /\ featuredContent (viewAfter (rate pack 4%Z) (page pack))
                  = [ContentCard.mk (lit "c1") (lit "Modern UI Resource Pack") (lit "admin")
                       (lit "Resource Pack") 1200 (lit "https://images.example/ui.png")
                       (Some v) (Some 3%N)
                       (Some (lit "A sleek, modern UI overhaul for Minecraft"))
                       (Some (lit "1.0.0")) (Some (lit "24MB")) None None None;
                     shaders; fresh]))
  (* no prior ratings and four stars: 4.0 over one *)
  /\ ((selectedContent (view (page fresh)) = Some fresh
       /\ rating fresh = Some 0 /\ tenths Binary64.round 0 0
       /\ ratings_count fresh = None)
      /\ exists v : Q,
           v == 4
           /\ requests (traceAfter (rate fresh 4%Z) (page fresh))
              = [UpdateRating (lit "c3") (Some v) 1]
           /\ (forall d e, written quiet [] (UpdateRating (lit "c3") (Some v) 1)
                           = Resolved d (Some e) ->
               viewAfter (rate fresh 4%Z) (page fresh) = view (page fresh))).
Proof.
  cbv zeta. split; [exact binary64_standard|]. split.
  - assert (T : tenths Binary64.round (45 # 10) 45).
    { exists (45 # 10). split; reflexivity. }
    split.
    { repeat split; try reflexivity; try discriminate. exact T. }
    destruct (@handleRate_running_average Binary64.round quiet binary64_standard
                (start (App.setSelectedContent (Some pack) visitor)) pack
                (45 # 10) 2%N 4 45
                (or_introl eq_refl) (or_introl eq_refl) T (or_introl eq_refl)
                ltac:(lia) eq_refl ltac:(lia))
      as (n & v & Hn & Hu & _ & Hv & Hreq & Hok & _).
    assert (H43 : nearestTenth 43 (exactAverage 45 2 4)).
    { unfold nearestTenth, Qle. vm_compute. discriminate. }
    assert (E : n = 43%N).
    { destruct (Hu 43%N H43) as [E | E]; [symmetry; exact E|].
      exfalso. revert E. generalize (Z.of_N 43 + Z.of_N n)%Z. intros z E.
      assert (X : exactAverage 45 2 4 == 13 # 3) by reflexivity.
      rewrite X in E. unfold Qeq in E. cbn in E. lia. }
    subst n. exists v. split; [exact H43|]. split; [exact Hv|]. split; [exact Hreq|].
    split; [reflexivity|].
    exact (proj1 (proj2 (Hok None eq_refl))).
  - assert (T : tenths Binary64.round 0 0).
    { exists (0 # 10). split; reflexivity. }
    split.
    { repeat split; try reflexivity. exact T. }
    destruct (@handleRate_running_average Binary64.round quiet binary64_standard
                (start (App.setSelectedContent (Some fresh) visitor)) fresh
                0 0%N 4 0
                (or_introl eq_refl) (or_introl eq_refl) T (or_intror (conj eq_refl eq_refl))
                ltac:(lia) eq_refl ltac:(lia))
      as (n & v & _ & _ & _ & _ & Hreq & _ & Herr & _ & Hex).
    exists v. split; [exact (proj1 (Hex eq_refl eq_refl eq_refl))|].
    split; [exact Hreq | exact Herr].
Defined.

(** The same exact average, 27/20, reached from 1.4 over seven ratings with
    one star and from 1.3 over thirteen ratings with two stars: the first is
    stored as 1.3, the second as 1.4, so the stored rating is no function of
    the exact average; 1.35 rounded to one decimal place is 1.4 (halves up,
    as [toFixed] does on the exact number, and halves to even), which the
    first is not. *)
Lemma equal_averages_are_stored_as_different_tenths :
  let rate (item : ContentCard.t) (star : Z) :=
    traceAfter (handle (fun s => handleRate Binary64.round quiet s (id item) star))
               (start (App.setSelectedContent (Some item) visitor)) in
  (rating tepid = Some (Binary64.round (14 # 10)) /\ ratings_count tepid = Some 7%N
   /\ rating cool = Some (Binary64.round (13 # 10)) /\ ratings_count cool = Some 13%N)
  /\ exactAverage 14 7 1 == 27 # 20
  /\ exactAverage 13 13 2 == 27 # 20
  /\ toFixedN 1 (27 # 20) = 14%N
  /\ requests (rate tepid 1%Z)
     = [UpdateRating (lit "c6") (Some (Binary64.round (13 # 10))) 8]
  /\ requests (rate cool 2%Z)
     = [UpdateRating (lit "c7") (Some (Binary64.round (14 # 10))) 14]
  /\ Binary64.round (13 # 10) < 27 # 20
  /\ 27 # 20 < Binary64.round (14 # 10).
Proof.
  cbv zeta. split; [repeat split|].
  split; [reflexivity|]. split; [reflexivity|]. split; [reflexivity|].
  split; [vm_compute; reflexivity|]. split; [vm_compute; reflexivity|].
  split; vm_compute; reflexivity.
Qed.

(** The floats of the kernel compute the same two quotients. *)
Example tied_averages_agree_with_kernel_floats :
  KernelFloat.same KernelFloat.tepidAverage (newRating Binary64.round tepid 1) = true
  /\ KernelFloat.same KernelFloat.coolAverage (newRating Binary64.round cool 2) = true
  /\ toFixed 1 (newRating Binary64.round tepid 1) = lit "1.3"
  /\ toFixed 1 (newRating Binary64.round cool 2) = lit "1.4".
Proof. repeat split; vm_compute; reflexivity. Qed.

Import AdminPanel.

Lemma download_without_file_is_blocked_witness :
  let run := handle (fun s => handleDownload quiet s pack) in
  truthyOpt (file_url pack) = false
  /\ traceAfter run (start visitor) = [Alert (lit "No file available for download.")]
  /\ requests (traceAfter run (start visitor)) = []
  /\ viewAfter run (start visitor) = visitor.
Proof.
  cbv zeta. split; [reflexivity|].
  apply (@download_without_file_is_blocked quiet (start visitor) pack). reflexivity.
Defined.

Lemma deleteComment_requires_admin_witness :
  let asVisitor := handle (fun s => App.deleteComment quiet s (lit "m2")) in
  let asModerator := handle (fun s => App.deleteComment quiet s (lit "m2")) in
  (isAdmin visitor = false
   /\ traceAfter asVisitor (start visitor)
      = [ConsoleError (lit "Unauthorized deletion attempt");
         Alert (lit "Only administrators can delete comments.")]
   /\ requests (traceAfter asVisitor (start visitor)) = []
   /\ viewAfter asVisitor (start visitor) = visitor)
  /\ (isAdmin moderator = true
      /\ written quiet [] (DeleteComment (lit "m2")) = Resolved None None
      /\ requests (traceAfter asModerator (start moderator)) = [DeleteComment (lit "m2")]
      /\ comments (viewAfter asModerator (start moderator)) = [praise]).
Proof.
  cbv zeta. split.
  - split; [reflexivity|].
    apply (proj1 (@deleteComment_requires_admin quiet (start visitor) (lit "m2"))).
    reflexivity.
  - split; [reflexivity|]. split; [reflexivity|].
    apply (proj2 (@deleteComment_requires_admin quiet (start moderator) (lit "m2"))
             eq_refl None eq_refl).
Defined.

Lemma postComment_validates_then_prepends_witness :
  let echo := services ok ok (Resolved (Some [praise]) None) ok (Fetched []) in
  let silent := services ok ok (Resolved (Some []) None) ok (Fetched []) in
  let post (be : Backend) := handle (fun s => App.postComment be s (lit "c1")) in
  let insert := InsertComment (lit "c1") (lit "Sam") (lit "Nice pack!") in
  (* an empty name *)
  ((trim (commentAuthor anonymous) = [] \/ trim (commentText anonymous) = [])
   /\ traceAfter (post echo) (start anonymous)
      = [Alert (lit "Please enter your name and comment")]
   /\ requests (traceAfter (post echo) (start anonymous)) = []
   /\ viewAfter (post echo) (start anonymous) = anonymous)
  (* the row is echoed *)
  /\ (trim (commentAuthor visitor) <> [] /\ trim (commentText visitor) <> []
      /\ commentRows echo [] insert = Resolved (Some [praise]) None
      /\ requests (traceAfter (post echo) (start visitor)) = [insert]
      /\ comments (viewAfter (post echo) (start visitor)) = [praise; spam; praise])
  (* no row is echoed *)
  /\ (commentRows silent [] insert = Resolved (Some []) None
      /\ requests (traceAfter (post silent) (start visitor))
         = [insert; SelectComments (lit "c1")]
      /\ comments (viewAfter (post silent) (start visitor)) = []).
Proof.
  cbv zeta.
  pose (echo := services ok ok (Resolved (Some [praise]) None) ok (Fetched [])).
  pose (silent := services ok ok (Resolved (Some []) None) ok (Fetched [])).
  assert (Ha : trim (commentAuthor visitor) <> []) by discriminate.
  assert (Ht : trim (commentText visitor) <> []) by discriminate.
  split; [|split].
  - split; [left; reflexivity|].
    apply (proj1 (@postComment_validates_then_prepends echo (start anonymous) (lit "c1"))).
    left. reflexivity.
  - split; [exact Ha|]. split; [exact Ht|]. split; [reflexivity|].
    apply (proj1 (proj2 (@postComment_validates_then_prepends echo (start visitor) (lit "c1"))
                    Ha Ht) praise [] eq_refl).
  - split; [reflexivity|].
    destruct (proj2 (proj2 (@postComment_validates_then_prepends silent (start visitor)
                              (lit "c1")) Ha Ht)
                (Some []) eq_refl (or_intror eq_refl)) as [R C].
    split; [exact R | exact (C (Some []) eq_refl)].
Defined.

Lemma oversized_file_is_rejected_witness :
  let run := handleFileChange (Some oversized) in
  (maxFileSize < File.size oversized)%N
  /\ traceAfter run (start panel) = [InputReset]
  /\ requests (traceAfter run (start panel)) = []
  /\ AdminPanel.error (viewAfter run (start panel))
     = Some (lit "File size exceeds the 50MB limit. Please select a smaller file.")
  /\ file (viewAfter run (start panel)) = Some guide
  /\ requests (traceAfter (run ;; handle (handleSubmit exact quiet))%handler (start panel))
     = requests (traceAfter (handle (handleSubmit exact quiet)) (start panel)).
Proof.
  cbv zeta. split; [reflexivity|].
  apply (@oversized_file_is_rejected exact quiet (start panel) oversized). reflexivity.
Defined.

Lemma uploadFile_names_hardens_and_measures_witness :
  let path := lit "content/k3x9-guide.v2.HTML" in
  let upload :=
    StorageUpload (lit "content-files") path guide (lit "application/octet-stream")
                  (lit "3600") in
  StandardModel exact
  /\ requests (traceAfter (uploadFile exact quiet guide) (start panel)) = [upload]
  /\ (exists stem ext, File.name guide = stem ++ 46%N :: ext
                       /\ ~ In 46%N ext /\ toLowerCase ext = lit "html")
  /\ (written quiet [] upload = Resolved None None
      /\ (File.size guide < 2 ^ 53)%N
      /\ exists (n : N) (a b : jsstring),
           fst (uploadFile exact quiet guide (start panel))
           = Val (lit "https://storage.example/object/public/content-files/content/k3x9-guide.v2.HTML",
                  a ++ [46%N] ++ b ++ lit "MB")
           /\ a <> [] /\ allDigits a /\ allDigits b /\ length b = 2%nat
           /\ digitsValue (a ++ b) = n
           /\ roundedHundredths n
                (inject_Z (Z.of_N (File.size guide)) / inject_Z (1024 * 1024))).
Proof.
  cbv zeta.
  destruct (@uploadFile_names_hardens_and_measures exact quiet exact_standard
              (start panel) guide) as [R [_ S]].
  split; [exact exact_standard|]. split; [exact R|]. split.
  - exists (lit "guide.v2"), (lit "HTML"). split; [reflexivity|]. split; [|reflexivity].
    cbn. intros [H|[H|[H|[H|[]]]]]; discriminate H.
  - split; [reflexivity|]. split; [reflexivity|].
    exact (S None eq_refl eq_refl).
Defined.

(** The label of a file of one and a half mebibytes. *)
Example sizeLabel_of_guide : sizeLabel exact guide = lit "1.50MB".
Proof. reflexivity. Qed.

Lemma handleSubmit_uploads_before_writing_witness :
  let run := handle (handleSubmit exact quiet) in
  let upload :=
    StorageUpload (lit "content-files") (lit "content/k3x9-guide.v2.HTML") guide
                  (lit "application/octet-stream") (lit "3600") in
  let url :=
    lit "https://storage.example/object/public/content-files/content/k3x9-guide.v2.HTML" in
  let data :=
    ContentFormData.mk (lit "Test Pack") (lit "Resource Pack") (lit "A pack") (lit "1.0")
      (lit "1.50MB") (lit "https://images.example/t.png") (Some url) in
  let failing := handle (handleSubmit exact denying) in
  (file panel = Some guide /\ written quiet [] upload = Resolved None None /\ url <> []
   /\ exists rest,
        requests (traceAfter run (start panel))
        = upload :: InsertContent data 0 0 (lit "admin") :: rest)
  /\ ((exists d e, written denying [] upload = Resolved d (Some e))
      /\ requests (traceAfter failing (start panel)) = [upload]
      /\ AdminPanel.error (viewAfter failing (start panel))
         = Some (lit "Failed to save content. Please try again.")).
Proof.
  cbv zeta. split.
  - split; [reflexivity|]. split; [reflexivity|]. split; [discriminate|].
    apply (proj1 (@handleSubmit_uploads_before_writing exact quiet (start panel) guide
                    eq_refl) None eq_refl).
    discriminate.
  - assert (F : exists d e,
               written denying []
                 (StorageUpload (lit "content-files") (lit "content/k3x9-guide.v2.HTML")
                    guide (lit "application/octet-stream") (lit "3600"))
               = Resolved d (Some e)).
    { exists None, {| message := lit "permission denied" |}. reflexivity. }
    split; [exact F|].
    apply (proj2 (@handleSubmit_uploads_before_writing exact denying (start panel) guide
                    eq_refl)).
    left. exact F.
Defined.

Lemma confirmed_delete_by_settlement_witness :
  let listed := services ok (Resolved (Some [shaders]) None) ok ok (Fetched []) in
  let delete := DeleteContent (lit "c1") in
  let confirm (be : Backend) := viewAfter (handle (confirmedDelete be)) (start panel) in
  (deletingId panel = Some (lit "c1") /\ lit "c1" <> [])
  /\ (written denying [] delete = refused /\ content (confirm denying) = [shaders])
  /\ (written offline [] delete = Rejected (lit "Failed to fetch")
      /\ content (confirm offline) = [shaders]
      /\ AdminPanel.error (confirm offline)
         = Some (lit "Failed to delete content on server, but removed from view."))
  /\ (written listed [] delete = Resolved None None
      /\ contentRows listed [delete] (SelectContent (lit "created_at") false)
         = Resolved (Some [shaders]) None
      /\ requests (traceAfter (handle (confirmedDelete listed)) (start panel))
         = [delete; SelectContent (lit "created_at") false]
      /\ content (confirm listed) = [shaders]).
Proof.
  cbv zeta.
  assert (Hid : lit "c1" <> []) by discriminate.
  split; [split; [reflexivity | exact Hid]|]. split; [|split].
  - split; [reflexivity|].
    exact (proj1 (@confirmed_delete_by_settlement denying (start panel) (lit "c1")
                    eq_refl Hid)
             None {| message := lit "permission denied" |} eq_refl).
  - split; [reflexivity|].
    exact (proj1 (proj2 (@confirmed_delete_by_settlement offline (start panel) (lit "c1")
                           eq_refl Hid))
             (lit "Failed to fetch") eq_refl).
  - split; [reflexivity|]. split; [reflexivity|].
    destruct (proj2 (proj2 (@confirmed_delete_by_settlement
                              (services ok (Resolved (Some [shaders]) None) ok ok (Fetched []))
                              (start panel) (lit "c1") eq_refl Hid))
                None eq_refl) as [R [C _]].
    split; [exact R | exact (C (Some [shaders]) eq_refl)].
Defined.

(** A delete that the store accepts, followed by a list fetch that the store
    refuses: the dialog closes, no banner is set, and the deleted item is still
    displayed. *)
Lemma accepted_delete_can_leave_the_item_displayed :
  let be := services ok refused ok ok (Fetched []) in
  let after := viewAfter (handle (confirmedDelete be)) (start panel) in
  deletingId panel = Some (lit "c1")
  /\ written be [] (DeleteContent (lit "c1")) = Resolved None None
  /\ content after = [pack; shaders]
  /\ In pack (content after)
  /\ AdminPanel.error after = None
  /\ showDeleteConfirm after = false.
Proof. cbv zeta. repeat split; try reflexivity. left. reflexivity. Qed.

Import Download.

Lemma download_filename_ends_in_html_witness :
  let be := services ok ok ok (Resolved (Some stored) None) (Fetched [80; 75]%N) in
  let after := traceAfter (handler be (lit "c2")) (mkWorld tt []) in
  let header :=
    lit "attachment; filename=" ++ [quote] ++ lit "Enhanced_Graphics_Mod.html" ++ [quote] in
  fileRecord be [] (SelectFileRecord (lit "c2")) = Resolved (Some stored) None
  /\ (forall v, In (ResSetHeader (lit "Content-Disposition") v) after ->
                In (ResSetHeader (lit "Content-Disposition") v) [] \/ v = header)
  /\ after = [Net (SelectFileRecord (lit "c2")); Net (UpdateDownloads (lit "c2") 2501);
              Net (HttpGet (Some (lit "https://files.example/content/shaders.zip")));
              ResSetHeader (lit "Content-Disposition") header;
              ResSetHeader (lit "Content-Type") (lit "application/octet-stream");
              ResSetHeader (lit "Content-Length") (lit "2");
              ResSend [80; 75]%N].
Proof.
  cbv zeta. split; [reflexivity|].
  destruct (@download_filename_ends_in_html
              (services ok ok ok (Resolved (Some stored) None) (Fetched [80; 75]%N))
              [] (lit "c2") stored eq_refl) as [A B].
  split; [exact A|].
  apply (B [80; 75]%N); [discriminate | reflexivity].
Defined.

(* ===================================================================== *)
(** ** The further properties at sample inputs *)
(* ===================================================================== *)

Import App ContentCard Scenario.

Lemma checkAdmin_fails_closed_witness :
  let signedIn := withSession (Resolved (Some (lit "admin@admin.com")) None) quiet in
  (session signedIn [] AuthGetSession = Resolved (Some (lit "admin@admin.com")) None
   /\ viewAfter (checkAdmin signedIn) (start visitor) = moderator)
  /\ ((exists x, session (withSession (Rejected x) quiet) [] AuthGetSession = Rejected x)
      /\ viewAfter (checkAdmin (withSession (Rejected (lit "Failed to fetch")) quiet))
           (start moderator)
         = visitor).
Proof.
  cbv zeta. split.
  - split; [reflexivity|].
    exact (proj1 (proj2 (@checkAdmin_fails_closed
                           (withSession (Resolved (Some (lit "admin@admin.com")) None) quiet)
                           (start visitor)))
             (lit "admin@admin.com") eq_refl).
  - split; [exists (lit "Failed to fetch"); reflexivity|].
    apply (proj2 (proj2 (@checkAdmin_fails_closed
                           (withSession (Rejected (lit "Failed to fetch")) quiet)
                           (start moderator)))).
    right. right. exists (lit "Failed to fetch"). reflexivity.
Defined.

Lemma fetchContent_replaces_or_reports_witness :
  let select := SelectContent (lit "downloads") false in
  let stocked := services ok (Resolved (Some [shaders; pack]) None) ok ok (Fetched []) in
  (contentRows stocked [] select = Resolved (Some [shaders; pack]) None
   /\ featuredContent (viewAfter (App.fetchContent stocked) (start browsing)) = [shaders; pack]
   /\ filteredContent (viewAfter (App.fetchContent stocked) (start browsing)) = [shaders; pack])
  /\ (contentRows denying [] select = refused
      /\ viewAfter (App.fetchContent denying) (start browsing)
         = App.setError (Some (lit "Error fetching content. Please try again later."))
             browsing)
  /\ (contentRows offline [] select = Rejected (lit "Failed to fetch")
      /\ viewAfter (App.fetchContent offline) (start browsing)
         = App.setError (Some (lit "An unexpected error occurred. Please try again later."))
             browsing).
Proof.
  cbv zeta. split; [|split].
  - split; [reflexivity|].
    pose proof (proj1 (proj2 (@fetchContent_replaces_or_reports
                                (services ok (Resolved (Some [shaders; pack]) None) ok ok
                                          (Fetched []))
                                (start browsing)))
                  (Some [shaders; pack]) eq_refl) as E.
    rewrite E. split; reflexivity.
  - split; [reflexivity|].
    exact (proj1 (proj2 (proj2 (@fetchContent_replaces_or_reports denying (start browsing))))
             None {| message := lit "permission denied" |} eq_refl).
  - split; [reflexivity|].
    exact (proj2 (proj2 (proj2 (@fetchContent_replaces_or_reports offline (start browsing))))
             (lit "Failed to fetch") eq_refl).
Defined.

Lemma fetched_catalogue_is_shown_by_category_witness :
  let select := SelectContent (lit "downloads") false in
  let stocked := services ok (Resolved (Some [shaders; pack]) None) ok ok (Fetched []) in
  let run := (App.fetchContent stocked ;; categoryEffect)%handler in
  contentRows stocked [] select = Resolved (Some [shaders; pack]) None
  /\ activeCategory browsing <> lit "all"
  /\ featuredContent (viewAfter run (start browsing)) = [shaders; pack]
  /\ filteredContent (viewAfter run (start browsing)) = [shaders]
  /\ requests (traceAfter run (start browsing)) = [select].
Proof.
  cbv zeta.
  assert (Hn : activeCategory browsing <> lit "all") by discriminate.
  destruct (@fetched_catalogue_is_shown_by_category
              (services ok (Resolved (Some [shaders; pack]) None) ok ok (Fetched []))
              (start browsing) (Some [shaders; pack]) eq_refl) as (A & _ & B & _ & C).
  split; [reflexivity|]. split; [exact Hn|]. split; [exact A|].
  split; [exact (B Hn) | exact C].
Defined.

Lemma handleLogout_needs_a_settled_call_witness :
  let admin := App.setShowAdminPanel true moderator in
  (written denying [] AuthSignOut = refused
   /\ viewAfter (handleLogout denying) (start admin) = visitor
   /\ render (viewAfter (handleLogout denying) (start admin)) = Detail pack)
  /\ (written offline [] AuthSignOut = Rejected (lit "Failed to fetch")
      /\ viewAfter (handleLogout offline) (start admin) = admin
      /\ render (viewAfter (handleLogout offline) (start admin)) = Panel).
Proof.
  cbv zeta. split.
  - split; [reflexivity|].
    exact (proj1 (proj2 (@handleLogout_needs_a_settled_call denying
                           (start (App.setShowAdminPanel true moderator))))
             None (Some {| message := lit "permission denied" |}) eq_refl).
  - split; [reflexivity|].
    destruct (proj2 (proj2 (@handleLogout_needs_a_settled_call offline
                              (start (App.setShowAdminPanel true moderator))))
                (lit "Failed to fetch") eq_refl) as [A _].
    rewrite A. split; reflexivity.
Defined.

Lemma panel_is_rendered_to_admins_only_witness :
  (isAdmin visitor = false
   /\ render (viewAfter openAdminPanel (start visitor)) = Login)
  /\ render (viewAfter handleLogin (start visitor)) = Panel
  /\ (isAdmin moderator = true
      /\ render (viewAfter openAdminPanel (start moderator)) = Panel)
  /\ (render (App.setShowAdminPanel true moderator) = Panel
      /\ isAdmin (App.setShowAdminPanel true moderator) = true).
Proof.
  split; [|split; [|split]].
  - split; [reflexivity|].
    exact (proj1 (proj2 (panel_is_rendered_to_admins_only visitor)) eq_refl).
  - exact (proj1 (proj2 (proj2 (panel_is_rendered_to_admins_only visitor)))).
  - split; [reflexivity|].
    exact (proj2 (proj2 (proj2 (panel_is_rendered_to_admins_only moderator))) eq_refl).
  - split; [reflexivity|].
    exact (proj1 (proj1 (proj1 (panel_is_rendered_to_admins_only
                                  (App.setShowAdminPanel true moderator))) eq_refl)).
Defined.

Lemma unlisted_category_shows_everything_witness :
  let w := mkWorld browsing [] in
  (lit "maps" <> lit "resource-packs" /\ lit "maps" <> lit "mods"
   /\ lit "maps" <> lit "clients")
  /\ filteredContent (viewAfter (selectCategory (lit "maps")) w) = [pack; shaders; seeded]
  /\ viewAfter (selectCategory (lit "maps") ;; selectCategory (lit "maps"))%handler w
     = viewAfter (selectCategory (lit "maps")) w.
Proof.
  cbv zeta.
  assert (H1 : lit "maps" <> lit "resource-packs") by discriminate.
  assert (H2 : lit "maps" <> lit "mods") by discriminate.
  assert (H3 : lit "maps" <> lit "clients") by discriminate.
  split; [auto|].
  exact (@unlisted_category_shows_everything browsing [] (lit "maps") H1 H2 H3).
Defined.

Lemma download_proceeds_despite_counter_failure_witness :
  let url := lit "https://files.example/content/shaders.zip" in
  let be := services refused ok ok ok (Fetched [80; 75]%N) in
  let run := handle (fun s => handleDownload be s shaders) in
  let count := UpdateDownloads (lit "c2") 2501 in
  (file_url shaders = Some url /\ url <> [] /\ (downloads shaders < 2 ^ 53)%N
   /\ written be [] count = refused
   /\ httpGet be [count] (Some url) = Fetched [80; 75]%N)
  /\ requests (traceAfter run (start visitor)) = [count; HttpGet (Some url)]
  /\ (StandardModel Binary64.round
      /\ fadd Binary64.round (inject_Z 2500) 1 == inject_Z 2501)
  /\ (exists name,
        In (SaveFile name [80; 75]%N (lit "application/octet-stream"))
           (traceAfter run (start visitor)))
  /\ selectedContent (viewAfter run (start visitor)) = Some pack.
Proof.
  cbv zeta.
  assert (Hu : lit "https://files.example/content/shaders.zip" <> []) by discriminate.
  assert (Hd : (downloads shaders < 2 ^ 53)%N) by reflexivity.
  destruct (@download_proceeds_despite_counter_failure
              (services refused ok ok ok (Fetched [80; 75]%N)) (start visitor) shaders
              (lit "https://files.example/content/shaders.zip") eq_refl Hu Hd)
    as (A & S & B & C).
  split; [repeat split; try reflexivity; exact Hu|].
  split; [exact A|].
  split; [split; [exact binary64_standard | exact (S _ binary64_standard)]|].
  split; [exact (B [80; 75]%N eq_refl) | exact C].
Defined.

Lemma download_saves_under_a_sanitised_name_witness :
  let be := services ok ok ok ok (Fetched [80; 75]%N) in
  let run := handle (fun s => handleDownload be s shaders) in
  let counted :=
    ContentCard.mk (lit "c2") (lit "Enhanced Graphics Mod") (lit "admin") (lit "Mod") 2501
      (lit "https://images.example/shaders.png") (Some (48 # 10)) (Some 10%N)
      (Some (lit "Enhance your Minecraft graphics with realistic shaders"))
      (Some (lit "2.1.0")) (Some (lit "156MB"))
      (Some (lit "https://files.example/content/shaders.zip")) None None in
  let flagged := App.setError (Some (lit "Error fetching content. Please try again later."))
                   visitor in
  (file_url shaders = Some (lit "https://files.example/content/shaders" ++ 46%N :: lit "zip")
   /\ ~ In 46%N (lit "zip") /\ Forall (fun c => (c < 128)%N) (lit "zip")
   /\ (downloads shaders < 2 ^ 53)%N
      /\ httpGet be [UpdateDownloads (lit "c2") 2501]
           (Some (lit "https://files.example/content/shaders" ++ 46%N :: lit "zip"))
         = Fetched [80; 75]%N)
  /\ In (SaveFile (lit "Enhanced_Graphics_Mod.zip") [80; 75]%N
                  (lit "application/octet-stream"))
        (traceAfter run (start visitor))
  /\ (truthyOpt (App.error visitor) = false
      /\ featuredContent (viewAfter run (start visitor)) = [pack; counted; fresh]
      /\ filteredContent (viewAfter run (start visitor)) = [pack; counted; fresh])
  /\ (truthyOpt (App.error flagged) = true /\ viewAfter run (start flagged) = flagged).
Proof.
  cbv zeta.
  assert (Hd : ~ In 46%N (lit "zip")).
  { cbv. intros [H|[H|[H|[]]]]; discriminate H. }
  assert (Ha : Forall (fun c => (c < 128)%N) (lit "zip")).
  { repeat constructor. }
  assert (Hn : (downloads shaders < 2 ^ 53)%N) by reflexivity.
  set (be := services ok ok ok ok (Fetched [80; 75]%N)).
  destruct (@download_saves_under_a_sanitised_name be (start visitor) shaders
              (lit "https://files.example/content/shaders") (lit "zip") [80; 75]%N
              eq_refl Hd Ha Hn eq_refl) as (A & _ & B & _).
  destruct (@download_saves_under_a_sanitised_name be
              (start (App.setError
                        (Some (lit "Error fetching content. Please try again later."))
                        visitor))
              shaders
              (lit "https://files.example/content/shaders") (lit "zip") [80; 75]%N
              eq_refl Hd Ha Hn eq_refl) as (_ & _ & _ & C).
  split; [repeat split; try reflexivity; assumption|].
  split; [exact A|]. split.
  - split; [reflexivity|]. rewrite (B eq_refl). split; reflexivity.
  - split; [reflexivity | exact (C eq_refl)].
Defined.

Lemma failed_download_opens_the_file_in_a_tab_witness :
  let url := lit "https://files.example/content/shaders.zip" in
  let be := services ok ok ok ok (FetchFailed (lit "Failed to fetch")) in
  let run := handle (fun s => handleDownload be s shaders) in
  let count := UpdateDownloads (lit "c2") 2501 in
  (file_url shaders = Some url /\ url <> []
   /\ httpGet be [count] (Some url) = FetchFailed (lit "Failed to fetch"))
  /\ viewAfter run (start visitor) = visitor
  /\ exists log,
       traceAfter run (start visitor)
       = Net count :: log
           ++ [Net (HttpGet (Some url)); ConsoleError (lit "Download error:");
               Alert (lit "Download started in a new tab. You may need to save the file manually.");
               WindowOpen url]
       /\ requests log = [].
Proof.
  cbv zeta.
  assert (Hu : lit "https://files.example/content/shaders.zip" <> []) by discriminate.
  split; [repeat split; try reflexivity; exact Hu|].
  exact (@failed_download_opens_the_file_in_a_tab
           (services ok ok ok ok (FetchFailed (lit "Failed to fetch"))) (start visitor)
           shaders (lit "https://files.example/content/shaders.zip") (lit "Failed to fetch")
           eq_refl Hu eq_refl).
Defined.

Lemma downloads_from_the_detail_page_repeat_the_count_witness :
  let url := lit "https://files.example/content/shaders.zip" in
  let twice := (downloadSelected quiet ;; downloadSelected quiet)%handler in
  let count := UpdateDownloads (lit "c2") 2501 in
  let get := HttpGet (Some url) in
  (selectedContent reading = Some shaders /\ file_url shaders = Some url /\ url <> []
   /\ (downloads shaders < 2 ^ 53)%N)
  /\ requests (traceAfter twice (start reading)) = [count; get; count; get]
  /\ (StandardModel Binary64.round
      /\ fadd Binary64.round (inject_Z 2500) 1 == inject_Z 2501)
  /\ selectedContent (viewAfter twice (start reading)) = Some shaders.
Proof.
  cbv zeta.
  assert (Hu : lit "https://files.example/content/shaders.zip" <> []) by discriminate.
  assert (Hd : (downloads shaders < 2 ^ 53)%N) by reflexivity.
  destruct (@downloads_from_the_detail_page_repeat_the_count quiet (start reading) shaders
              (lit "https://files.example/content/shaders.zip") eq_refl eq_refl Hu Hd)
    as (A & S & C).
  split; [repeat split; try reflexivity; assumption|].
  split; [exact A|].
  split; [split; [exact binary64_standard | exact (S _ binary64_standard)] | exact C].
Defined.

Lemma rating_and_downloading_keep_the_items_and_their_order_witness :
  let ids s := (map id (featuredContent s), map id (filteredContent s)) in
  selectedContent browsing = None
  /\ ids (viewAfter (handle (fun s => handleDownload quiet s shaders)) (start browsing))
     = ([lit "c1"; lit "c2"; lit "c5"], [lit "c2"])
  /\ ids (viewAfter (rateSelected exact quiet 5) (start reading))
     = ([lit "c1"; lit "c2"; lit "c3"], [lit "c1"; lit "c2"; lit "c3"])
  /\ ids (viewAfter (handle (fun s => handleRate exact quiet s (lit "c2") 5)) (start browsing))
     = ([lit "c1"; lit "c2"; lit "c5"], [lit "c2"]).
Proof.
  cbv zeta. split; [reflexivity|].
  destruct (@rating_and_downloading_keep_the_items_and_their_order exact quiet
              (start browsing) shaders 5) as (A & _ & C).
  destruct (@rating_and_downloading_keep_the_items_and_their_order exact quiet
              (start reading) shaders 5) as (_ & B & _).
  cbv zeta in A, B, C.
  split; [rewrite A; reflexivity|]. split; [rewrite B; reflexivity|].
  rewrite (C eq_refl (lit "c2")). reflexivity.
Defined.

Lemma rating_an_unlisted_item_does_nothing_witness :
  let run := handle (fun s => handleRate exact quiet s (lit "c1") 5) in
  (selectedContent browsing = None
   /\ forall item, In item (filteredContent browsing) -> id item <> lit "c1")
  /\ traceAfter run (start browsing) = []
  /\ viewAfter run (start browsing) = browsing.
Proof.
  cbv zeta.
  assert (H : forall item, In item (filteredContent browsing) -> id item <> lit "c1").
  { intros item [<-|[]]. discriminate. }
  split; [split; [reflexivity | exact H]|].
  exact (@rating_an_unlisted_item_does_nothing exact quiet (start browsing) (lit "c1") 5
           eq_refl H).
Defined.

Lemma first_rating_is_the_star_witness :
  let w := start (App.setSelectedContent (Some seeded) visitor) in
  let run := handle (fun s => handleRate Binary64.round quiet s (lit "c5") 3) in
  (StandardModel Binary64.round
   /\ ratedContent (view w) (lit "c5") = Some seeded
   /\ currentRating seeded == 42 # 10
   /\ ratingsCount seeded = 0%N /\ (1 <= 3 <= 5)%Z)
  /\ exists v : Q,
       v == inject_Z 3
       /\ requests (traceAfter run w) = [UpdateRating (lit "c5") (Some v) 1].
Proof.
  cbv zeta. split.
  - split; [exact binary64_standard|]. repeat split; try reflexivity; discriminate.
  - apply (@first_rating_is_the_star Binary64.round quiet binary64_standard
             (start (App.setSelectedContent (Some seeded) visitor)) (lit "c5") seeded 3);
      [reflexivity | reflexivity | lia].
Defined.

Lemma selecting_an_item_fetches_its_comments_witness :
  let select := SelectComments (lit "c2") in
  let chatty := services ok ok (Resolved (Some [praise]) None) ok (Fetched []) in
  (commentRows chatty [] select = Resolved (Some [praise]) None
   /\ requests (traceAfter (handleSelectContent chatty shaders) (start visitor)) = [select]
   /\ selectedContent (viewAfter (handleSelectContent chatty shaders) (start visitor))
      = Some shaders
   /\ comments (viewAfter (handleSelectContent chatty shaders) (start visitor)) = [praise])
  /\ ((exists x, commentRows offline [] select = Rejected x)
      /\ selectedContent (viewAfter (handleSelectContent offline shaders) (start visitor))
         = Some shaders
      /\ comments (viewAfter (handleSelectContent offline shaders) (start visitor))
         = [spam; praise]).
Proof.
  cbv zeta. split.
  - destruct (@selecting_an_item_fetches_its_comments
                (services ok ok (Resolved (Some [praise]) None) ok (Fetched []))
                (start visitor) shaders) as (A & B & C & _).
    split; [reflexivity|]. split; [exact A|]. split; [exact B|].
    rewrite (C (Some [praise]) eq_refl). reflexivity.
  - assert (F : exists x, commentRows offline [] (SelectComments (lit "c2")) = Rejected x).
    { exists (lit "Failed to fetch"). reflexivity. }
    destruct (@selecting_an_item_fetches_its_comments offline (start visitor) shaders)
      as (_ & B & _ & D).
    split; [exact F|]. split; [exact B|].
    exact (proj2 (D (or_intror F))).
Defined.

Lemma failed_comment_post_keeps_the_draft_witness :
  let insert := InsertComment (lit "c1") (lit "Sam") (lit "Nice pack!") in
  let post (be : Backend) := handle (fun s => postComment be s (lit "c1")) in
  let echo := services ok ok (Resolved (Some [praise]) None) ok (Fetched []) in
  (trim (commentAuthor visitor) <> [] /\ trim (commentText visitor) <> [])
  /\ (commentRows denying [] insert = refused
      /\ viewAfter (post denying) (start visitor) = visitor
      /\ traceAfter (post denying) (start visitor)
         = [ConsoleLog (lit "Submitting comment:"); Net insert;
            ConsoleError (lit "Error posting comment:");
            Alert (lit "Failed to post comment: permission denied")])
  /\ (commentRows offline [] insert = Rejected (lit "Failed to fetch")
      /\ viewAfter (post offline) (start visitor) = visitor)
  /\ (commentRows echo [] insert = Resolved (Some [praise]) None
      /\ commentText (viewAfter (post echo) (start visitor)) = []
      /\ commentAuthor (viewAfter (post echo) (start visitor)) = lit " Sam ").
Proof.
  cbv zeta.
  assert (Ha : trim (commentAuthor visitor) <> []) by discriminate.
  assert (Ht : trim (commentText visitor) <> []) by discriminate.
  split; [split; assumption|]. split; [|split].
  - split; [reflexivity|].
    exact (proj1 (@failed_comment_post_keeps_the_draft denying (start visitor) (lit "c1")
                    Ha Ht)
             None {| message := lit "permission denied" |} eq_refl).
  - split; [reflexivity|].
    exact (proj1 (proj1 (proj2 (@failed_comment_post_keeps_the_draft offline (start visitor)
                                  (lit "c1") Ha Ht))
                    (lit "Failed to fetch") eq_refl)).
  - split; [reflexivity|].
    destruct (proj2 (proj2 (@failed_comment_post_keeps_the_draft
                              (services ok ok (Resolved (Some [praise]) None) ok (Fetched []))
                              (start visitor) (lit "c1") Ha Ht))
                praise [] eq_refl) as [A B].
    rewrite A. split; reflexivity.
Defined.

Lemma failed_comment_delete_changes_nothing_witness :
  let delete := DeleteComment (lit "m2") in
  let run (be : Backend) := handle (fun s => deleteComment be s (lit "m2")) in
  isAdmin moderator = true
  /\ (written denying [] delete = refused
      /\ viewAfter (run denying) (start moderator) = moderator
      /\ traceAfter (run denying) (start moderator)
         = [Net delete; ConsoleError (lit "Error deleting comment:");
            Alert (lit "Failed to delete comment: permission denied")])
  /\ (written offline [] delete = Rejected (lit "Failed to fetch")
      /\ viewAfter (run offline) (start moderator) = moderator)
  /\ (written quiet [] delete = Resolved None None
      /\ (In praise (comments (viewAfter (run quiet) (start moderator)))
          /\ ~ In spam (comments (viewAfter (run quiet) (start moderator))))).
Proof.
  cbv zeta. split; [reflexivity|]. split; [|split].
  - split; [reflexivity|].
    exact (proj1 (@failed_comment_delete_changes_nothing denying (start moderator)
                    (lit "m2") eq_refl)
             None {| message := lit "permission denied" |} eq_refl).
  - split; [reflexivity|].
    exact (proj1 (proj1 (proj2 (@failed_comment_delete_changes_nothing offline
                                  (start moderator) (lit "m2") eq_refl))
                    (lit "Failed to fetch") eq_refl)).
  - split; [reflexivity|].
    pose proof (proj2 (proj2 (@failed_comment_delete_changes_nothing quiet
                                (start moderator) (lit "m2") eq_refl))
                  None eq_refl) as K.
    split.
    + apply (proj2 (K praise)). split; [right; left; reflexivity | discriminate].
    + intros Hin. apply (proj1 (K spam)) in Hin. destruct Hin as [_ Hn].
      apply Hn. reflexivity.
Defined.

Import AdminPanel.

Lemma delete_dialog_closes_unless_a_call_is_rejected_witness :
  let delete := DeleteContent (lit "c1") in
  let refetch := SelectContent (lit "created_at") false in
  let unlisted := services ok (Rejected (lit "Failed to fetch")) ok ok (Fetched []) in
  let after (be : Backend) := viewAfter (handleDelete be (lit "c1")) (start panel) in
  (written denying [] delete = refused
   /\ deletingId (after denying) = None /\ showDeleteConfirm (after denying) = false)
  /\ (written quiet [] delete = Resolved None None
      /\ contentRows quiet [delete] refetch = Resolved None None
      /\ deletingId (after quiet) = None /\ showDeleteConfirm (after quiet) = false)
  /\ (written offline [] delete = Rejected (lit "Failed to fetch")
      /\ deletingId (after offline) = Some (lit "c1")
      /\ showDeleteConfirm (after offline) = true)
  /\ (written unlisted [] delete = Resolved None None
      /\ contentRows unlisted [delete] refetch = Rejected (lit "Failed to fetch")
      /\ (deletingId (after unlisted) = Some (lit "c1")
          /\ showDeleteConfirm (after unlisted) = true)
      /\ content (after unlisted) = [shaders]
      /\ AdminPanel.error (after unlisted)
         = Some (lit "Failed to delete content on server, but removed from view.")).
Proof.
  cbv zeta. split; [|split; [|split]].
  - split; [reflexivity|].
    exact (proj1 (@delete_dialog_closes_unless_a_call_is_rejected denying (start panel)
                    (lit "c1"))
             None {| message := lit "permission denied" |} eq_refl).
  - split; [reflexivity|]. split; [reflexivity|].
    exact (proj1 (proj2 (@delete_dialog_closes_unless_a_call_is_rejected quiet (start panel)
                           (lit "c1")))
             None None None eq_refl eq_refl).
  - split; [reflexivity|].
    exact (proj1 (proj2 (proj2 (@delete_dialog_closes_unless_a_call_is_rejected offline
                                  (start panel) (lit "c1"))))
             (lit "Failed to fetch") eq_refl).
  - split; [reflexivity|]. split; [reflexivity|].
    exact (proj2 (proj2 (proj2 (@delete_dialog_closes_unless_a_call_is_rejected
                                  (services ok (Rejected (lit "Failed to fetch")) ok ok
                                            (Fetched []))
                                  (start panel) (lit "c1"))))
             None (lit "Failed to fetch") eq_refl eq_refl).
Defined.

Lemma unconfirmed_delete_changes_no_item_witness :
  let askThenCancel := (confirmDelete (lit "c2") ;; cancelDelete)%handler in
  (deletingId idle = None /\ showDeleteConfirm idle = false)
  /\ deletingId (viewAfter (confirmDelete (lit "c2")) (start idle)) = Some (lit "c2")
  /\ showDeleteConfirm (viewAfter (confirmDelete (lit "c2")) (start idle)) = true
  /\ content (viewAfter askThenCancel (start idle)) = [pack; shaders]
  /\ traceAfter askThenCancel (start idle) = []
  /\ viewAfter askThenCancel (start idle) = idle.
Proof.
  cbv zeta.
  destruct (@unconfirmed_delete_changes_no_item quiet (start idle) (lit "c2"))
    as (A & _ & _ & C & D & E & _).
  split; [split; reflexivity|].
  rewrite A. split; [reflexivity|]. split; [reflexivity|].
  split; [exact C|]. split; [exact D|]. exact (E eq_refl eq_refl).
Defined.

Lemma accepted_selection_is_what_a_submission_uploads_witness :
  let pick := handleFileChange (Some brimful) in
  let submit := handle (handleSubmit exact quiet) in
  let upload :=
    StorageUpload (lit "content-files") (lit "content/k3x9-world.zip") brimful
      (lit "application/zip") (lit "3600") in
  (File.size brimful <= maxFileSize)%N
  /\ file (viewAfter pick (start idle)) = Some brimful
  /\ AdminPanel.error (viewAfter pick (start idle)) = None
  /\ traceAfter pick (start idle) = []
  /\ (exists rest,
        requests (traceAfter (pick ;; submit)%handler (start idle)) = upload :: rest)
  /\ file (viewAfter (handleFileChange None) (start panel)) = None
  /\ Forall (fun r => isUpload (Net r) = false)
       (requests (traceAfter (handleFileChange None ;; submit)%handler (start panel))).
Proof.
  cbv zeta.
  assert (H : (File.size brimful <= maxFileSize)%N) by (cbv; discriminate).
  destruct (@accepted_selection_is_what_a_submission_uploads exact quiet (start idle)
              brimful H) as (A & B & C & _).
  destruct (@accepted_selection_is_what_a_submission_uploads exact quiet (start panel)
              brimful H) as (_ & _ & _ & D & E).
  split; [exact H|]. rewrite A, D.
  split; [reflexivity|]. split; [reflexivity|]. split; [exact B|].
  split; [exact C|]. split; [reflexivity | exact E].
Defined.

Lemma submission_without_file_writes_the_form_witness :
  let write := InsertContent (formData idle) 0 0 (lit "admin") in
  let refetch := SelectContent (lit "created_at") false in
  let run (be : Backend) := handle (handleSubmit exact be) in
  file idle = None
  /\ (written quiet [] write = Resolved None None
      /\ requests (traceAfter (run quiet) (start idle)) = [write; refetch]
      /\ formData (viewAfter (run quiet) (start idle)) = emptyForm
      /\ isEditing (viewAfter (run quiet) (start idle)) = None)
  /\ ((exists d e, written denying [] write = Resolved d (Some e))
      /\ requests (traceAfter (run denying) (start idle)) = [write]
      /\ viewAfter (run denying) (start idle)
         = AdminPanel.setError (Some (lit "Failed to save content. Please try again.")) idle).
Proof.
  cbv zeta. split; [reflexivity|]. split.
  - split; [reflexivity|].
    destruct (proj1 (@submission_without_file_writes_the_form exact quiet (start idle) eq_refl)
                None eq_refl) as (A & B & C & _).
    split; [exact A|]. split; [exact B | exact C].
  - assert (F : exists d e,
               written denying [] (InsertContent (formData idle) 0 0 (lit "admin"))
               = Resolved d (Some e)).
    { exists None, {| message := lit "permission denied" |}. reflexivity. }
    split; [exact F|].
    exact (proj2 (@submission_without_file_writes_the_form exact denying (start idle) eq_refl)
             (or_introl F)).
Defined.

Lemma failed_upload_is_rethrown_and_ends_the_spinner_witness :
  let upload :=
    StorageUpload (lit "content-files") (lit "content/k3x9-guide.v2.HTML") guide
      (lit "application/octet-stream") (lit "3600") in
  let busy := AdminPanel.setUploading true panel in
  (written denying [] upload = refused
   /\ fst (uploadFile exact denying guide (start busy)) = Exc (lit "permission denied")
   /\ traceAfter (uploadFile exact denying guide) (start busy)
      = [Net upload; ConsoleError (lit "Error uploading file:")])
  /\ (written offline [] upload = Rejected (lit "Failed to fetch")
      /\ fst (uploadFile exact offline guide (start busy)) = Exc (lit "Failed to fetch"))
  /\ viewAfter (uploadFile exact offline guide) (start busy) = panel
  /\ (file busy = Some guide
      /\ uploading (viewAfter (handle (handleSubmit exact quiet)) (start busy)) = false).
Proof.
  cbv zeta. split; [|split; [|split]].
  - split; [reflexivity|].
    exact (proj1 (proj2 (@failed_upload_is_rethrown_and_ends_the_spinner exact denying
                           (start (AdminPanel.setUploading true panel)) guide))
             None {| message := lit "permission denied" |} eq_refl).
  - split; [reflexivity|].
    exact (proj1 (proj1 (proj2 (proj2 (@failed_upload_is_rethrown_and_ends_the_spinner exact
                                         offline (start (AdminPanel.setUploading true panel))
                                         guide)))
                    (lit "Failed to fetch") eq_refl)).
  - exact (proj1 (@failed_upload_is_rethrown_and_ends_the_spinner exact offline
                    (start (AdminPanel.setUploading true panel)) guide)).
  - split; [reflexivity|].
    exact (proj2 (proj2 (proj2 (@failed_upload_is_rethrown_and_ends_the_spinner exact quiet
                                  (start (AdminPanel.setUploading true panel)) guide)))
             eq_refl).
Defined.

Lemma upload_type_is_hardened_by_type_or_last_segment_witness :
  let sent (f : File.t) (path contentType : jsstring) :=
    requests (traceAfter (uploadFile exact quiet f) (start idle))
    = [StorageUpload (lit "content-files") path f contentType (lit "3600")] in
  ((File.name brimful = lit "world" ++ 46%N :: lit "zip" /\ ~ In 46%N (lit "zip"))
   /\ File.type brimful <> lit "text/html" /\ toLowerCase (lit "zip") <> lit "html"
   /\ sent brimful (lit "content/k3x9-world.zip") (lit "application/zip"))
  /\ ((~ In 46%N (File.name (File.mk (lit "HTML") (lit "text/plain") 12)))
      /\ toLowerCase (lit "HTML") = lit "html"
      /\ sent (File.mk (lit "HTML") (lit "text/plain") 12) (lit "content/k3x9-HTML")
           (lit "application/octet-stream")).
Proof.
  cbv zeta. split.
  - assert (Hd : ~ In 46%N (lit "zip")).
    { cbv. intros [H|[H|[H|[]]]]; discriminate H. }
    assert (Ht : File.type brimful <> lit "text/html") by discriminate.
    assert (He : toLowerCase (lit "zip") <> lit "html") by discriminate.
    split; [split; [reflexivity | exact Hd]|]. split; [exact Ht|]. split; [exact He|].
    exact (proj1 (@upload_type_is_hardened_by_type_or_last_segment exact quiet (start idle)
                    brimful (lit "world") (lit "zip") (or_introl (conj eq_refl Hd)))
             Ht He).
  - assert (Hd : ~ In 46%N (File.name (File.mk (lit "HTML") (lit "text/plain") 12))).
    { cbv. intros [H|[H|[H|[H|[]]]]]; discriminate H. }
    split; [exact Hd|]. split; [reflexivity|].
    exact (proj2 (@upload_type_is_hardened_by_type_or_last_segment exact quiet (start idle)
                    (File.mk (lit "HTML") (lit "text/plain") 12) [] (lit "HTML")
                    (or_intror (conj Hd eq_refl)))
             (or_intror eq_refl)).
Defined.

Lemma panel_loaders_let_a_rejection_escape_witness :
  let signedIn := withSession (Resolved (Some (lit "admin@admin.com")) None) quiet in
  let cut := withSession (Rejected (lit "Failed to fetch")) offline in
  (contentRows offline [] (SelectContent (lit "created_at") false)
   = Rejected (lit "Failed to fetch")
   /\ fst (fetchContent offline (start idle)) = Exc (lit "Failed to fetch")
   /\ viewAfter (fetchContent offline) (start idle) = idle)
  /\ (session cut [] AuthGetSession = Rejected (lit "Failed to fetch")
      /\ fst (checkAuthStatus cut (start AdminPanel.initial)) = Exc (lit "Failed to fetch")
      /\ authStatus (viewAfter (checkAuthStatus cut) (start AdminPanel.initial))
         = lit "Checking...")
  /\ (session signedIn [] AuthGetSession = Resolved (Some (lit "admin@admin.com")) None
      /\ authStatus (viewAfter (checkAuthStatus signedIn) (start AdminPanel.initial))
         = lit "Authenticated as: admin@admin.com")
  /\ (session quiet [] AuthGetSession = Resolved None None
      /\ authStatus (viewAfter (checkAuthStatus quiet) (start AdminPanel.initial))
         = lit "Not authenticated - delete may not work").
Proof.
  cbv zeta. split; [|split; [|split]].
  - split; [reflexivity|].
    exact (proj1 (@panel_loaders_let_a_rejection_escape offline (start idle))
             (lit "Failed to fetch") eq_refl).
  - split; [reflexivity|].
    exact (proj1 (proj2 (@panel_loaders_let_a_rejection_escape
                           (withSession (Rejected (lit "Failed to fetch")) offline)
                           (start AdminPanel.initial)))
             (lit "Failed to fetch") eq_refl).
  - split; [reflexivity|].
    rewrite (proj1 (proj2 (proj2 (@panel_loaders_let_a_rejection_escape
                                    (withSession (Resolved (Some (lit "admin@admin.com")) None)
                                                 quiet)
                                    (start AdminPanel.initial))))
               (lit "admin@admin.com") None eq_refl).
    reflexivity.
  - split; [reflexivity|].
    rewrite (proj2 (proj2 (proj2 (@panel_loaders_let_a_rejection_escape quiet
                                    (start AdminPanel.initial))))
               None eq_refl).
    reflexivity.
Defined.

Import Download.

Lemma unknown_record_is_answered_404_witness :
  let select := SelectFileRecord (lit "c9") in
  (fileRecord quiet [] select = Resolved None None
   /\ traceAfter (handler quiet (lit "c9")) (mkWorld tt [])
      = [Net select; ResStatus 404; ResJson (lit "File not found")])
  /\ ((exists d e, fileRecord denying [] select = Resolved d (Some e))
      /\ traceAfter (handler denying (lit "c9")) (mkWorld tt [])
         = [Net select; ResStatus 404; ResJson (lit "File not found")]).
Proof.
  cbv zeta. split.
  - split; [reflexivity|].
    exact (@unknown_record_is_answered_404 quiet [] (lit "c9") (or_intror eq_refl)).
  - assert (F : exists d e, fileRecord denying [] (SelectFileRecord (lit "c9"))
                            = Resolved d (Some e)).
    { exists None, {| message := lit "permission denied" |}. reflexivity. }
    split; [exact F|].
    exact (@unknown_record_is_answered_404 denying [] (lit "c9") (or_introl F)).
Defined.

Lemma failed_download_is_answered_500_witness :
  let select := SelectFileRecord (lit "c2") in
  let count := UpdateDownloads (lit "c2") 2501 in
  let get := HttpGet (Some (lit "https://files.example/content/shaders.zip")) in
  let failure :=
    [ConsoleError (lit "Error in download API:"); ResStatus 500;
     ResJson (lit "Server error")] in
  let gone := services ok ok ok (Resolved (Some stored) None) (FetchFailed (lit "ENOTFOUND")) in
  (fileRecord offline [] select = Rejected (lit "Failed to fetch")
   /\ traceAfter (handler offline (lit "c2")) (mkWorld tt []) = Net select :: failure)
  /\ (fileRecord gone [] select = Resolved (Some stored) None
      /\ written gone [select] count = Resolved None None
      /\ httpGet gone [select; count] (FileRecord.file_url stored)
         = FetchFailed (lit "ENOTFOUND")
      /\ traceAfter (handler gone (lit "c2")) (mkWorld tt [])
         = Net select :: Net count :: Net get :: failure).
Proof.
  cbv zeta. split.
  - split; [reflexivity|].
    exact (proj1 (@failed_download_is_answered_500 offline [] (lit "c2"))
             (lit "Failed to fetch") eq_refl).
  - split; [reflexivity|]. split; [reflexivity|]. split; [reflexivity|].
    exact (proj2 (proj2 (@failed_download_is_answered_500
                           (services ok ok ok (Resolved (Some stored) None)
                                     (FetchFailed (lit "ENOTFOUND")))
                           [] (lit "c2"))
                    stored eq_refl)
             None None (lit "ENOTFOUND") eq_refl eq_refl).
Defined.


Lemma blank_name_or_text_is_not_posted_witness :
  let run := handle (fun s => postComment quiet s (lit "c1")) in
  let tabbed := App.setCommentText [9; 32; 160; 8195; 10]%N visitor in
  (blank (commentText tabbed)
   /\ traceAfter run (start tabbed) = [Alert (lit "Please enter your name and comment")]
   /\ viewAfter run (start tabbed) = tabbed)
  /\ (~ blank (commentAuthor visitor) /\ ~ blank (commentText visitor)
      /\ exists rest,
           requests (traceAfter run (start visitor))
           = InsertComment (lit "c1") (lit "Sam") (lit "Nice pack!") :: rest).
Proof.
  cbv zeta.
  assert (B : blank (commentText (App.setCommentText [9; 32; 160; 8195; 10]%N visitor))).
  { repeat constructor. }
  assert (Ha : ~ blank (commentAuthor visitor)).
  { intros H. apply trim_nil in H. discriminate H. }
  assert (Ht : ~ blank (commentText visitor)).
  { intros H. apply trim_nil in H. discriminate H. }
  split.
  - split; [exact B|].
    exact (proj1 (@blank_name_or_text_is_not_posted quiet
                    (start (App.setCommentText [9; 32; 160; 8195; 10]%N visitor)) (lit "c1"))
             (or_intror B)).
  - split; [exact Ha|]. split; [exact Ht|].
    exact (proj2 (@blank_name_or_text_is_not_posted quiet (start visitor) (lit "c1")) Ha Ht).
Defined.
